(* ===== verification/_CoqProject ===== *)
-Q . S2P
Prelude.v
JsLib.v
Landing.v
Types.v
Json.v
Storage.v
Auth.v
FirstLoginForm.v
ProfileView.v
RefData.v
Provider.v
AdminPanel.v
Screens.v
AdminView.v
App.v
Layout.v
Shape.v
