(* ===== verification/Prelude.v ===== *)
(** * Verification of the Khabarovsk corporate portal (portal-hrabarovsk)

    This development models the TypeScript/React sources under [src/src/]
    and proves what they do.  The program is a browser single-page
    application: every piece of state lives in React hooks of one provider
    ([AuthProvider], src/src/context/AuthContext.tsx) or of the screens,
    plus one record ['portal_user'] in [localStorage].  [Portal.tsx] picks
    the screen from the provider's state (spinner, login form, first-login
    form, or the main layout with the current view); the screens call the
    provider's operations.

    ** Conventions of the model
    - Strings are lists of UTF-16 code units ([list N], [jsstr]); source
      literals are written [js "..."].  Plain objects used as records are
      association lists in insertion order ([JsLib.jsobj]).
    - Code that may throw returns [outcome] ([Normal] or [Throw exn]).
    - React [useState]: a handler closes over the state of the render
      that created it (a snapshot); a plain [setX v] writes the live
      store; a functional update [setX (prev => ...)] reads the live
      store.  A component that unmounts loses its state.

    ** Files, in dependency order
    - [Prelude.v] (this file): [portal_scope], [js] literals, [outcome],
      the [portal] hint databases, tactics ([case_ifs], ...) and lemmas on
      lists and booleans shared by every file.
    - [JsLib.v]: the ECMAScript built-ins the code calls: [trim],
      [startsWith], [Array.find/filter], objects as [jsobj].
    - [Landing.v] (Module [Landing]): [pages/Index.tsx], a page of its
      own that no other module imports: a constant user and lists, and
      the avatar's initials and the greeting computed with
      [String.split] and [Array.join] (modelled there, with their round
      trip); the initials are one code unit per word of the name.
    - [Types.v]: [types/auth.ts]: the records [User], [Ministry],
      [Department], [Position], [Address], [Resource] (a Module each,
      with its [Partial<..>] record and the spread [{...x, ...p}]).
    - [Json.v]: [JSON.stringify] and [JSON.parse] on UTF-16 text; the
      parser runs on fuel, and [jsize v] (one unit per value and element)
      is enough fuel for the text of [v]: the round trip
      [parse_json_stringify] holds for every well-formed value.
    - [Storage.v]: the Web Storage interface as the class [WebStorage]
      with its laws [WebStorageLaws]; two instances: [QuotaStorage] (the
      browser: a [gmap] with a quota, [setItem] throws
      [QuotaExceededError]) and [MapStorage] (no quota).
    - [Auth.v] (Module [Auth]): the provider's session part: state
      [AuthState], [login] (split at its 1 s timer into the spinner and
      [login_finish]), [logout], [updateUserProfile],
      [completeFirstLogin], the start-up effect [restore].  Theorems on
      login success and rejection, the save/restore round trip, logout,
      corrupt records, no rollback on a full storage, and reload.
    - [FirstLoginForm.v]: [FirstLoginForm.tsx]: [validateForm] with its
      thirteen tests, the e-mail and phone regexes (proved equal to the
      languages of the patterns), [handlePhoneFormat],
      [handleInputChange], [handleSubmit]; [handleSubmit_drops_profile]:
      the submit handler drops the typed profile because both provider
      callbacks read a stale snapshot.
    - [ProfileView.v]: the render of the same form: the department
      filter, the input wiring and the error messages shown.
    - [RefData.v]: the fifteen CRUD callbacks of the provider, written
      once over the class [Entity] (identifier, spread, [Partial]) with
      its laws [EntityLaws], and instantiated for the five lists:
      lookups after add/update/delete, uniqueness of identifiers under a
      valid sequence of operations, the collision of [Date.now()]
      identifiers.
    - [Provider.v] (Module [Provider]): the context plumbing: the
      [AuthContextType] record of state and 23 callbacks, the value
      [provider_value] the provider builds over its render's snapshot, and
      [useAuth], which throws outside a provider.
    - [AdminPanel.v]: [AdminPanel.tsx]'s handlers: [handleAdd],
      [handleUpdate], [handleDelete] dispatching on the section (a
      dependent type of records per section), the dialog's state and
      form data.
    - [Screens.v]: [Portal.tsx] ([renderContent], [portal_screen]),
      [Navigation.tsx] (the role filter), [LoginForm.tsx]
      ([handleSubmit]), [Dashboard.tsx] (the sorted active resources, an
      insertion sort proved to be a sorted permutation), [Header.tsx]
      (initials and lookups).
    - [AdminView.v]: what [AdminPanel.tsx] renders (titles, table, the
      dialog's inputs) and the dialog as a whole: its form edited by a
      sequence of inputs, the order input through [parseInt] (whose
      round trip with the number's text is proved), then submitted.
    - [App.v] (Module [App]): the whole program as a step function
      [app_step] over [AppState] (provider state, current view, login
      form state) for the user's events, a page load [boot], the
      inductive [reachable] set, the invariant [synced] (live session and
      saved record agree) and the specification's session machine
      [spec_step] over [Unauthenticated | PendingProfile | Active].
      [reachable_synced]: every reachable state is synced; [app_refines]:
      every step refines the specification; [reachable_not_loading]: no
      reachable state is stuck on the spinner; all three as long as
      saving cannot fail (Hypothesis [set_total] of its Section).  The
      view is kept across logout and login, and the login form is
      remounted because [Portal] shows the spinner while [login] waits
      ([login_event], which derives the remount from the screen).
    - [Layout.v]: what [Header.tsx], [Navigation.tsx], [Dashboard.tsx]
      and [LoginForm.tsx] render, with their click and input handlers;
      a saved record of a foreign shape opens the main screen and makes
      the header throw, and no seeded dashboard card opens a page.
    - [Shape.v] (Module [Shape]): the type invariant of the session: along
      every run of [App.app_step] from a page load whose saved record has
      the [User] shape, and whose typed profile fields are strings (as a
      DOM input gives), the live user and the saved record keep that
      shape, so the header always renders ([reachable_header_renders]).

    ** Bounds
    The only fuel is the parser's ([Json.parse_value]) and the digit
    printer's ([Json.pos_digits], given [Pos.size_nat n] steps, the bit
    length, which exceeds the decimal length: [N_dec_complete] shows it
    always prints every digit).  The parser's fuel [jsize v] is shown
    enough for the text of every value, so no theorem is conditional on
    running out of it.  Numbers are unbounded integers: the program only
    tests the truthiness of the numbers it stores and compares the
    resources' orders; [parseInt] yields an IEEE double, exact only below
    2^53; [parseInt_short_exact] shows that an input of at most 15
    code units gives an integer below 2^53, where the model's exact
    integer is the double the code computes.  The input itself has no
    length limit, so for longer texts the model keeps the exact integer
    where JavaScript rounds: a disclosed approximation, which no theorem
    depends on.  The identifiers [Date.now().toString()] are modelled from a
    natural number [now].

    ** Not modelled
    The UI component library the screens import (the [@/components/ui]
    modules, outside [src/src]), styling and icons, the [Promise] that
    [login] returns and its 1 s timer beyond the split into [login_start]
    (the spinner) and [login_finish], and React's rendering: the screens
    hold their state in hooks, and the model passes the provider's
    [AuthState] and operations to them directly ([Provider.v] shows the
    context value is exactly those operations).  React's scheduling is
    modelled only as the order of the handlers' effects.  Floating point
    is not modelled beyond the [parseInt] bound above.
*)

From stdpp Require Import base list gmap strings.
From Stdlib Require Import NArith.

Declare Scope portal_scope.
Delimit Scope portal_scope with portal.
Open Scope portal_scope.

(** ** JavaScript strings *)

(** A JavaScript string is a sequence of UTF-16 code units. *)
Abbreviation jsstr := (list N).

(** Decoding the UTF-8 bytes of a Rocq string literal into UTF-16 code
    units; code points above U+FFFF become a surrogate pair, as in a JS
    source file.  Used to write the literals of the TypeScript sources. *)
Fixpoint js (s : string) : jsstr :=
  match s with
  | EmptyString => []
  | String a r =>
      let b := Ascii.N_of_ascii a in
      if (b <? 128)%N then b :: js r
      else if (b <? 224)%N then
        match r with
        | String a2 r2 =>
            ((b - 192) * 64 + (Ascii.N_of_ascii a2 - 128))%N :: js r2
        | EmptyString => []
        end
      else if (b <? 240)%N then
        match r with
        | String a2 (String a3 r3) =>
            ((b - 224) * 4096 + (Ascii.N_of_ascii a2 - 128) * 64
             + (Ascii.N_of_ascii a3 - 128))%N :: js r3
        | _ => []
        end
      else
        match r with
        | String a2 (String a3 (String a4 r4)) =>
            let cp := ((b - 240) * 262144 + (Ascii.N_of_ascii a2 - 128) * 4096
                       + (Ascii.N_of_ascii a3 - 128) * 64
                       + (Ascii.N_of_ascii a4 - 128) - 65536)%N in
            (55296 + cp / 1024)%N :: (56320 + cp mod 1024)%N :: js r4
        | _ => []
        end
  end.

Arguments js s%_string.

(** ** Code that may throw *)

(** The exceptions the modelled code can raise: [JSON.parse] on text that
    is not JSON raises a [SyntaxError]; [localStorage.setItem] raises a
    [QuotaExceededError] when the storage is full; calling a string
    method on a value that is not a string raises a [TypeError];
    [throw new Error(message)] raises [JsError message]. *)
Inductive exn := SyntaxError | QuotaExceededError | TypeError | JsError (message : jsstr).

Inductive outcome (A : Type) :=
| Normal (a : A)
| Throw (e : exn).
Arguments Normal {A} a.
Arguments Throw {A} e.

Definition obind {A B} (c : outcome A) (k : A -> outcome B) : outcome B :=
  match c with Normal a => k a | Throw e => Throw e end.

Notation "x <-! c ;; k" := (obind c (fun x => k))
  (at level 100, c at next level, right associativity) : portal_scope.

(** ** Automation *)

Create HintDb portal discriminated.
Create Rewrite HintDb portal_rw.

(** Case analysis on the boolean tests and matches of a goal, the step
    every functional-behaviour proof of the development starts with. *)
Ltac case_ifs :=
  repeat match goal with
  | |- context [if ?b then _ else _] =>
      let E := fresh "E" in destruct b eqn:E
  | H : context [if ?b then _ else _] |- _ =>
      let E := fresh "E" in destruct b eqn:E
  end.

(** Splitting the boolean conjunctions, disjunctions and negations of the
    hypotheses into their parts. *)
Ltac bool_hyps :=
  repeat match goal with
  | H : (_ && _) = true |- _ => apply andb_true_iff in H as [? ?]
  | H : (_ || _) = false |- _ => apply orb_false_iff in H as [? ?]
  | H : negb _ = true |- _ => apply negb_true_iff in H
  | H : negb _ = false |- _ => apply negb_false_iff in H
  end.

(** Turning the boolean comparisons on [N] of the hypotheses into
    propositions for [lia]. *)
Ltac nbool :=
  repeat match goal with
  | H : N.leb _ _ = true |- _ => apply N.leb_le in H
  | H : N.leb _ _ = false |- _ => apply N.leb_gt in H
  | H : N.ltb _ _ = true |- _ => apply N.ltb_lt in H
  | H : N.ltb _ _ = false |- _ => apply N.ltb_ge in H
  | H : N.eqb _ _ = true |- _ => apply N.eqb_eq in H
  | H : N.eqb _ _ = false |- _ => apply N.eqb_neq in H
  end.

(** ** Shared lemmas *)

Lemma obind_normal {A B} (a : A) (k : A -> outcome B) :
  obind (Normal a) k = k a.
Proof. reflexivity. Qed.

Lemma obind_throw {A B} (e : exn) (k : A -> outcome B) :
  obind (Throw e) k = Throw e.
Proof. reflexivity. Qed.

#[export] Hint Rewrite @obind_normal @obind_throw : portal_rw.

Lemma forallb_app_iff {A} (f : A -> bool) (l1 l2 : list A) :
  forallb f (l1 ++ l2) = true <-> forallb f l1 = true /\ forallb f l2 = true.
Proof. rewrite forallb_app. apply andb_true_iff. Qed.

#[export] Hint Rewrite @forallb_app : portal_rw.

Lemma filter_all_false {A} (f : A -> bool) (l : list A) :
  Forall (fun x => f x = false) l -> List.filter f l = [].
Proof. induction 1 as [|x l Hx _ IH]; simpl; [done|]. by rewrite Hx. Qed.

Lemma List_filter_sublist {A} (f : A -> bool) (l : list A) : List.filter f l `sublist_of` l.
Proof.
  induction l as [|x l IH]; simpl; [done|].
  destruct (f x); [by apply sublist_skip|by apply sublist_cons].
Qed.

Lemma sublist_map {A B} (f : A -> B) (l1 l2 : list A) :
  l1 `sublist_of` l2 -> map f l1 `sublist_of` map f l2.
Proof. induction 1; simpl; by constructor. Qed.

(** Among elements with distinct keys, at most one passes a test that
    fixes the key. *)
Lemma filter_at_most_one {A K} (key : A -> K) (p : A -> bool) (k : K) (l : list A) :
  NoDup (map key l) -> (forall x, x ∈ l -> p x = true -> key x = k) ->
  length (List.filter p l) <= 1.
Proof.
  intros Hnd Hp. induction l as [|x l IH]; simpl; [lia|].
  apply NoDup_cons in Hnd as [Hx Hnd].
  destruct (p x) eqn:Ex; [|apply IH; [done|intros y Hy; apply Hp; set_solver]].
  rewrite filter_all_false; [simpl; lia|]. apply Forall_forall. intros y Hy.
  destruct (p y) eqn:Ey; [|done]. exfalso. apply Hx.
  rewrite (Hp x ltac:(set_solver) Ex), <- (Hp y ltac:(set_solver) Ey).
  by apply list_elem_of_fmap_2.
Qed.

Lemma existsb_eq_absent {A} `{EqDecision A} (s : A) (l : list A) :
  s ∉ l -> existsb (fun a => bool_decide (a = s)) l = false.
Proof.
  induction l as [|a l IH]; simpl; [done|]. rewrite not_elem_of_cons. intros [Ha Hl].
  rewrite bool_decide_false by congruence. by apply IH.
Qed.
