(* ===== verification/JsLib.v ===== *)
(** * ECMAScript built-ins called by the sources

    The string and object operations the TypeScript code relies on, with
    their ECMAScript semantics on UTF-16 code units:
    - [is_ws]: the code units of WhiteSpace and LineTerminator, which is
      both the set [String.prototype.trim] removes and the class [\s] of
      a regular expression;
    - [js_trim], [starts_with], [strip_non_digits] ([s.replace(/\D/g, '')]);
    - plain objects used as string-keyed records ([Record<string,string>])
      as association lists in insertion order, with [obj_set] for
      [o[k] = v] and [obj_keys] for [Object.keys];
    - truthiness of strings ([!s] is [s = ""]). *)

From stdpp Require Import base list strings.
From Stdlib Require Import NArith.
From S2P Require Import Prelude.

Open Scope N_scope.

(** ** Character classes *)

(** WhiteSpace (TAB, VT, FF, SP, NBSP, ZWNBSP and the Zs category) and
    LineTerminator (LF, CR, LS, PS), ECMAScript 2023 sections 12.2-12.3. *)
Definition is_ws (c : N) : bool :=
  (c =? 9) || (c =? 10) || (c =? 11) || (c =? 12) || (c =? 13) || (c =? 32)
  || (c =? 160) || (c =? 5760) || ((8192 <=? c) && (c <=? 8202))
  || (c =? 8232) || (c =? 8233) || (c =? 8239) || (c =? 8287)
  || (c =? 12288) || (c =? 65279).

(** [\d]: the ASCII digits only (no [u] flag). *)
Definition is_digit (c : N) : bool := (48 <=? c) && (c <=? 57).

(** ** String.prototype methods *)

Fixpoint trim_start (s : jsstr) : jsstr :=
  match s with
  | [] => []
  | c :: r => if is_ws c then trim_start r else s
  end.

Definition trim_end (s : jsstr) : jsstr := rev (trim_start (rev s)).

(** [s.trim()] *)
Definition js_trim (s : jsstr) : jsstr := trim_end (trim_start s).

(** [s.startsWith(p)] *)
Fixpoint starts_with (p s : jsstr) : bool :=
  match p, s with
  | [], _ => true
  | a :: p', b :: s' => (a =? b) && starts_with p' s'
  | _ :: _, [] => false
  end.

(** [s.replace(/\D/g, '')]: every code unit that is not an ASCII digit is
    removed. *)
Definition strip_non_digits (s : jsstr) : jsstr := List.filter is_digit s.

(** [!s] for a string [s]: only the empty string is falsy. *)
Definition str_falsy (s : jsstr) : bool :=
  match s with [] => true | _ => false end.

(** ** Plain objects with string keys *)

(** A plain object as its own enumerable properties in insertion order. *)
Abbreviation jsobj V := (list (jsstr * V)).

(** [o[k] = v]: an existing key keeps its position and takes the new
    value; a new key is appended. *)
Fixpoint obj_set {V} (k : jsstr) (v : V) (o : jsobj V) : jsobj V :=
  match o with
  | [] => [(k, v)]
  | (k', v') :: r => if decide (k = k') then (k, v) :: r else (k', v') :: obj_set k v r
  end.

(** [o[k]], [undefined] being [None]. *)
Fixpoint obj_get {V} (k : jsstr) (o : jsobj V) : option V :=
  match o with
  | [] => None
  | (k', v') :: r => if decide (k = k') then Some v' else obj_get k r
  end.

(** [Object.keys(o)] *)
Definition obj_keys {V} (o : jsobj V) : list jsstr := map fst o.

(** ** Lemmas *)

Lemma trim_start_head_not_ws (s : jsstr) c r :
  trim_start s = c :: r -> is_ws c = false.
Proof.
  induction s as [|a s IH]; simpl; [discriminate|].
  destruct (is_ws a) eqn:E; [exact IH|]. intros [= -> ->]. exact E.
Qed.

Lemma trim_start_nil_iff (s : jsstr) :
  trim_start s = [] <-> forallb is_ws s = true.
Proof.
  induction s as [|a s IH]; simpl; [done|].
  destruct (is_ws a); simpl; [exact IH|]. split; discriminate.
Qed.

Lemma forallb_rev {A} (f : A -> bool) (l : list A) :
  forallb f (rev l) = forallb f l.
Proof.
  induction l as [|a l IH]; simpl; [done|].
  rewrite forallb_app, IH. simpl. by rewrite andb_true_r, andb_comm.
Qed.

Lemma trim_end_nil_iff (s : jsstr) :
  trim_end s = [] <-> forallb is_ws s = true.
Proof.
  unfold trim_end. rewrite <- forallb_rev, <- trim_start_nil_iff.
  split; [|intros ->; done]. intros H. apply (f_equal (@rev N)) in H.
  by rewrite rev_involutive in H.
Qed.

Lemma trim_start_forallb (s : jsstr) :
  forallb is_ws (trim_start s) = forallb is_ws s.
Proof.
  induction s as [|a s IH]; simpl; [done|].
  destruct (is_ws a) eqn:E; simpl; [exact IH|]. by rewrite E.
Qed.

(** A string trims to the empty string exactly when all its code units
    are white space: the test [!s.trim()] of the form. *)
Lemma js_trim_nil_iff (s : jsstr) :
  js_trim s = [] <-> forallb is_ws s = true.
Proof.
  unfold js_trim. rewrite trim_end_nil_iff. by rewrite trim_start_forallb.
Qed.

Lemma obj_get_set_eq {V} (k : jsstr) (v : V) o : obj_get k (obj_set k v o) = Some v.
Proof.
  induction o as [|[k' v'] o IH]; simpl; [by rewrite decide_True|].
  destruct (decide (k = k')) as [->|Hne]; simpl.
  - by rewrite decide_True.
  - by rewrite decide_False.
Qed.

Lemma obj_get_set_ne {V} (k k2 : jsstr) (v : V) o :
  k2 <> k -> obj_get k2 (obj_set k v o) = obj_get k2 o.
Proof.
  intros Hne. induction o as [|[k' v'] o IH]; simpl.
  - by rewrite decide_False.
  - destruct (decide (k = k')) as [->|Hne']; simpl.
    + by rewrite !decide_False.
    + destruct (decide (k2 = k')); [done|exact IH].
Qed.

Lemma obj_keys_set_in {V} (k : jsstr) (v : V) o :
  k ∈ obj_keys o -> obj_keys (obj_set k v o) = obj_keys o.
Proof.
  induction o as [|[k' v'] o IH]; simpl; [by intros ?%elem_of_nil|].
  intros Hin. destruct (decide (k = k')) as [->|Hne]; simpl; [done|].
  rewrite IH; [done|]. apply elem_of_cons in Hin as [->|?]; [congruence|done].
Qed.

Lemma obj_keys_set_notin {V} (k : jsstr) (v : V) o :
  k ∉ obj_keys o -> obj_keys (obj_set k v o) = obj_keys o ++ [k].
Proof.
  induction o as [|[k' v'] o IH]; simpl; [done|].
  intros Hin. destruct (decide (k = k')) as [->|Hne]; simpl.
  - exfalso. apply Hin. by apply elem_of_cons; left.
  - rewrite IH; [done|]. intros ?. apply Hin. by apply elem_of_cons; right.
Qed.

#[export] Hint Rewrite @obj_get_set_eq : portal_rw.

Lemma elem_of_obj_keys {V} (k : jsstr) (o : jsobj V) :
  k ∈ obj_keys o <-> is_Some (obj_get k o).
Proof.
  induction o as [|[k' v'] o IH]; simpl.
  - rewrite elem_of_nil. split; [done|]. by intros [? ?].
  - rewrite elem_of_cons, IH. destruct (decide (k = k')); naive_solver.
Qed.

Lemma obj_keys_nil_iff {V} (o : jsobj V) : obj_keys o = [] <-> o = [].
Proof. destruct o; simpl; split; done. Qed.

Lemma obj_set_keys_NoDup {V} (k : jsstr) (v : V) o :
  NoDup (obj_keys o) -> NoDup (obj_keys (obj_set k v o)).
Proof.
  intros Hnd. destruct (decide (k ∈ obj_keys o)) as [Hin|Hnin].
  - by rewrite obj_keys_set_in.
  - rewrite obj_keys_set_notin by done. apply NoDup_app. split; [done|].
    split; [|apply NoDup_singleton]. intros x Hx ->%list_elem_of_singleton. done.
Qed.

(** An object without duplicate keys whose only key is [k0] is the
    one-property object [{k0: v}]. *)
Lemma obj_single {V} (o : jsobj V) k0 (v : V) :
  NoDup (obj_keys o) -> (forall k, k ∈ obj_keys o -> k = k0) ->
  obj_get k0 o = Some v -> o = [(k0, v)].
Proof.
  intros Hnd Hk Hget. destruct o as [|[k1 v1] o]; [done|].
  simpl in *. assert (k1 = k0) as -> by (apply Hk; by apply elem_of_cons; left).
  rewrite decide_True in Hget by done. injection Hget as ->.
  destruct o as [|[k2 v2] o]; [done|]. exfalso.
  assert (k2 = k0) as -> by (apply Hk; simpl; apply elem_of_cons; right; apply elem_of_cons; by left).
  simpl in Hnd. apply NoDup_cons in Hnd as [Hn _]. apply Hn. by apply elem_of_cons; left.
Qed.

Lemma strip_non_digits_digits (s : jsstr) : forallb is_digit (strip_non_digits s) = true.
Proof.
  induction s as [|c s IH]; simpl; [done|]. destruct (is_digit c) eqn:E; simpl; [|done].
  by rewrite E, IH.
Qed.

Lemma strip_non_digits_id (s : jsstr) : forallb is_digit s = true -> strip_non_digits s = s.
Proof.
  induction s as [|c s IH]; simpl; [done|]. intros [-> Hs]%andb_true_iff.
  by rewrite IH.
Qed.

Lemma strip_non_digits_app (s1 s2 : jsstr) :
  strip_non_digits (s1 ++ s2) = strip_non_digits s1 ++ strip_non_digits s2.
Proof. apply List.filter_app. Qed.

(** A string with a code unit that is not white space is truthy after
    [trim()]. *)
Lemma js_trim_not_falsy (s : jsstr) c :
  c ∈ s -> is_ws c = false -> str_falsy (js_trim s) = false.
Proof.
  intros Hin Hc. destruct (js_trim s) eqn:E; [|done].
  apply js_trim_nil_iff in E. rewrite forallb_forall in E.
  rewrite E in Hc; [discriminate|]. by apply list_elem_of_In.
Qed.

Lemma starts_with_single (c : N) (s : jsstr) :
  starts_with [c] s = true <-> exists r, s = c :: r.
Proof.
  destruct s as [|d r]; simpl; [split; [discriminate|by intros [? ?]]|].
  rewrite andb_true_r, N.eqb_eq. split; [intros ->; eauto|by intros [? [= ->]]].
Qed.

Lemma digit_not_ws (c : N) : is_digit c = true -> is_ws c = false.
Proof.
  unfold is_digit. intros H. bool_hyps. apply N.leb_le in H, H0.
  assert (c = 48 \/ c = 49 \/ c = 50 \/ c = 51 \/ c = 52 \/ c = 53 \/ c = 54
          \/ c = 55 \/ c = 56 \/ c = 57) as Hc by lia.
  by repeat destruct Hc as [-> | Hc]; [..|subst].
Qed.

Lemma ws_not_digit (c : N) : is_ws c = true -> is_digit c = false.
Proof. destruct (is_digit c) eqn:E; [|done]. by rewrite digit_not_ws. Qed.

Lemma obj_set_fresh {V} (k : jsstr) (v : V) (o : jsobj V) :
  k ∉ obj_keys o -> obj_set k v o = o ++ [(k, v)].
Proof.
  induction o as [|[k' v'] o IH]; simpl; [done|]. intros Hk.
  rewrite decide_False by (intros ->; apply Hk; by left).
  rewrite IH; [done|]. intros ?. apply Hk. by right.
Qed.
