(* ===== verification/Landing.v ===== *)
(** * The static landing page ([pages/Index.tsx])

    [Index] is a page of its own, outside [Portal]: it holds a constant
    user in a state hook it never sets, and renders it with four resource
    cards, three quick actions and three recent activities, all
    constants.  The only computation is on the user's full name:
    - the avatar's initials, [user.name.split(' ').map(n => n[0]).join('')]
      (line 72): [n[0]] of an empty piece is [undefined], which [join]
      writes as nothing;
    - the greeting, [user.name.split(' ')[1]] and [[2]] (line 89), an
      index past the end being [undefined], rendered as nothing.
    [String.prototype.split] on a one-unit separator and
    [Array.prototype.join] are modelled here; the lemmas show that
    joining the pieces with the separator gives the string back, that a
    name has one initial per non-empty word, and compute what the page
    shows for its user. *)

From stdpp Require Import base list sets strings.
From Stdlib Require Import NArith.
From S2P Require Import Prelude JsLib.

Module Landing.

(** ** Built-ins *)

(** [s.split(sep)] for a separator of one code unit: the pieces between
    the separators, empty ones included. *)
Fixpoint js_split (sep : N) (s : jsstr) : list jsstr :=
  match s with
  | [] => [[]]
  | c :: r =>
      if (c =? sep)%N then [] :: js_split sep r
      else match js_split sep r with
           | w :: ws => (c :: w) :: ws
           | [] => [[c]]
           end
  end.

(** [l.join(sep)]. *)
Fixpoint js_join (sep : jsstr) (l : list jsstr) : jsstr :=
  match l with
  | [] => []
  | [w] => w
  | w :: ws => w ++ sep ++ js_join sep ws
  end.

(** [n[0]] as [join] writes it: the first code unit, or nothing for
    [undefined]. *)
Definition first_unit (n : jsstr) : jsstr := take 1 n.

(** ** The page's data *)

(** [useState({ name, role, ministry, department, email })] (lines 9-15). *)
Record IndexUser := mkIndexUser {
  name : jsstr; role : jsstr; ministry : jsstr; department : jsstr; email : jsstr
}.

Definition index_user : IndexUser :=
  mkIndexUser (js "Иванова Анна Петровна") (js "Пользователь")
    (js "Министерство экономического развития") (js "Отдел регионального развития")
    (js "a.ivanova@gov.khv.ru").

(** The resource cards (lines 17-50): id, title, description, icon,
    color, href. *)
Definition index_resources : list (N * jsstr * jsstr * jsstr * jsstr * jsstr) :=
  [(1%N, js "Система электронного документооборота", js "Работа с официальными документами",
    js "FileText", js "bg-slate-700 hover:bg-slate-600", js "#");
   (2%N, js "Телефонный справочник", js "Контакты сотрудников и подразделений",
    js "Phone", js "bg-slate-700 hover:bg-slate-600", js "#");
   (3%N, js "Обратиться в техподдержку", js "Техническая поддержка портала",
    js "HelpCircle", js "bg-red-600 hover:bg-red-700", js "#");
   (4%N, js "Направить заявку", js "Подача служебных заявок",
    js "Send", js "bg-blue-600 hover:bg-blue-700", js "#")].

(** The quick actions (lines 120-144) and the recent activities (lines
    146-179): icon and text, and for an activity its time. *)
Definition index_quick_actions : list (jsstr * jsstr) :=
  [(js "Calendar", js "Календарь мероприятий"); (js "Users", js "Структура организации");
   (js "Settings", js "Настройки профиля")].

Definition index_activities : list (jsstr * jsstr * jsstr) :=
  [(js "FileText", js "Подписан документ " ++ [34%N] ++ js "Распоряжение №245" ++ [34%N],
    js "2 часа назад");
   (js "Phone", js "Обновлен телефонный справочник", js "Вчера в 14:30");
   (js "Send", js "Направлена заявка на ремонт оборудования", js "3 дня назад")].

(** ** What the page shows *)

(** Line 72. *)
Definition index_initials (full : jsstr) : jsstr :=
  js_join [] (map first_unit (js_split 32 full)).

(** Line 89: [{w[1]} {w[2]}] with [w = user.name.split(' ')]. *)
Definition welcome_name (full : jsstr) : jsstr :=
  default [] (js_split 32 full !! 1%nat) ++ js " " ++ default [] (js_split 32 full !! 2%nat).

Record IndexView := mkIndexView {
  role_badge : jsstr;
  avatar : jsstr;
  header_name : jsstr;
  header_ministry : jsstr;
  welcome : jsstr;
  subtitle : jsstr;
  cards : list (jsstr * jsstr);
  actions : list jsstr;
  activity : list (jsstr * jsstr);
  footer_links : list jsstr
}.

(** Lines 52-203: the header (role badge, avatar, name and ministry), the
    greeting with department and ministry, a card per resource, the quick
    actions, the recent activities and the footer's two buttons.  No
    handler is attached to any of them. *)
Definition index_view (u : IndexUser) : IndexView :=
  mkIndexView (role u) (index_initials (name u)) (name u) (ministry u)
    (welcome_name (name u)) (department u ++ js " • " ++ ministry u)
    (map (fun '(_, t, d, _, _, _) => (t, d)) index_resources)
    (map snd index_quick_actions)
    (map (fun '(_, t, w) => (t, w)) index_activities)
    [js "Поддержка"; js "Справка"].

(** ** [split] and [join] *)

Lemma js_split_not_nil (sep : N) (s : jsstr) : js_split sep s <> [].
Proof. destruct s; simpl; [done|]. case_match; [done|]. by case_match. Qed.

Lemma js_join_cons_unit (sep : jsstr) (c : N) (w : jsstr) (ws : list jsstr) :
  js_join sep ((c :: w) :: ws) = c :: js_join sep (w :: ws).
Proof. by destruct ws. Qed.

(** Joining the pieces of [s.split(sep)] with [sep] gives [s] back. *)
Lemma js_join_split (sep : N) (s : jsstr) : js_join [sep] (js_split sep s) = s.
Proof.
  induction s as [|c r IH]; [done|]. simpl.
  pose proof (js_split_not_nil sep r) as Hne.
  destruct (js_split sep r) as [|w ws] eqn:E; [done|].
  destruct (N.eqb_spec c sep) as [->|_].
  - by rewrite <-IH.
  - by rewrite js_join_cons_unit, IH.
Qed.

(** No piece holds the separator. *)
Lemma js_split_pieces (sep : N) (s : jsstr) : Forall (fun w => sep ∉ w) (js_split sep s).
Proof.
  induction s as [|c r IH]; simpl.
  - repeat constructor. by intros ?%elem_of_nil.
  - destruct (N.eqb_spec c sep) as [->|Hc]; [by constructor; [set_solver|]|].
    destruct (js_split sep r) as [|w ws]; [repeat constructor; set_solver|].
    apply Forall_cons in IH as [Hw Hws]. constructor; [|done].
    rewrite elem_of_cons. naive_solver.
Qed.

Lemma js_join_nil (l : list jsstr) : js_join [] l = concat l.
Proof.
  induction l as [|w ws IH]; [done|]. destruct ws as [|w' ws]; [by simpl; rewrite app_nil_r|].
  change (w ++ [] ++ js_join [] (w' :: ws) = w ++ concat (w' :: ws)). by rewrite IH.
Qed.

Lemma concat_first_unit_filter (l : list jsstr) :
  concat (map first_unit l) = concat (map first_unit (filter (fun w => w <> []) l)).
Proof.
  induction l as [|[|c w] l IH]; [done| |].
  - rewrite filter_cons_False; naive_solver.
  - rewrite filter_cons_True; [|done]. simpl. by rewrite IH.
Qed.

Lemma length_concat_first_unit (l : list jsstr) :
  Forall (fun w => w <> []) l -> length (concat (map first_unit l)) = length l.
Proof.
  induction 1 as [|[|c w] l Hw _ IH]; [done|done|]. simpl. by rewrite IH.
Qed.

(** * Properties *)

(** The avatar of the landing page shows, for every word of the name
    between spaces that is not empty, its first code unit, in order and
    nothing else: as many initials as the name has words. *)
Lemma index_initials_words (full : jsstr) :
  index_initials full = concat (map first_unit (filter (fun w => w <> []) (js_split 32 full))) /\
  length (index_initials full) = length (filter (fun w => w <> []) (js_split 32 full)).
Proof.
  unfold index_initials. rewrite js_join_nil, concat_first_unit_filter. split; [done|].
  apply length_concat_first_unit, Forall_forall. by intros x [? _]%list_elem_of_filter.
Qed.

(** The page's user: the avatar reads "ИАП" and the greeting
    "Добро пожаловать, Анна Петровна". *)
Lemma index_view_user :
  avatar (index_view index_user) = js "ИАП" /\
  welcome (index_view index_user) = js "Анна Петровна" /\
  subtitle (index_view index_user) =
    js "Отдел регионального развития • Министерство экономического развития".
Proof. vm_compute. split_and!; reflexivity. Qed.

(** A name of two words is greeted with the second and a trailing
    space: the missing [split(' ')[2]] renders as nothing. *)
Lemma welcome_two_words (a b : jsstr) :
  32%N ∉ a -> 32%N ∉ b -> welcome_name (a ++ [32%N] ++ b) = b ++ js " ".
Proof.
  intros Ha Hb. unfold welcome_name.
  assert (Hs : forall x r, 32%N ∉ x -> js_split 32 (x ++ r) =
                 match js_split 32 r with w :: ws => (x ++ w) :: ws | [] => [x] end).
  { induction x as [|c x IH]; intros r Hx; cbn [js_split app]; [by destruct (js_split 32 r) eqn:?; [edestruct js_split_not_nil|]|].
    rewrite elem_of_cons in Hx. destruct (N.eqb_spec c 32) as [->|_]; [naive_solver|].
    rewrite IH by naive_solver. by destruct (js_split 32 r). }
  rewrite Hs by done. cbn [js_split app]. rewrite N.eqb_refl, <-(app_nil_r b), Hs by done.
  simpl. by rewrite !app_nil_r.
Qed.

End Landing.
