(* ===== verification/Types.v ===== *)
(** * The data model of [src/src/types/auth.ts]

    One Module per interface of the source, each holding its record [t]
    with the source's field names, so that a field is written as in the
    code ([User.isFirstLogin u] for [u.isFirstLogin]).  JavaScript numbers
    that can only hold an integer or [NaN] ([Resource.order], produced by
    [parseInt]) are [jsnum].  Every record has decidable equality. *)

From stdpp Require Import base list strings.
From Stdlib Require Import NArith ZArith.
From S2P Require Import Prelude JsLib.

(** A number produced by [parseInt]: an integer or [NaN]. *)
Inductive jsnum := Num (z : Z) | NaN.

#[export] Instance jsnum_eq_dec : EqDecision jsnum.
Proof. solve_decision. Defined.

(** [role: 'admin' | 'user'] *)
Inductive Role := role_admin | role_user.

#[export] Instance Role_eq_dec : EqDecision Role.
Proof. solve_decision. Defined.

(** The string literal of a role, as stored and compared by the code. *)
Definition role_str (r : Role) : jsstr :=
  match r with role_admin => js "admin" | role_user => js "user" end.

Module User.
Record t := mk {
  id : jsstr;
  domain : jsstr;
  firstName : jsstr;
  lastName : jsstr;
  middleName : jsstr;
  ministry : jsstr;
  department : jsstr;
  position : jsstr;
  address : jsstr;
  officeNumber : jsstr;
  phoneNumber : jsstr;
  internalPhone : jsstr;
  email : jsstr;
  role : Role;
  isFirstLogin : bool
}.

#[export] Instance eq_dec : EqDecision t.
Proof. intros [] []. solve_decision. Defined.
End User.

(** Each reference entity also has its [Partial<T>] (every field
    optional, an absent field being [None]), the spread [{ ...m, ...p }]
    of a partial over a record ([spread]), and [{ ...m, id: i }]
    ([with_id]), the two object literals the CRUD callbacks build, and
    [full m], the object [{ ...m }] seen as a partial (what an edit
    dialog submits). *)

Module Ministry.
Record t := mk { id : jsstr; name : jsstr; code : jsstr }.
#[export] Instance eq_dec : EqDecision t.
Proof. intros [] []. solve_decision. Defined.
Record partial := mkp { p_id : option jsstr; p_name : option jsstr; p_code : option jsstr }.
Definition spread (m : t) (p : partial) : t :=
  mk (default (id m) (p_id p)) (default (name m) (p_name p)) (default (code m) (p_code p)).
Definition with_id (m : t) (i : jsstr) : t := mk i (name m) (code m).
Definition full (m : t) : partial :=
  mkp (Some (id m)) (Some (name m)) (Some (code m)).
End Ministry.

Module Department.
Record t := mk { id : jsstr; name : jsstr; ministryId : jsstr; code : jsstr }.
#[export] Instance eq_dec : EqDecision t.
Proof. intros [] []. solve_decision. Defined.
Record partial := mkp { p_id : option jsstr; p_name : option jsstr;
                        p_ministryId : option jsstr; p_code : option jsstr }.
Definition spread (m : t) (p : partial) : t :=
  mk (default (id m) (p_id p)) (default (name m) (p_name p))
     (default (ministryId m) (p_ministryId p)) (default (code m) (p_code p)).
Definition with_id (m : t) (i : jsstr) : t := mk i (name m) (ministryId m) (code m).
Definition full (m : t) : partial :=
  mkp (Some (id m)) (Some (name m)) (Some (ministryId m)) (Some (code m)).
End Department.

Module Position.
Record t := mk { id : jsstr; name : jsstr; code : jsstr }.
#[export] Instance eq_dec : EqDecision t.
Proof. intros [] []. solve_decision. Defined.
Record partial := mkp { p_id : option jsstr; p_name : option jsstr; p_code : option jsstr }.
Definition spread (m : t) (p : partial) : t :=
  mk (default (id m) (p_id p)) (default (name m) (p_name p)) (default (code m) (p_code p)).
Definition with_id (m : t) (i : jsstr) : t := mk i (name m) (code m).
Definition full (m : t) : partial :=
  mkp (Some (id m)) (Some (name m)) (Some (code m)).
End Position.

Module Address.
Record t := mk { id : jsstr; street : jsstr; building : jsstr; city : jsstr;
                 postalCode : jsstr }.
#[export] Instance eq_dec : EqDecision t.
Proof. intros [] []. solve_decision. Defined.
Record partial := mkp { p_id : option jsstr; p_street : option jsstr;
                        p_building : option jsstr; p_city : option jsstr;
                        p_postalCode : option jsstr }.
Definition spread (m : t) (p : partial) : t :=
  mk (default (id m) (p_id p)) (default (street m) (p_street p))
     (default (building m) (p_building p)) (default (city m) (p_city p))
     (default (postalCode m) (p_postalCode p)).
Definition with_id (m : t) (i : jsstr) : t :=
  mk i (street m) (building m) (city m) (postalCode m).
Definition full (m : t) : partial :=
  mkp (Some (id m)) (Some (street m)) (Some (building m)) (Some (city m))
     (Some (postalCode m)).
End Address.

Module Resource.
Record t := mk { id : jsstr; title : jsstr; description : jsstr; url : jsstr;
                 icon : jsstr; order : jsnum; isActive : bool }.
#[export] Instance eq_dec : EqDecision t.
Proof. intros [] []. solve_decision. Defined.
Record partial := mkp { p_id : option jsstr; p_title : option jsstr;
                        p_description : option jsstr; p_url : option jsstr;
                        p_icon : option jsstr; p_order : option jsnum;
                        p_isActive : option bool }.
Definition spread (m : t) (p : partial) : t :=
  mk (default (id m) (p_id p)) (default (title m) (p_title p))
     (default (description m) (p_description p)) (default (url m) (p_url p))
     (default (icon m) (p_icon p)) (default (order m) (p_order p))
     (default (isActive m) (p_isActive p)).
Definition with_id (m : t) (i : jsstr) : t :=
  mk i (title m) (description m) (url m) (icon m) (order m) (isActive m).
Definition full (m : t) : partial :=
  mkp (Some (id m)) (Some (title m)) (Some (description m)) (Some (url m))
     (Some (icon m)) (Some (order m)) (Some (isActive m)).
End Resource.
