(* ===== verification/Json.v ===== *)
(** * JSON.stringify and JSON.parse

    The session record is written with [JSON.stringify] and read back with
    [JSON.parse] (AuthContext.tsx lines 121, 138, 158, 166).  This file
    models both built-ins on UTF-16 strings:
    - [json]: the JavaScript values JSON can denote; an object is its list
      of properties in insertion order; a number is kept as [m * 10^e]
      from its literal (only its truthiness is observed by the program);
    - [stringify] (ECMAScript SerializeJSONProperty / QuoteJSONString,
      well-formed since ES2019: lone surrogates are escaped);
    - [parse_json] (the JSON grammar of ECMA-404, duplicate keys keep the
      first position and the last value, as CreateDataProperty does),
      a recursive-descent parser with fuel, throwing [SyntaxError] on
      text that is not JSON. *)

From stdpp Require Import base list strings.
From Stdlib Require Import NArith ZArith.
From S2P Require Import Prelude JsLib.

Open Scope N_scope.

(** ** Values *)

Inductive json :=
| JNull
| JBool (b : bool)
| JNum (m : Z) (e : Z)
| JStr (s : jsstr)
| JArr (l : list json)
| JObj (l : list (jsstr * json)).

(** ** JSON.stringify *)

(** Lower-case hexadecimal digit of [d < 16]. *)
Definition hexd (d : N) : N := if d <? 10 then 48 + d else 87 + d.

(** [\uXXXX] for a code unit. *)
Definition esc_u (c : N) : jsstr :=
  [92; 117; hexd (c / 4096); hexd ((c / 256) mod 16); hexd ((c / 16) mod 16);
   hexd (c mod 16)].

Definition is_lead (c : N) : bool := (55296 <=? c) && (c <=? 56319).
Definition is_trail (c : N) : bool := (56320 <=? c) && (c <=? 57343).

(** The escape of one code unit that is not a surrogate. *)
Definition escape_char (c : N) : jsstr :=
  if c =? 34 then [92; 34]
  else if c =? 92 then [92; 92]
  else if c =? 8 then [92; 98]
  else if c =? 12 then [92; 102]
  else if c =? 10 then [92; 110]
  else if c =? 13 then [92; 114]
  else if c =? 9 then [92; 116]
  else if c <? 32 then esc_u c
  else [c].

(** QuoteJSONString without the quotes: a surrogate pair is copied, a lone
    surrogate is escaped. *)
Fixpoint quote_units (s : jsstr) : jsstr :=
  match s with
  | [] => []
  | c :: r =>
      if is_lead c then
        match r with
        | d :: r' => if is_trail d then c :: d :: quote_units r' else esc_u c ++ quote_units r
        | [] => esc_u c
        end
      else if is_trail c then esc_u c ++ quote_units r
      else escape_char c ++ quote_units r
  end.

Definition quote (s : jsstr) : jsstr := 34 :: quote_units s ++ [34].

(** Decimal digits of a positive number; [Pos.size_nat p] bounds their
    count. *)
Fixpoint pos_digits (fuel : nat) (n : N) (acc : jsstr) : jsstr :=
  match fuel with
  | O => acc
  | S f => if n <? 10 then (48 + n) :: acc
           else pos_digits f (n / 10) ((48 + n mod 10) :: acc)
  end.

Definition N_dec (n : N) : jsstr :=
  match n with
  | N0 => [48]
  | Npos p => pos_digits (Pos.size_nat p) n []
  end.

Definition Z_dec (z : Z) : jsstr :=
  if (z <? 0)%Z then 45 :: N_dec (Z.to_N (- z)) else N_dec (Z.to_N z).

(** A number [m * 10^e] as the literal [m] or [m e e]. *)
Definition num_text (m e : Z) : jsstr :=
  if (e =? 0)%Z then Z_dec m else Z_dec m ++ [101] ++ Z_dec e.

(** The pieces joined with [","] (SerializeJSONArray and
    SerializeJSONObject join their partial results with a comma). *)
Fixpoint join_comma (l : list jsstr) : jsstr :=
  match l with
  | [] => []
  | [x] => x
  | x :: r => x ++ 44 :: join_comma r
  end.

Fixpoint stringify (v : json) : jsstr :=
  match v with
  | JNull => js "null"
  | JBool true => js "true"
  | JBool false => js "false"
  | JNum m e => num_text m e
  | JStr s => quote s
  | JArr l => 91 :: join_comma (map stringify l) ++ [93]
  | JObj l => 123 :: join_comma (map (fun '(k, x) => quote k ++ 58 :: stringify x) l) ++ [125]
  end.

(** ** JSON.parse *)

(** JSON white space: space, tab, line feed, carriage return. *)
Definition is_json_ws (c : N) : bool := (c =? 32) || (c =? 9) || (c =? 10) || (c =? 13).

Fixpoint skip_ws (s : jsstr) : jsstr :=
  match s with
  | c :: r => if is_json_ws c then skip_ws r else s
  | [] => []
  end.

(** Value of a hexadecimal digit. *)
Definition unhex (c : N) : option N :=
  if (48 <=? c) && (c <=? 57) then Some (c - 48)
  else if (97 <=? c) && (c <=? 102) then Some (c - 87)
  else if (65 <=? c) && (c <=? 70) then Some (c - 55)
  else None.

Definition unhex4 (h1 h2 h3 h4 : N) : option N :=
  match unhex h1, unhex h2, unhex h3, unhex h4 with
  | Some a, Some b, Some c, Some d => Some (a * 4096 + b * 256 + c * 16 + d)
  | _, _, _, _ => None
  end.

(** The escape character after a backslash, other than [u]. *)
Definition unescape (e : N) : option N :=
  if e =? 34 then Some 34 else if e =? 92 then Some 92
  else if e =? 47 then Some 47 else if e =? 98 then Some 8
  else if e =? 102 then Some 12 else if e =? 110 then Some 10
  else if e =? 114 then Some 13 else if e =? 116 then Some 9
  else None.

(** The characters of a string literal after its opening quote, up to and
    without the closing quote; code units below 0x20 are not allowed raw. *)
Fixpoint parse_chars (s : jsstr) : option (jsstr * jsstr) :=
  match s with
  | [] => None
  | c :: r =>
      if c =? 34 then Some ([], r)
      else if c =? 92 then
        match r with
        | e :: r1 =>
            if e =? 117 then
              match r1 with
              | h1 :: h2 :: h3 :: h4 :: r2 =>
                  match unhex4 h1 h2 h3 h4, parse_chars r2 with
                  | Some u, Some (t, rest) => Some (u :: t, rest)
                  | _, _ => None
                  end
              | _ => None
              end
            else
              match unescape e, parse_chars r1 with
              | Some u, Some (t, rest) => Some (u :: t, rest)
              | _, _ => None
              end
        | [] => None
        end
      else if c <? 32 then None
      else
        match parse_chars r with
        | Some (t, rest) => Some (c :: t, rest)
        | None => None
        end
  end.

(** The longest prefix of digits and the rest. *)
Fixpoint span_digits (s : jsstr) : jsstr * jsstr :=
  match s with
  | c :: r => if is_digit c then let '(d, t) := span_digits r in (c :: d, t) else ([], s)
  | [] => ([], [])
  end.

Definition digits_val (d : jsstr) : Z :=
  fold_left (fun acc c => acc * 10 + Z.of_N (c - 48)%N)%Z d 0%Z.

(** The number grammar: an optional minus, [0] or a non-zero digit and
    more digits, an optional fraction of at least one digit after a dot,
    an optional exponent [e] or [E] with an optional sign and at least one
    digit. *)
Definition parse_number (s : jsstr) : option (json * jsstr) :=
  let '(neg, s1) := match s with
                    | c :: r => if c =? 45 then (true, r) else (false, s)
                    | [] => (false, s)
                    end in
  let '(ip, s2) := span_digits s1 in
  let ip_s2 := match ip with
               | [] => None
               | d :: ds => if d =? 48 then Some ([48], ds ++ s2) else Some (ip, s2)
               end in
  match ip_s2 with
  | None => None
  | Some (ip, s2) =>
      let fp_s3 := match s2 with
                   | c :: r => if c =? 46 then
                                 let '(fp, s3) := span_digits r in
                                 match fp with [] => None | _ => Some (fp, s3) end
                               else Some ([], s2)
                   | [] => Some ([], s2)
                   end in
      match fp_s3 with
      | None => None
      | Some (fp, s3) =>
          let ex_s4 := match s3 with
                       | c :: r =>
                           if (c =? 101) || (c =? 69) then
                             let '(eneg, r1) := match r with
                                                | d :: r' => if d =? 45 then (true, r')
                                                             else if d =? 43 then (false, r')
                                                             else (false, r)
                                                | [] => (false, r)
                                                end in
                             let '(ed, s4) := span_digits r1 in
                             match ed with
                             | [] => None
                             | _ => Some (if eneg then (- digits_val ed)%Z else digits_val ed, s4)
                             end
                           else Some (0%Z, s3)
                       | [] => Some (0%Z, s3)
                       end in
          match ex_s4 with
          | None => None
          | Some (ex, s4) =>
              let m := digits_val (ip ++ fp) in
              Some (JNum (if neg then (- m)%Z else m) (ex - Z.of_nat (length fp))%Z, s4)
          end
      end
  end.

(** The value at the head of [s] (after white space), with fuel. *)
Fixpoint parse_value (fuel : nat) (s : jsstr) : option (json * jsstr) :=
  match fuel with
  | O => None
  | S n =>
      match skip_ws s with
      | [] => None
      | c :: r =>
          if c =? 34 then
            match parse_chars r with Some (t, r') => Some (JStr t, r') | None => None end
          else if c =? 91 then
            match skip_ws r with
            | d :: r' => if d =? 93 then Some (JArr [], r')
                         else match parse_elems n r with
                              | Some (l, r'') => Some (JArr l, r'')
                              | None => None
                              end
            | [] => None
            end
          else if c =? 123 then
            match skip_ws r with
            | d :: r' => if d =? 125 then Some (JObj [], r')
                         else match parse_members n r [] with
                              | Some (o, r'') => Some (JObj o, r'')
                              | None => None
                              end
            | [] => None
            end
          else if starts_with (js "true") (c :: r) then Some (JBool true, drop 4 (c :: r))
          else if starts_with (js "false") (c :: r) then Some (JBool false, drop 5 (c :: r))
          else if starts_with (js "null") (c :: r) then Some (JNull, drop 4 (c :: r))
          else parse_number (c :: r)
      end
  end

(** Elements of an array after [[], up to and with the closing [\]]. *)
with parse_elems (fuel : nat) (s : jsstr) : option (list json * jsstr) :=
  match fuel with
  | O => None
  | S n =>
      match parse_value n s with
      | Some (v, r) =>
          match skip_ws r with
          | d :: r' =>
              if d =? 44 then
                match parse_elems n r' with
                | Some (l, r'') => Some (v :: l, r'')
                | None => None
                end
              else if d =? 93 then Some ([v], r')
              else None
          | [] => None
          end
      | None => None
      end
  end

(** Members of an object after [{], up to and with the closing [}]; a
    repeated key keeps its place and takes the later value. *)
with parse_members (fuel : nat) (s : jsstr) (acc : list (jsstr * json))
  : option (list (jsstr * json) * jsstr) :=
  match fuel with
  | O => None
  | S n =>
      match skip_ws s with
      | q :: r =>
          if q =? 34 then
            match parse_chars r with
            | Some (k, r1) =>
                match skip_ws r1 with
                | col :: r2 =>
                    if col =? 58 then
                      match parse_value n r2 with
                      | Some (v, r3) =>
                          let acc' := obj_set k v acc in
                          match skip_ws r3 with
                          | d :: r4 =>
                              if d =? 44 then parse_members n r4 acc'
                              else if d =? 125 then Some (acc', r4)
                              else None
                          | [] => None
                          end
                      | None => None
                      end
                    else None
                | [] => None
                end
            | None => None
            end
          else None
      | [] => None
      end
  end.

(** [JSON.parse(text)]: one value surrounded by white space, or a
    [SyntaxError]. *)
Definition parse_json (text : jsstr) : outcome json :=
  match parse_value (S (length text)) text with
  | Some (v, rest) => match skip_ws rest with [] => Normal v | _ => Throw SyntaxError end
  | None => Throw SyntaxError
  end.

(** ** The values the parse/print round trip covers *)

(** Strings of code units below 0x10000, objects without a repeated key,
    no numbers (the program never stores one). *)
Fixpoint json_wfb (v : json) : bool :=
  match v with
  | JNull | JBool _ => true
  | JNum _ _ => false
  | JStr s => forallb (fun c => c <? 65536) s
  | JArr l => forallb json_wfb l
  | JObj l => bool_decide (NoDup (map fst l))
              && forallb (fun '(k, x) => forallb (fun c => c <? 65536) k && json_wfb x) l
  end.

(** The fuel the parser needs: one unit per value and per element. *)
Fixpoint jsize (v : json) : nat :=
  match v with
  | JArr l => S (sum_list (map (fun x => S (jsize x)) l))
  | JObj l => S (sum_list (map (fun '(_, x) => S (jsize x)) l))
  | _ => 1
  end.

(** Prepending a code unit to the string of a parse result. *)
Definition pc_cons (c : N) (o : option (jsstr * jsstr)) : option (jsstr * jsstr) :=
  match o with Some (t, r) => Some (c :: t, r) | None => None end.

(** The text of one member ["k":v] of an object. *)
Definition member_text (kv : jsstr * json) : jsstr := let '(k, x) := kv in quote k ++ 58 :: stringify x.

(** Induction over values with the hypothesis on every element of an
    array and every member of an object. *)
Section json_rect.
Variable P : json -> Prop.
Hypothesis HNull : P JNull.
Hypothesis HBool : forall b, P (JBool b).
Hypothesis HNum : forall m e, P (JNum m e).
Hypothesis HStr : forall s, P (JStr s).
Hypothesis HArr : forall l, Forall P l -> P (JArr l).
Hypothesis HObj : forall l, Forall (fun kv => P kv.2) l -> P (JObj l).

Fixpoint json_ind' (v : json) : P v :=
  match v with
  | JNull => HNull
  | JBool b => HBool b
  | JNum m e => HNum m e
  | JStr s => HStr s
  | JArr l => HArr l ((fix go (l : list json) : Forall P l :=
                        match l with
                        | [] => List.Forall_nil _
                        | x :: r => List.Forall_cons _ _ _ (json_ind' x) (go r)
                        end) l)
  | JObj l => HObj l ((fix go (l : list (jsstr * json)) : Forall (fun kv => P kv.2) l :=
                        match l with
                        | [] => List.Forall_nil _
                        | (k, x) :: r => List.Forall_cons _ (k, x) r (json_ind' x) (go r)
                        end) l)
  end.
End json_rect.

(** * Properties *)

Lemma unhex_hexd (d : N) : d < 16 -> unhex (hexd d) = Some d.
Proof.
  intros Hd. unfold hexd, unhex. destruct (d <? 10) eqn:E; nbool;
    case_ifs; bool_hyps;
    repeat match goal with H : (_ && _) = false |- _ => apply andb_false_iff in H as [H|H] end;
    nbool; try lia; f_equal; lia.
Qed.

Lemma unhex4_esc (c : N) : c < 65536 ->
  unhex4 (hexd (c / 4096)) (hexd ((c / 256) mod 16)) (hexd ((c / 16) mod 16)) (hexd (c mod 16))
  = Some c.
Proof.
  intros Hc. unfold unhex4.
  rewrite !unhex_hexd by (first [apply N.mod_lt; lia | apply N.Div0.div_lt_upper_bound; lia]).
  f_equal.
  assert (E1 : c / 16 / 16 = c / 256) by (rewrite N.Div0.div_div; reflexivity).
  assert (E2 : c / 256 / 16 = c / 4096) by (rewrite N.Div0.div_div; reflexivity).
  pose proof (N.div_mod c 16 ltac:(lia)). pose proof (N.div_mod (c/16) 16 ltac:(lia)).
  pose proof (N.div_mod (c/256) 16 ltac:(lia)). rewrite E1 in H0. rewrite E2 in H1. lia.
Qed.

Lemma parse_chars_raw (c : N) (rest : jsstr) :
  32 <= c -> c <> 34 -> c <> 92 -> parse_chars (c :: rest) = pc_cons c (parse_chars rest).
Proof.
  intros H1 H2 H3. simpl.
  rewrite (proj2 (N.eqb_neq _ _) H2), (proj2 (N.eqb_neq _ _) H3).
  replace (c <? 32) with false by (symmetry; apply N.ltb_ge; lia).
  by destruct (parse_chars rest) as [[? ?]|].
Qed.

Lemma parse_chars_esc_u (c : N) (rest : jsstr) :
  c < 65536 -> parse_chars (esc_u c ++ rest) = pc_cons c (parse_chars rest).
Proof.
  intros Hc. unfold esc_u. cbn -[unhex4 hexd]. rewrite unhex4_esc by done.
  by destruct (parse_chars rest) as [[? ?]|].
Qed.

Lemma parse_chars_escape_char (c : N) (rest : jsstr) :
  c < 65536 -> parse_chars (escape_char c ++ rest) = pc_cons c (parse_chars rest).
Proof.
  intros Hc. unfold escape_char. case_ifs; nbool; subst.
  all: try (simpl; by destruct (parse_chars rest) as [[? ?]|]).
  - by apply parse_chars_esc_u.
  - apply parse_chars_raw; lia.
Qed.

Lemma surrogate_lt (c : N) : is_lead c = true \/ is_trail c = true -> 32 <= c /\ c < 65536 /\ c <> 34 /\ c <> 92.
Proof. unfold is_lead, is_trail. intros [H|H]; bool_hyps; nbool; lia. Qed.

Lemma parse_chars_quote_units (s rest : jsstr) :
  Forall (fun c => c < 65536) s ->
  parse_chars (quote_units s ++ 34 :: rest) = Some (s, rest).
Proof.
  intros Hs. remember (length s) as n eqn:Hn.
  revert s Hn Hs. induction n as [n IH] using lt_wf_ind. intros s Hn Hs.
  destruct s as [|c r]; [done|]. simpl in Hn. apply Forall_cons in Hs as [Hc Hr].
  cbn [quote_units]. destruct (is_lead c) eqn:L.
  - destruct r as [|d r'].
    + rewrite parse_chars_esc_u by done. done.
    + apply Forall_cons in Hr as [Hd Hr']. destruct (is_trail d) eqn:T.
      * destruct (surrogate_lt c) as (? & ? & ? & ?); [by left|].
        destruct (surrogate_lt d) as (? & ? & ? & ?); [by right|].
        cbn [app]. rewrite !parse_chars_raw by done.
        rewrite (IH (length r')) by (simpl in *; auto with lia). done.
      * rewrite <- ?app_assoc, parse_chars_esc_u by done.
        rewrite (IH (length (d :: r'))) by (simpl in *; auto with lia). done.
  - destruct (is_trail c) eqn:T.
    + rewrite <- ?app_assoc, parse_chars_esc_u by done.
      rewrite (IH (length r)) by (auto with lia). done.
    + rewrite <- ?app_assoc, parse_chars_escape_char by done.
      rewrite (IH (length r)) by (auto with lia). done.
Qed.

Lemma pv_quote n t :
  parse_value (S n) (34 :: t) =
  match parse_chars t with Some (s, r) => Some (JStr s, r) | None => None end.
Proof. reflexivity. Qed.

Lemma pv_arr n t :
  parse_value (S n) (91 :: t) =
  match skip_ws t with
  | d :: r' => if d =? 93 then Some (JArr [], r')
               else match parse_elems n t with Some (l, r'') => Some (JArr l, r'') | None => None end
  | [] => None
  end.
Proof. reflexivity. Qed.

Lemma pv_obj n t :
  parse_value (S n) (123 :: t) =
  match skip_ws t with
  | d :: r' => if d =? 125 then Some (JObj [], r')
               else match parse_members n t [] with Some (o, r'') => Some (JObj o, r'') | None => None end
  | [] => None
  end.
Proof. reflexivity. Qed.

Lemma pe_unfold n s :
  parse_elems (S n) s =
  match parse_value n s with
  | Some (v, r) =>
      match skip_ws r with
      | d :: r' => if d =? 44 then match parse_elems n r' with Some (l, r'') => Some (v :: l, r'') | None => None end
                   else if d =? 93 then Some ([v], r') else None
      | [] => None
      end
  | None => None
  end.
Proof. reflexivity. Qed.

Lemma stringify_head (v : json) :
  json_wfb v = true ->
  exists c r, stringify v = c :: r /\ is_json_ws c = false /\ c <> 93 /\ c <> 125.
Proof.
  destruct v as [| [] | | | |]; simpl; try discriminate; intros _;
    do 2 eexists; (split; [reflexivity|]); repeat split; lia.
Qed.

Lemma skip_ws_nonws (c : N) (r : jsstr) : is_json_ws c = false -> skip_ws (c :: r) = c :: r.
Proof. simpl. by intros ->. Qed.

Lemma skip_ws_stringify (v : json) (rest : jsstr) :
  json_wfb v = true -> skip_ws (stringify v ++ rest) = stringify v ++ rest.
Proof.
  intros (c & r & -> & Hc & _)%stringify_head. simpl. by rewrite Hc.
Qed.

Lemma sum_list_cons_le {A} (f : A -> nat) x l n :
  (sum_list (map f (x :: l)) <= n)%nat -> (f x <= n /\ sum_list (map f l) <= n)%nat.
Proof. simpl. lia. Qed.

Lemma parse_elems_roundtrip (l : list json) :
  Forall (fun v => json_wfb v = true -> forall n rest, (jsize v <= n)%nat ->
            parse_value n (stringify v ++ rest) = Some (v, rest)) l ->
  forallb json_wfb l = true -> l <> [] ->
  forall n rest, (sum_list (map (fun x => S (jsize x)) l) <= n)%nat ->
  parse_elems n (join_comma (map stringify l) ++ 93 :: rest) = Some (l, rest).
Proof.
  induction l as [|x l IHl]; [done|]. intros HP Hwf _ n rest Hn.
  apply Forall_cons in HP as [Px HP]. simpl in Hwf. apply andb_true_iff in Hwf as [Hx Hl].
  destruct n as [|n]; [simpl in Hn; lia|]. rewrite pe_unfold. simpl in Hn.
  destruct l as [|y l].
  - simpl. rewrite Px by (auto with lia). simpl. done.
  - change (join_comma (map stringify (x :: y :: l))) with
      (stringify x ++ 44 :: join_comma (map stringify (y :: l))).
    rewrite <- app_assoc. simpl (_ ++ _) at 2.
    rewrite Px by (auto with lia). simpl.
    rewrite IHl by (auto with lia). done.
Qed.

Lemma pm_unfold n s acc :
  parse_members (S n) s acc =
  match skip_ws s with
  | q :: r =>
      if q =? 34 then
        match parse_chars r with
        | Some (k, r1) =>
            match skip_ws r1 with
            | col :: r2 =>
                if col =? 58 then
                  match parse_value n r2 with
                  | Some (v, r3) =>
                      match skip_ws r3 with
                      | d :: r4 =>
                          if d =? 44 then parse_members n r4 (obj_set k v acc)
                          else if d =? 125 then Some (obj_set k v acc, r4)
                          else None
                      | [] => None
                      end
                  | None => None
                  end
                else None
            | [] => None
            end
        | None => None
        end
      else None
  | [] => None
  end.
Proof. reflexivity. Qed.

Lemma member_text_app k x t :
  member_text (k, x) ++ t = 34 :: quote_units k ++ 34 :: 58 :: stringify x ++ t.
Proof. unfold member_text, quote. simpl. by rewrite <- !app_assoc. Qed.

Lemma parse_members_roundtrip (l : list (jsstr * json)) :
  Forall (fun kv => json_wfb kv.2 = true -> forall n rest, (jsize kv.2 <= n)%nat ->
            parse_value n (stringify kv.2 ++ rest) = Some (kv.2, rest)) l ->
  forallb (fun '(k, x) => forallb (fun c => c <? 65536) k && json_wfb x) l = true ->
  l <> [] ->
  forall acc n rest, NoDup (map fst (acc ++ l)) ->
  (sum_list (map (fun '(_, x) => S (jsize x)) l) <= n)%nat ->
  parse_members n (join_comma (map member_text l) ++ 125 :: rest) acc = Some (acc ++ l, rest).
Proof.
  induction l as [|[k x] l IHl]; [done|]. intros HP Hwf _ acc n rest Hnd Hn.
  apply Forall_cons in HP as [Px HP]. simpl in Hwf, Px. bool_hyps.
  destruct n as [|n]; [simpl in Hn; lia|]. rewrite pm_unfold. simpl in Hn.
  assert (Hk : Forall (fun c => c < 65536) k).
  { apply Forall_forall. intros c Hc. rewrite forallb_forall in H.
    apply N.ltb_lt, H. by apply list_elem_of_In. }
  assert (Hfresh : obj_set k x acc = acc ++ [(k, x)]).
  { apply obj_set_fresh. unfold obj_keys. rewrite map_app in Hnd. simpl in Hnd.
    apply NoDup_app in Hnd as (_ & Hd & _). intros Hin. apply (Hd k Hin). by left. }
  destruct l as [|y l].
  - change (join_comma (map member_text [(k, x)])) with (member_text (k, x)).
    rewrite member_text_app. simpl (skip_ws (34 :: _)).
    cbv beta iota. rewrite N.eqb_refl, parse_chars_quote_units by done. simpl (skip_ws (58 :: _)). cbv beta iota. rewrite ?N.eqb_refl.
    rewrite Px by (auto with lia). simpl. by rewrite Hfresh.
  - change (join_comma (map member_text ((k, x) :: y :: l))) with
      (member_text (k, x) ++ 44 :: join_comma (map member_text (y :: l))).
    rewrite <- app_assoc, member_text_app. simpl (skip_ws (34 :: _)).
    cbv beta iota. rewrite N.eqb_refl, parse_chars_quote_units by done. simpl (skip_ws (58 :: _)). cbv beta iota. rewrite ?N.eqb_refl.
    simpl (_ ++ _) at 2. rewrite Px by (auto with lia). simpl. rewrite Hfresh.
    rewrite IHl; [by rewrite <- app_assoc|done|done|done|by rewrite <- app_assoc|lia].
Qed.

Lemma join_comma_cons (a : jsstr) (l : list jsstr) : exists t, join_comma (a :: l) = a ++ t.
Proof. destruct l; simpl; [exists []; by rewrite app_nil_r|eauto]. Qed.

Theorem parse_value_stringify (v : json) :
  json_wfb v = true -> forall n rest, (jsize v <= n)%nat ->
  parse_value n (stringify v ++ rest) = Some (v, rest).
Proof.
  induction v as [| b | m e | s | l IH | l IH] using json_ind';
    intros Hwf n rest Hn; destruct n as [|n]; try (simpl in Hn; lia).
  - reflexivity.
  - by destruct b.
  - discriminate.
  - assert (E : stringify (JStr s) ++ rest = 34 :: quote_units s ++ 34 :: rest)
      by (simpl; unfold quote; simpl; by rewrite <- app_assoc).
    rewrite E, pv_quote. rewrite parse_chars_quote_units; [done|].
    apply Forall_forall. intros c Hc. simpl in Hwf. rewrite forallb_forall in Hwf.
    apply N.ltb_lt, Hwf. by apply list_elem_of_In.
  - destruct l as [|x l']; [reflexivity|].
    assert (E : stringify (JArr (x :: l')) ++ rest
                = 91 :: join_comma (map stringify (x :: l')) ++ [93] ++ rest)
      by (simpl; by rewrite <- app_assoc).
    rewrite E.
    rewrite pv_arr. simpl in Hwf. pose proof Hwf as Hw. apply andb_true_iff in Hw as [Hx _].
    destruct (join_comma_cons (stringify x) (map stringify l')) as [t Ht].
    simpl (map _ (x :: l')). rewrite Ht.
    destruct (stringify_head x Hx) as (c & r & Hc & Hws & H93 & _). rewrite Hc.
    simpl (skip_ws _). rewrite Hws. rewrite (proj2 (N.eqb_neq _ _) H93).
    rewrite <- Hc, <- Ht. simpl (_ ++ _) at 2.
    change (stringify x :: map stringify l') with (map stringify (x :: l')).
    rewrite parse_elems_roundtrip; [done|done|done|done|simpl in Hn |- *; lia].
  - destruct l as [|[k x] l']; [reflexivity|].
    assert (E : stringify (JObj ((k, x) :: l')) ++ rest
                = 123 :: join_comma (map member_text ((k, x) :: l')) ++ [125] ++ rest)
      by (simpl; by rewrite <- app_assoc).
    rewrite E.
    rewrite pv_obj. simpl in Hwf. bool_hyps.
    destruct (join_comma_cons (member_text (k, x)) (map member_text l')) as [t Ht].
    change (map member_text ((k, x) :: l')) with (member_text (k, x) :: map member_text l').
    rewrite Ht, <- app_assoc, member_text_app.
    simpl (skip_ws (34 :: _)). cbv beta iota. rewrite ?(proj2 (N.eqb_neq 34 125) ltac:(lia)).
    rewrite <- member_text_app, app_assoc, <- Ht. simpl (_ ++ _) at 2.
    change (member_text (k, x) :: map member_text l') with (map member_text ((k, x) :: l')).
    rewrite (parse_members_roundtrip _ IH); [done| |done| |simpl in Hn |- *; lia].
    + simpl. by rewrite H0, H2, H1.
    + by apply bool_decide_eq_true in H.
Qed.

Lemma length_join_comma (l : list jsstr) :
  (sum_list (map (fun x => S (length x)) l) <= S (length (join_comma l)))%nat.
Proof.
  induction l as [|a [|b l] IH]; simpl in *; [lia|lia|].
  rewrite length_app. simpl. lia.
Qed.

Lemma sum_list_map_le {A} (f g : A -> nat) (l : list A) :
  (forall x, x ∈ l -> f x <= g x)%nat -> (sum_list (map f l) <= sum_list (map g l))%nat.
Proof.
  induction l as [|a l IH]; simpl; [lia|]. intros H.
  pose proof (H a ltac:(by left)). assert (sum_list (map f l) <= sum_list (map g l))%nat.
  { apply IH. intros x Hx. apply H. by right. }
  lia.
Qed.

Lemma jsize_le_length (v : json) : json_wfb v = true -> (jsize v <= length (stringify v))%nat.
Proof.
  induction v as [| b | m e | s | l IH | l IH] using json_ind'; intros Hwf; simpl in *.
  - lia.
  - destruct b; simpl; lia.
  - discriminate.
  - unfold quote. simpl. lia.
  - rewrite length_app. simpl.
    pose proof (length_join_comma (map stringify l)) as Hj. rewrite map_map in Hj.
    enough (sum_list (map (fun x => S (jsize x)) l)
            <= sum_list (map (fun x => S (length (stringify x))) l))%nat by lia.
    apply sum_list_map_le. intros x Hx.
    rewrite Forall_forall in IH. rewrite forallb_forall in Hwf.
    pose proof (IH x Hx (Hwf x ltac:(by apply list_elem_of_In))). lia.
  - rewrite length_app. simpl.
    pose proof (length_join_comma (map (fun '(k, x) => quote k ++ 58 :: stringify x) l)) as Hj.
    rewrite map_map in Hj. bool_hyps.
    change (sum_list (map (fun kv => S (length (let '(k, x) := kv in quote k ++ 58%N :: stringify x))) l)
            <= S (length (join_comma (map (fun '(k, x) => quote k ++ 58%N :: stringify x) l))))%nat in Hj.
    assert (Hs : (sum_list (map (fun '(_, x) => S (jsize x)) l)
            <= sum_list (map (fun kv => S (length (let '(k, x) := kv in quote k ++ 58%N :: stringify x))) l))%nat).
    { apply sum_list_map_le. intros [k x] Hkx.
      rewrite Forall_forall in IH. rewrite forallb_forall in H0.
      pose proof (H0 (k, x) ltac:(by apply list_elem_of_In)) as Hw. simpl in Hw.
      apply andb_true_iff in Hw as [_ Hw].
      pose proof (IH (k, x) Hkx Hw). simpl in *. rewrite length_app. simpl. lia. }
    eapply Nat.le_trans; [apply le_n_S, Hs|]. apply le_n_S.
    eapply Nat.le_trans; [exact Hj|]. rewrite Nat.add_1_r. apply le_n_S, Nat.eq_le_incl. reflexivity.
Qed.

Lemma parse_json_of_stringify (v : json) :
  json_wfb v = true -> parse_json (stringify v) = Normal v.
Proof.
  intros Hwf. unfold parse_json.
  pose proof (parse_value_stringify v Hwf (S (length (stringify v))) []) as Hp.
  rewrite app_nil_r in Hp. rewrite Hp; [done|]. pose proof (jsize_le_length v Hwf). lia.
Qed.

(** [JSON.parse] gives back what [JSON.stringify] printed, for every
    well-formed value (strings of code units, no numbers, objects without
    duplicate keys): the session record round-trips through storage. *)
Lemma parse_json_stringify (v : json) :
  json_wfb v = true -> parse_json (stringify v) = Normal v.
Proof. apply parse_json_of_stringify. Qed.

(** * Witness *)

