(* ===== verification/Storage.v ===== *)
(** * The Web Storage interface ([window.localStorage])

    The provider persists the session through three calls of the Web
    Storage API: [getItem], [setItem] and [removeItem].  [WebStorage] is
    the interface the session code is proved against, [WebStorageLaws]
    what every implementation promises, and [QuotaStorage] the browser's
    behaviour: a string map whose total size (code units of keys and
    values) is bounded by a quota, [setItem] throwing
    [QuotaExceededError] and changing nothing when the new value does not
    fit. *)

From stdpp Require Import base list strings gmap.
From Stdlib Require Import NArith.
From S2P Require Import Prelude JsLib.

Class WebStorage (S : Type) := {
  getItem : S -> jsstr -> option jsstr;
  setItem : S -> jsstr -> jsstr -> outcome S;
  removeItem : S -> jsstr -> S
}.

Class WebStorageLaws (S : Type) `{WebStorage S} := {
  get_set_eq : forall s k v s', setItem s k v = Normal s' -> getItem s' k = Some v;
  get_set_ne : forall s k k' v s', setItem s k v = Normal s' -> k' <> k ->
                 getItem s' k' = getItem s k';
  get_remove_eq : forall s k, getItem (removeItem s k) k = None;
  get_remove_ne : forall s k k', k' <> k -> getItem (removeItem s k) k' = getItem s k';
  set_throw_quota : forall s k v e, setItem s k v = Throw e -> e = QuotaExceededError
}.

(** ** The browser's storage *)

Record QuotaStorage := mkQuotaStorage {
  items : gmap jsstr jsstr;
  quota : N
}.

(** Code units used by the keys and values of the storage. *)
Definition storage_used (m : gmap jsstr jsstr) : N :=
  map_fold (fun k v acc => N.of_nat (length k) + N.of_nat (length v) + acc)%N 0%N m.

Definition qs_setItem (s : QuotaStorage) (k v : jsstr) : outcome QuotaStorage :=
  let m := <[k := v]> (items s) in
  if (storage_used m <=? quota s)%N then Normal (mkQuotaStorage m (quota s))
  else Throw QuotaExceededError.

#[export] Instance QuotaStorage_WebStorage : WebStorage QuotaStorage := {
  getItem s k := items s !! k;
  setItem := qs_setItem;
  removeItem s k := mkQuotaStorage (delete k (items s)) (quota s)
}.

(** An empty storage with the given quota. *)
Definition empty_storage (q : N) : QuotaStorage := mkQuotaStorage ∅ q.

Lemma qs_setItem_normal s k v s' :
  qs_setItem s k v = Normal s' -> items s' = <[k := v]> (items s).
Proof. unfold qs_setItem. case_ifs; [by intros [= <-]|discriminate]. Qed.

#[export] Instance QuotaStorage_laws : WebStorageLaws QuotaStorage.
Proof.
  split; simpl.
  - intros s k v s' ->%qs_setItem_normal. apply lookup_insert_eq.
  - intros s k k' v s' ->%qs_setItem_normal Hne. by apply lookup_insert_ne.
  - intros s k. apply lookup_delete_eq.
  - intros s k k' Hne. by apply lookup_delete_ne.
  - intros s k v e. unfold qs_setItem. case_ifs; congruence.
Qed.

(** ** A storage without quota *)

(** The same map with no size bound: [setItem] never throws.  Used to
    state what the program does when persisting cannot fail. *)
Record MapStorage := mkMapStorage { map_items : gmap jsstr jsstr }.

#[export] Instance MapStorage_WebStorage : WebStorage MapStorage := {
  getItem s k := map_items s !! k;
  setItem s k v := Normal (mkMapStorage (<[k := v]> (map_items s)));
  removeItem s k := mkMapStorage (delete k (map_items s))
}.

#[export] Instance MapStorage_laws : WebStorageLaws MapStorage.
Proof.
  split; simpl.
  - intros s k v s' [= <-]. apply lookup_insert_eq.
  - intros s k k' v s' [= <-] Hne. by apply lookup_insert_ne.
  - intros s k. apply lookup_delete_eq.
  - intros s k k' Hne. by apply lookup_delete_ne.
  - discriminate.
Qed.

Lemma MapStorage_set_total (s : MapStorage) k v : exists s', setItem s k v = Normal s'.
Proof. eexists. reflexivity. Qed.
