(* ===== verification/Auth.v ===== *)
(** * The session part of the provider ([context/AuthContext.tsx])

    [Module Auth] models [AuthProvider]'s state and its session
    operations over any [WebStorage] (a Section parameter):
    - [AuthState]: the hooks [user], [isAuthenticated], [isLoading], the
      five reference lists and the storage.  [user] is a JavaScript value
      ([json]): it is whatever [JSON.parse] returned on start-up, or the
      object of the directory, or a spread of one of them;
    - [restore] (the [useEffect] of lines 118-126), [login_start] and
      [login_finish] (the two halves of [login], lines 128-145, split at
      its [await]), [logout] (206-210), [updateUserProfile] (212-218) and
      [completeFirstLogin] (220-226).
    A handler takes the snapshot of the render whose closure it is (the
    value of [user] it reads) and the live state it updates, and returns
    the new live state with the handler's normal result or exception:
    state changes made before an exception stay, as in React. *)

From stdpp Require Import base list strings gmap.
From Stdlib Require Import NArith ZArith.
From S2P Require Import Prelude JsLib Types Json Storage.

Module Auth.

(** ** The data of the directory (lines 39-105) *)

(** A [User] as the object literal of [mockData.users], fields in the
    order of the literal. *)
Definition user_props (u : User.t) : list (jsstr * json) :=
  [(js "id", JStr (User.id u)); (js "domain", JStr (User.domain u));
        (js "firstName", JStr (User.firstName u)); (js "lastName", JStr (User.lastName u));
        (js "middleName", JStr (User.middleName u)); (js "ministry", JStr (User.ministry u));
        (js "department", JStr (User.department u)); (js "position", JStr (User.position u));
        (js "address", JStr (User.address u)); (js "officeNumber", JStr (User.officeNumber u));
        (js "phoneNumber", JStr (User.phoneNumber u));
        (js "internalPhone", JStr (User.internalPhone u)); (js "email", JStr (User.email u));
        (js "role", JStr (role_str (User.role u))); (js "isFirstLogin", JBool (User.isFirstLogin u))].

Definition user_to_json (u : User.t) : json := JObj (user_props u).

Definition mock_admin : User.t :=
  User.mk (js "admin") (js "admin@gov27.ru") (js "Администратор") (js "Системы")
    (js "Портала") (js "1") (js "1") (js "4") (js "1") (js "101")
    (js "+7 (4212) 12-34-56") (js "1234") (js "admin@gov27.ru") role_admin false.

Definition mock_ivanov : User.t :=
  User.mk (js "user1") (js "ivanov@gov27.ru") (js "Иван") (js "Иванов")
    (js "Иванович") (js "1") (js "1") (js "2") (js "1") (js "201")
    (js "+7 (4212) 12-34-57") (js "1235") (js "ivanov@gov27.ru") role_user false.

Definition mock_users : list User.t := [mock_admin; mock_ivanov].

Definition mock_ministries : list Ministry.t :=
  [Ministry.mk (js "1") (js "Министерство экономического развития") (js "MED");
   Ministry.mk (js "2") (js "Министерство образования и науки") (js "MON");
   Ministry.mk (js "3") (js "Министерство здравоохранения") (js "MZ");
   Ministry.mk (js "4") (js "Министерство строительства") (js "MS")].

Definition mock_departments : list Department.t :=
  [Department.mk (js "1") (js "Отдел экономического анализа") (js "1") (js "OEA");
   Department.mk (js "2") (js "Отдел инвестиций") (js "1") (js "OI");
   Department.mk (js "3") (js "Отдел дошкольного образования") (js "2") (js "ODO");
   Department.mk (js "4") (js "Отдел высшего образования") (js "2") (js "OVO")].

Definition mock_positions : list Position.t :=
  [Position.mk (js "1") (js "Главный специалист") (js "GS");
   Position.mk (js "2") (js "Ведущий специалист") (js "VS");
   Position.mk (js "3") (js "Заместитель начальника отдела") (js "ZNO");
   Position.mk (js "4") (js "Начальник отдела") (js "NO")].

Definition mock_addresses : list Address.t :=
  [Address.mk (js "1") (js "ул. Муравьева-Амурского") (js "22") (js "Хабаровск") (js "680000");
   Address.mk (js "2") (js "ул. Фрунзе") (js "68") (js "Хабаровск") (js "680000");
   Address.mk (js "3") (js "ул. Комсомольская") (js "56") (js "Хабаровск") (js "680000")].

Definition mock_resources : list Resource.t :=
  [Resource.mk (js "1") (js "Система электронного документооборота")
     (js "СЭД для работы с документами") (js "/sed") (js "FileText") (Num 1) true;
   Resource.mk (js "2") (js "Телефонный справочник") (js "Справочник сотрудников")
     (js "/phonebook") (js "Phone") (Num 2) true;
   Resource.mk (js "3") (js "Обратиться в техподдержку") (js "Техническая поддержка")
     (js "/support") (js "Headphones") (Num 3) true;
   Resource.mk (js "4") (js "Направить заявку") (js "Подача заявок и обращений")
     (js "/requests") (js "Send") (Num 4) true].

(** The storage key of the session record. *)
Definition key_user : jsstr := js "portal_user".

(** The password every account of the directory accepts (line 135). *)
Definition demo_password : jsstr := js "password".

(** ** JavaScript values as the code uses them *)

(** [!v]: [null], [false], [0] and [""] are falsy (JSON has no
    [undefined] or [NaN]). *)
Definition json_falsy (v : json) : bool :=
  match v with
  | JNull => true
  | JBool b => negb b
  | JNum m _ => (m =? 0)%Z
  | JStr s => str_falsy s
  | JArr _ | JObj _ => false
  end.

(** The own enumerable properties a spread [{...v}] copies: the members
    of an object, the indices of an array or of a string; none for the
    other values. *)
Definition own_props (v : json) : list (jsstr * json) :=
  match v with
  | JObj l => l
  | JArr l => imap (fun i x => (N_dec (N.of_nat i), x)) l
  | JStr s => imap (fun i c => (N_dec (N.of_nat i), JStr [c])) s
  | _ => []
  end.

(** [{...base, ...data}] where [base] has the properties [o]. *)
Definition obj_merge (o data : list (jsstr * json)) : list (jsstr * json) :=
  fold_left (fun acc '(k, v) => obj_set k v acc) data o.

(** [v.f] on an object, [undefined] being [None]. *)
Definition json_get (v : json) (f : jsstr) : option json :=
  match v with JObj l => obj_get f l | _ => None end.

Section Provider.
Context {S : Type} `{WebStorage S}.

(** ** State *)

Record AuthState := mkAuthState {
  user : json;
  isAuthenticated : bool;
  isLoading : bool;
  ministries : list Ministry.t;
  departments : list Department.t;
  positions : list Position.t;
  addresses : list Address.t;
  resources : list Resource.t;
  storage : S
}.

Definition set_user (v : json) (st : AuthState) : AuthState :=
  mkAuthState v (isAuthenticated st) (isLoading st) (ministries st) (departments st)
    (positions st) (addresses st) (resources st) (storage st).
Definition set_isAuthenticated (b : bool) (st : AuthState) : AuthState :=
  mkAuthState (user st) b (isLoading st) (ministries st) (departments st)
    (positions st) (addresses st) (resources st) (storage st).
Definition set_isLoading (b : bool) (st : AuthState) : AuthState :=
  mkAuthState (user st) (isAuthenticated st) b (ministries st) (departments st)
    (positions st) (addresses st) (resources st) (storage st).
Definition set_storage (s : S) (st : AuthState) : AuthState :=
  mkAuthState (user st) (isAuthenticated st) (isLoading st) (ministries st)
    (departments st) (positions st) (addresses st) (resources st) s.

(** The state of the first render (lines 108-116) over the storage the
    browser keeps between page loads. *)
Definition initial_state (s : S) : AuthState :=
  mkAuthState JNull false true mock_ministries mock_departments mock_positions
    mock_addresses mock_resources s.

(** ** Operations *)

(** [localStorage.setItem('portal_user', JSON.stringify(v))]. *)
Definition persist (v : json) (st : AuthState) : AuthState * outcome unit :=
  match setItem (storage st) key_user (stringify v) with
  | Normal s' => (set_storage s' st, Normal tt)
  | Throw e => (st, Throw e)
  end.

(** The start-up effect (lines 118-126): a stored record that is not
    JSON makes [JSON.parse] throw out of the effect, before
    [setIsLoading(false)]. *)
Definition restore (st : AuthState) : AuthState * outcome unit :=
  match getItem (storage st) key_user with
  | Some saved =>
      if str_falsy saved then (set_isLoading false st, Normal tt)
      else match parse_json saved with
           | Normal v => (set_isLoading false (set_isAuthenticated true (set_user v st)), Normal tt)
           | Throw e => (st, Throw e)
           end
  | None => (set_isLoading false st, Normal tt)
  end.

(** [login], up to its [await] (line 129). *)
Definition login_start (st : AuthState) : AuthState := set_isLoading true st.

(** [mockData.users.find(u => u.domain === domain)] *)
Definition find_user (domain : jsstr) : option User.t :=
  find (fun u => bool_decide (User.domain u = domain)) mock_users.

(** [login], after the timer (lines 133-144). *)
Definition login_finish (domain password : jsstr) (st : AuthState)
  : AuthState * outcome bool :=
  match find_user domain with
  | Some u =>
      if bool_decide (password = demo_password) then
        let st1 := set_isAuthenticated true (set_user (user_to_json u) st) in
        match persist (user_to_json u) st1 with
        | (st2, Normal _) => (set_isLoading false st2, Normal true)
        | (st2, Throw e) => (st2, Throw e)
        end
      else (set_isLoading false st, Normal false)
  | None => (set_isLoading false st, Normal false)
  end.

(** [logout] (lines 147-151). *)
Definition logout (st : AuthState) : AuthState :=
  set_storage (removeItem (storage st) key_user) (set_isAuthenticated false (set_user JNull st)).

(** [updateUserProfile(data)] (lines 153-159), [user] read from the
    snapshot [snap] of its render. *)
Definition updateUserProfile (snap : AuthState) (data : list (jsstr * json)) (st : AuthState)
  : AuthState * outcome unit :=
  if json_falsy (user snap) then (st, Normal tt)
  else let updated := JObj (obj_merge (own_props (user snap)) data) in
       persist updated (set_user updated st).

(** [completeFirstLogin()] (lines 161-167), [user] read from [snap]. *)
Definition completeFirstLogin (snap : AuthState) (st : AuthState) : AuthState * outcome unit :=
  if json_falsy (user snap) then (st, Normal tt)
  else let updated := JObj (obj_merge (own_props (user snap)) [(js "isFirstLogin", JBool false)]) in
       persist updated (set_user updated st).

End Provider.

(** A login attempt the directory rejects: the negation of
    [foundUser && password === 'password'] (line 135). *)
Definition login_rejected (domain password : jsstr) : bool :=
  negb (bool_decide (is_Some (find_user domain)) && bool_decide (password = demo_password)).

(** * Properties *)

Section Properties.
Context {S : Type} `{WebStorageLaws S}.

Lemma find_user_spec (d : jsstr) (u : User.t) :
  find_user d = Some u <-> u ∈ mock_users /\ User.domain u = d.
Proof.
  split.
  - intros Hf. unfold find_user in Hf. apply find_some in Hf as [Hin Hd].
    apply bool_decide_eq_true in Hd. split; [by apply list_elem_of_In|done].
  - intros [Hin <-]. repeat (apply elem_of_cons in Hin as [->|Hin]; [reflexivity|]).
    by apply elem_of_nil in Hin.
Qed.

(** [login] after its timer, for an account of the directory and the
    right password: the user is set, the session authenticated, the
    record saved, and loading ends only when saving succeeded. *)
Lemma login_finish_found (d p : jsstr) (u : User.t) (st : AuthState) :
  find_user d = Some u -> p = demo_password ->
  login_finish d p st =
  match setItem (storage st) key_user (stringify (user_to_json u)) with
  | Normal s' => (set_isLoading false (set_storage s' (set_isAuthenticated true
                   (set_user (user_to_json u) st))), Normal true)
  | Throw e => (set_isAuthenticated true (set_user (user_to_json u) st), Throw e)
  end.
Proof.
  intros Hf ->. unfold login_finish, persist. rewrite Hf, bool_decide_true by done.
  cbn [storage set_isAuthenticated set_user]. by destruct (setItem _ _ _).
Qed.

(** A rejected attempt only ends loading and resolves to [false]. *)
Lemma login_finish_rejected (d p : jsstr) (st : AuthState) :
  login_rejected d p = true -> login_finish d p st = (set_isLoading false st, Normal false).
Proof.
  unfold login_rejected, login_finish. destruct (find_user d); [|done]. simpl.
  case_bool_decide; simpl; [discriminate|done].
Qed.

Lemma stringify_not_falsy (v : json) : json_wfb v = true -> str_falsy (stringify v) = false.
Proof. intros (c & r & -> & _)%stringify_head. done. Qed.

(** Restoring a storage whose record is the text of a well-formed value
    gives back that value, authenticated. *)
Lemma restore_initial_saved (v : json) (s : S) :
  json_wfb v = true -> getItem s key_user = Some (stringify v) ->
  restore (initial_state s) =
  (mkAuthState v true false mock_ministries mock_departments mock_positions
     mock_addresses mock_resources s, Normal tt).
Proof.
  intros Hwf Hg. unfold restore. simpl. rewrite Hg.
  rewrite stringify_not_falsy by done. by rewrite parse_json_of_stringify.
Qed.

(** C11: a known account with the right password logs in: the user becomes
    the directory's object, the session is authenticated, loading ends,
    the record is saved, and [login] resolves to [true]. *)
Theorem login_finish_success (d p : jsstr) (u : User.t) (st : AuthState) (s' : S) :
  find_user d = Some u -> p = demo_password ->
  setItem (storage st) key_user (stringify (user_to_json u)) = Normal s' ->
  login_finish d p st =
  (mkAuthState (user_to_json u) true false (ministries st) (departments st)
     (positions st) (addresses st) (resources st) s', Normal true).
Proof.
  intros Hf Hp Hs. rewrite (login_finish_found d p u) by done. by rewrite Hs.
Qed.

(** C12: every rejected attempt has the same effect and result: loading
    ends, nothing else changes, [login] resolves to [false]; an unknown
    account and a wrong password cannot be told apart. *)
Theorem login_rejected_indistinguishable (d1 p1 d2 p2 : jsstr) (st : AuthState) :
  login_rejected d1 p1 = true -> login_rejected d2 p2 = true ->
  login_finish d1 p1 st = (set_isLoading false st, Normal false) /\
  login_finish d1 p1 st = login_finish d2 p2 st.
Proof.
  intros H1 H2. by rewrite (login_finish_rejected d1 p1), (login_finish_rejected d2 p2).
Qed.

(** C18: when saving the session fails, [login] throws after [setUser] and
    [setIsAuthenticated] took effect and before [setIsLoading(false)]:
    nothing is rolled back and loading never ends. *)
Theorem login_finish_quota_no_rollback (d p : jsstr) (u : User.t) (st : AuthState) (e : exn) :
  find_user d = Some u -> p = demo_password ->
  setItem (storage st) key_user (stringify (user_to_json u)) = Throw e ->
  login_finish d p (login_start st) =
  (set_isAuthenticated true (set_user (user_to_json u) (login_start st)), Throw QuotaExceededError).
Proof.
  intros Hf Hp Hs. rewrite (login_finish_found d p u) by done. cbn [login_start storage set_isLoading].
  rewrite Hs. by rewrite (set_throw_quota _ _ _ _ Hs).
Qed.

(** After [logout] there is no user, the session is not authenticated,
    the record is gone, and a reload restores no session. *)
Lemma logout_clears (st : AuthState) :
  user (logout st) = JNull /\ isAuthenticated (logout st) = false /\
  getItem (storage (logout st)) key_user = None /\
  restore (logout st) = (set_isLoading false (logout st), Normal tt).
Proof.
  unfold restore. simpl. rewrite get_remove_eq. done.
Qed.

(** C17: a stored record that is not JSON makes the start-up effect throw:
    the state is left as it was, with [isLoading] still [true] on the first
    render, instead of being treated as "no session". *)
Theorem restore_corrupt_throws (st : AuthState) (t : jsstr) (e : exn) :
  getItem (storage st) key_user = Some t -> str_falsy t = false -> parse_json t = Throw e ->
  restore st = (st, Throw e).
Proof.
  intros Hg Ht Hp. unfold restore. by rewrite Hg, Ht, Hp.
Qed.

(** C16: what [persist] saved is what the next page load restores: the
    restored [user] is deep-equal to the saved value and the session is
    authenticated. *)
Theorem save_restore (v : json) (st : AuthState) (s' : S) :
  json_wfb v = true -> setItem (storage st) key_user (stringify v) = Normal s' ->
  restore (initial_state s') =
  (mkAuthState v true false mock_ministries mock_departments mock_positions
     mock_addresses mock_resources s', Normal tt).
Proof.
  intros Hwf Hs. apply restore_initial_saved; [done|]. by apply (get_set_eq _ _ _ _ Hs).
Qed.

Lemma mock_users_wf (u : User.t) : u ∈ mock_users -> json_wfb (user_to_json u) = true.
Proof.
  intros Hin. repeat (apply elem_of_cons in Hin as [->|Hin]; [vm_compute; reflexivity|]).
  by apply elem_of_nil in Hin.
Qed.

(** A successful login survives a reload: restoring from the storage
    [login] wrote gives back the directory's user, authenticated. *)
Lemma login_then_reload (d p : jsstr) (u : User.t) (st : AuthState) (s' : S) :
  find_user d = Some u -> p = demo_password ->
  setItem (storage st) key_user (stringify (user_to_json u)) = Normal s' ->
  storage (fst (login_finish d p st)) = s' /\
  restore (initial_state s') =
  (mkAuthState (user_to_json u) true false mock_ministries mock_departments mock_positions
     mock_addresses mock_resources s', Normal tt).
Proof.
  intros Hf Hp Hs. rewrite (login_finish_found d p u) by done. rewrite Hs. split; [done|].
  apply restore_initial_saved; [|by apply (get_set_eq _ _ _ _ Hs)].
  apply mock_users_wf. by apply find_user_spec in Hf as [? _].
Qed.

End Properties.

(** * Witnesses: the properties at concrete inputs, over the browser's
    storage with a quota of 100000 code units (10 for the failure). *)

Lemma login_finish_success_witness :
  login_finish (js "admin@gov27.ru") (js "password") (initial_state (empty_storage 100000)) =
  (mkAuthState (user_to_json mock_admin) true false mock_ministries mock_departments
     mock_positions mock_addresses mock_resources
     (mkQuotaStorage (<[key_user := stringify (user_to_json mock_admin)]> ∅) 100000),
   Normal true).
Proof.
  apply (login_finish_success _ _ mock_admin); [reflexivity|reflexivity|].
  vm_compute. reflexivity.
Defined.

Lemma login_rejected_indistinguishable_witness :
  login_rejected (js "nobody@gov27.ru") (js "password") = true /\
  login_rejected (js "admin@gov27.ru") (js "secret") = true /\
  login_finish (js "nobody@gov27.ru") (js "password") (initial_state (empty_storage 100000)) =
  login_finish (js "admin@gov27.ru") (js "secret") (initial_state (empty_storage 100000)).
Proof.
  split; [reflexivity|]. split; [reflexivity|].
  apply (login_rejected_indistinguishable _ _ _ _ _); reflexivity.
Defined.

Lemma login_finish_quota_no_rollback_witness :
  login_finish (js "admin@gov27.ru") (js "password") (login_start (initial_state (empty_storage 10))) =
  (set_isAuthenticated true (set_user (user_to_json mock_admin)
     (login_start (initial_state (empty_storage 10)))), Throw QuotaExceededError).
Proof.
  apply (login_finish_quota_no_rollback _ _ mock_admin _ QuotaExceededError);
    [reflexivity|reflexivity|vm_compute; reflexivity].
Defined.

Lemma restore_corrupt_throws_witness :
  restore (initial_state (mkQuotaStorage (<[key_user := js "{bad"]> ∅) 1000)) =
  (initial_state (mkQuotaStorage (<[key_user := js "{bad"]> ∅) 1000), Throw SyntaxError).
Proof.
  apply (restore_corrupt_throws _ (js "{bad")); [vm_compute; reflexivity|reflexivity|vm_compute; reflexivity].
Defined.

Lemma save_restore_witness :
  restore (initial_state (mkQuotaStorage (<[key_user := stringify (user_to_json mock_ivanov)]> ∅) 100000)) =
  (mkAuthState (user_to_json mock_ivanov) true false mock_ministries mock_departments
     mock_positions mock_addresses mock_resources
     (mkQuotaStorage (<[key_user := stringify (user_to_json mock_ivanov)]> ∅) 100000), Normal tt).
Proof.
  apply (save_restore _ (initial_state (empty_storage 100000))); vm_compute; reflexivity.
Defined.

Lemma logout_clears_witness :
  user (logout (initial_state (mkQuotaStorage (<[key_user := js "{}"]> ∅) 1000))) = JNull /\
  isAuthenticated (logout (initial_state (mkQuotaStorage (<[key_user := js "{}"]> ∅) 1000))) = false /\
  getItem (storage (logout (initial_state (mkQuotaStorage (<[key_user := js "{}"]> ∅) 1000))))
    key_user = None /\
  restore (logout (initial_state (mkQuotaStorage (<[key_user := js "{}"]> ∅) 1000))) =
  (set_isLoading false (logout (initial_state (mkQuotaStorage (<[key_user := js "{}"]> ∅) 1000))),
   Normal tt).
Proof. exact (logout_clears (initial_state (mkQuotaStorage (<[key_user := js "{}"]> ∅) 1000))). Defined.

End Auth.
