(* ===== verification/FirstLoginForm.v ===== *)
(** * The first-login profile form ([components/profile/FirstLoginForm.tsx])

    [Module FirstLoginForm] holds the form's state ([formData], [errors])
    and its handlers: [validateForm] (lines 29-54) returning the error
    object, [handlePhoneFormat] (89-96) and [handleInputChange] (75-87),
    with the two regular expressions of the validation as executable
    testers ([email_re_test], [phone_re_test]) proved equal to the
    languages the regexes denote. *)

From stdpp Require Import base list strings.
From Stdlib Require Import NArith.
From S2P Require Import Prelude JsLib Types Json Storage Auth.

Open Scope N_scope.

Module FirstLoginForm.

(** ** State *)

(** The object held by [useState] at lines 13-25, field for field. *)
Record FormData := mkFormData {
  firstName : jsstr;
  lastName : jsstr;
  middleName : jsstr;
  ministry : jsstr;
  department : jsstr;
  position : jsstr;
  address : jsstr;
  officeNumber : jsstr;
  phoneNumber : jsstr;
  internalPhone : jsstr;
  email : jsstr
}.

(** The property names the handlers are called with. *)
Inductive Field :=
| F_firstName | F_lastName | F_middleName | F_ministry | F_department
| F_position | F_address | F_officeNumber | F_phoneNumber | F_internalPhone
| F_email.

#[export] Instance Field_eq_dec : EqDecision Field.
Proof. solve_decision. Defined.

Definition field_key (f : Field) : jsstr :=
  match f with
  | F_firstName => js "firstName" | F_lastName => js "lastName"
  | F_middleName => js "middleName" | F_ministry => js "ministry"
  | F_department => js "department" | F_position => js "position"
  | F_address => js "address" | F_officeNumber => js "officeNumber"
  | F_phoneNumber => js "phoneNumber" | F_internalPhone => js "internalPhone"
  | F_email => js "email"
  end.

Definition get_field (fd : FormData) (f : Field) : jsstr :=
  match f with
  | F_firstName => firstName fd | F_lastName => lastName fd
  | F_middleName => middleName fd | F_ministry => ministry fd
  | F_department => department fd | F_position => position fd
  | F_address => address fd | F_officeNumber => officeNumber fd
  | F_phoneNumber => phoneNumber fd | F_internalPhone => internalPhone fd
  | F_email => email fd
  end.

(** [{ ...prev, [field]: value }] for the keys of the form. *)
Definition set_field (fd : FormData) (f : Field) (v : jsstr) : FormData :=
  let 'mkFormData a b c d e g h i j k l := fd in
  match f with
  | F_firstName => mkFormData v b c d e g h i j k l
  | F_lastName => mkFormData a v c d e g h i j k l
  | F_middleName => mkFormData a b v d e g h i j k l
  | F_ministry => mkFormData a b c v e g h i j k l
  | F_department => mkFormData a b c d v g h i j k l
  | F_position => mkFormData a b c d e v h i j k l
  | F_address => mkFormData a b c d e g v i j k l
  | F_officeNumber => mkFormData a b c d e g h v j k l
  | F_phoneNumber => mkFormData a b c d e g h i v k l
  | F_internalPhone => mkFormData a b c d e g h i j v l
  | F_email => mkFormData a b c d e g h i j k v
  end.

(** [x || ''] on a string. *)
Definition or_empty (s : jsstr) : jsstr := if str_falsy s then [] else s.

(** The initial state, [user?.f || ''] for each field (lines 13-25). *)
Definition initFormData (user : option User.t) : FormData :=
  let g := fun (p : User.t -> jsstr) =>
             match user with Some u => or_empty (p u) | None => [] end in
  mkFormData (g User.firstName) (g User.lastName) (g User.middleName)
    (g User.ministry) (g User.department) (g User.position) (g User.address)
    (g User.officeNumber) (g User.phoneNumber) (g User.internalPhone)
    (g User.email).

(** ** The regular expressions *)

(** [[^\s@]] *)
Definition not_ws_at (c : N) : bool := negb (is_ws c) && negb (c =? 64).

(** Some ['.'] with at least one code unit after it. *)
Fixpoint dot_then_more (l : jsstr) : bool :=
  match l with
  | [] => false
  | c :: r => ((c =? 46) && negb (str_falsy r)) || dot_then_more r
  end.

(** The part before the first ['@'] and the part after it. *)
Fixpoint split_at_sign (s : jsstr) : option (jsstr * jsstr) :=
  match s with
  | [] => None
  | c :: r =>
      if c =? 64 then Some ([], r)
      else match split_at_sign r with
           | Some (a, d) => Some (c :: a, d)
           | None => None
           end
  end.

(** [/^[^\s@]+@[^\s@]+\.[^\s@]+$/.test(s)] (line 44). *)
Definition email_re_test (s : jsstr) : bool :=
  match split_at_sign s with
  | Some (a, d) =>
      negb (str_falsy a) && forallb not_ws_at a && forallb not_ws_at d &&
      match d with [] => false | _ :: d' => dot_then_more d' end
  | None => false
  end.

(** [/^\+7\s\(\d{4}\)\s\d{2}-\d{2}-\d{2}$/.test(s)] (line 48). *)
Definition phone_re_test (s : jsstr) : bool :=
  match s with
  | [p; seven; w1; lp; a1; a2; a3; a4; rp; w2; b1; b2; h1; c1; c2; h2; e1; e2] =>
      (p =? 43) && (seven =? 55) && is_ws w1 && (lp =? 40)
      && forallb is_digit [a1; a2; a3; a4] && (rp =? 41) && is_ws w2
      && forallb is_digit [b1; b2] && (h1 =? 45) && forallb is_digit [c1; c2]
      && (h2 =? 45) && forallb is_digit [e1; e2]
  | _ => false
  end.

(** ** validateForm (lines 29-54) *)

Definition msg_required : jsstr := js "Поле обязательно для заполнения".
Definition msg_ministry : jsstr := js "Выберите министерство".
Definition msg_department : jsstr := js "Выберите подразделение".
Definition msg_position : jsstr := js "Выберите должность".
Definition msg_address : jsstr := js "Выберите адрес".
Definition msg_email : jsstr := js "Введите корректный email".
Definition msg_phone : jsstr := js "Формат: +7 (XXXX) XX-XX-XX".

(** [if (cond) newErrors.k = msg;] *)
Definition set_if (cond : bool) (f : Field) (msg : jsstr) (o : jsobj jsstr)
  : jsobj jsstr :=
  if cond then obj_set (field_key f) msg o else o.

(** The object [newErrors] built by the thirteen tests, in order. *)
Definition validateErrors (fd : FormData) : jsobj jsstr :=
  let o := [] in
  let o := set_if (str_falsy (js_trim (firstName fd))) F_firstName msg_required o in
  let o := set_if (str_falsy (js_trim (lastName fd))) F_lastName msg_required o in
  let o := set_if (str_falsy (js_trim (middleName fd))) F_middleName msg_required o in
  let o := set_if (str_falsy (ministry fd)) F_ministry msg_ministry o in
  let o := set_if (str_falsy (department fd)) F_department msg_department o in
  let o := set_if (str_falsy (position fd)) F_position msg_position o in
  let o := set_if (str_falsy (address fd)) F_address msg_address o in
  let o := set_if (str_falsy (js_trim (officeNumber fd))) F_officeNumber msg_required o in
  let o := set_if (str_falsy (js_trim (phoneNumber fd))) F_phoneNumber msg_required o in
  let o := set_if (str_falsy (js_trim (internalPhone fd))) F_internalPhone msg_required o in
  let o := set_if (str_falsy (js_trim (email fd))) F_email msg_required o in
  let o := set_if (negb (str_falsy (email fd)) && negb (email_re_test (email fd)))
             F_email msg_email o in
  let o := set_if (negb (str_falsy (phoneNumber fd)) && negb (phone_re_test (phoneNumber fd)))
             F_phoneNumber msg_phone o in
  o.

(** [validateForm] returns [Object.keys(newErrors).length === 0] and
    stores [newErrors] with [setErrors]. *)
Definition validateForm (fd : FormData) : bool * jsobj jsstr :=
  let errs := validateErrors fd in
  ((length (obj_keys errs) =? 0)%nat, errs).

(** ** handlePhoneFormat (lines 89-96) *)

(** The replacement text ['+7 ($1) $2-$3-$4'] with the four groups. *)
Definition phone_template (a1 a2 a3 a4 b1 b2 c1 c2 e1 e2 : N) : jsstr :=
  js "+7 (" ++ [a1; a2; a3; a4] ++ js ") " ++ [b1; b2] ++ js "-"
    ++ [c1; c2] ++ js "-" ++ [e1; e2].

(** [cleaned.replace(/^7(\d{4})(\d{2})(\d{2})(\d{2})/, '+7 ($1) $2-$3-$4')]:
    the pattern is anchored and not global, so only an eleven-digit
    prefix is rewritten and the rest of the string is kept. *)
Definition phone_replace (cleaned : jsstr) : jsstr :=
  match cleaned with
  | c0 :: a1 :: a2 :: a3 :: a4 :: b1 :: b2 :: c1 :: c2 :: e1 :: e2 :: rest =>
      if (c0 =? 55) && forallb is_digit [a1; a2; a3; a4; b1; b2; c1; c2; e1; e2]
      then phone_template a1 a2 a3 a4 b1 b2 c1 c2 e1 e2 ++ rest
      else cleaned
  | _ => cleaned
  end.

Definition handlePhoneFormat (value : jsstr) : jsstr :=
  let cleaned := strip_non_digits value in
  if starts_with (js "7") cleaned then phone_replace cleaned else value.

(** ** handleInputChange (lines 75-87) *)

(** The form's state: [formData], [errors] and [isLoading]. *)
Record FormState := mkFormState {
  formData : FormData;
  errors : jsobj jsstr;
  isLoading : bool
}.

(** [setFormData({...prev, [field]: value})], then, when [errors[field]]
    is truthy, [setErrors({...prev, [field]: ''})]: the key stays. *)
Definition handleInputChange (f : Field) (value : jsstr) (st : FormState) : FormState :=
  let fd := set_field (formData st) f value in
  let errs := match obj_get (field_key f) (errors st) with
              | Some m => if str_falsy m then errors st
                          else obj_set (field_key f) [] (errors st)
              | None => errors st
              end in
  mkFormState fd errs (isLoading st).

(** ** handleSubmit (lines 56-73) *)

(** The fields in the order of the form. *)
Definition all_fields : list Field :=
  [F_firstName; F_lastName; F_middleName; F_ministry; F_department; F_position;
   F_address; F_officeNumber; F_phoneNumber; F_internalPhone; F_email].

(** [formData] as the object passed to [updateUserProfile]: its eleven
    string properties in the order of the [useState] literal. *)
Definition formData_json (fd : FormData) : list (jsstr * json) :=
  map (fun f => (field_key f, JStr (get_field fd f))) all_fields.

(** [handleSubmit]: [validateForm()] (which calls [setErrors]); on
    success [await updateUserProfile(formData); completeFirstLogin();]
    inside [try], any exception caught and logged, [setIsLoading(false)]
    in [finally].  Both provider callbacks are the closures of the render
    [snap] the form was rendered with. *)
Definition handleSubmit {S} `{WebStorage S} (snap : Auth.AuthState (S:=S))
  (fs : FormState) (st : Auth.AuthState (S:=S)) : FormState * Auth.AuthState (S:=S) :=
  let '(ok, errs) := validateForm (formData fs) in
  if negb ok then (mkFormState (formData fs) errs (isLoading fs), st)
  else
    let st' := match Auth.updateUserProfile snap (formData_json (formData fs)) st with
               | (st1, Normal _) => fst (Auth.completeFirstLogin snap st1)
               | (st1, Throw _) => st1
               end in
    (mkFormState (formData fs) errs false, st').

(** ** What the validation is meant to check *)

(** The language of [^[^\s@]+@[^\s@]+\.[^\s@]+$]: three non-empty runs
    of code units other than white space and ['@'], the first two
    separated by ['@'] and the last two by ['.']. *)
Definition email_lang (s : jsstr) : Prop :=
  exists a b c, s = a ++ 64 :: b ++ 46 :: c /\ a <> [] /\ b <> [] /\ c <> [] /\
    forallb not_ws_at (a ++ b ++ c) = true.


(** A field is acceptable when it is filled in (after trimming, for the
    typed fields) and, for the e-mail and the phone, matches its pattern. *)
Definition field_valid (fd : FormData) (f : Field) : bool :=
  match f with
  | F_ministry | F_department | F_position | F_address =>
      negb (str_falsy (get_field fd f))
  | F_email => email_re_test (get_field fd f)
  | F_phoneNumber => phone_re_test (get_field fd f)
  | _ => negb (str_falsy (js_trim (get_field fd f)))
  end.

(** The message the form shows under a field: "required" for an empty
    field, the format message for a filled-in e-mail or phone that does
    not match, nothing for a valid field. *)
Definition field_error (fd : FormData) (f : Field) : option jsstr :=
  match f with
  | F_ministry => if str_falsy (ministry fd) then Some msg_ministry else None
  | F_department => if str_falsy (department fd) then Some msg_department else None
  | F_position => if str_falsy (position fd) then Some msg_position else None
  | F_address => if str_falsy (address fd) then Some msg_address else None
  | F_email =>
      if str_falsy (email fd) then Some msg_required
      else if email_re_test (email fd) then None else Some msg_email
  | F_phoneNumber =>
      if str_falsy (phoneNumber fd) then Some msg_required
      else if phone_re_test (phoneNumber fd) then None else Some msg_phone
  | _ => if str_falsy (js_trim (get_field fd f)) then Some msg_required else None
  end.

(** The language of [^\+7\s\(\d{4}\)\s\d{2}-\d{2}-\d{2}$]. *)
Definition phone_lang (s : jsstr) : Prop :=
  exists w1 w2 a1 a2 a3 a4 b1 b2 c1 c2 e1 e2,
    is_ws w1 && is_ws w2 && forallb is_digit [a1; a2; a3; a4; b1; b2; c1; c2; e1; e2] = true /\
    s = [43; 55; w1; 40; a1; a2; a3; a4; 41; w2; b1; b2; 45; c1; c2; 45; e1; e2].

(** The message of an empty field. *)
Definition required_message (f : Field) : jsstr :=
  match f with
  | F_ministry => msg_ministry | F_department => msg_department
  | F_position => msg_position | F_address => msg_address
  | _ => msg_required
  end.

(** ** Sample data *)

(** A completed form, every field valid. *)
Definition valid_form : FormData :=
  mkFormData (js "Иван") (js "Петров") (js "Сергеевич") (js "1") (js "1") (js "2") (js "1")
    (js "305") (js "+7 (4212) 45-67-89") (js "4567") (js "petrov@gov27.ru").

(** A directory entry on its first login: nothing filled in yet. *)
Definition pending_user : User.t :=
  User.mk (js "user2") (js "petrov@gov27.ru") [] [] [] [] [] [] [] [] [] [] [] role_user true.

(** [user.firstName] *)
Definition json_get_first_name (v : json) : option json := Auth.json_get v (js "firstName").

(** * Properties *)

(** ** The regular expressions *)

Lemma split_at_sign_app (a d : jsstr) :
  forallb not_ws_at a = true -> split_at_sign (a ++ 64 :: d) = Some (a, d).
Proof.
  induction a as [|c a IH]; simpl; [done|].
  intros [Hc Ha]%andb_true_iff. unfold not_ws_at in Hc. bool_hyps.
  match goal with Hx : (c =? 64) = false |- _ => rewrite Hx end.
  by rewrite IH.
Qed.

Lemma split_at_sign_some s a d :
  split_at_sign s = Some (a, d) -> s = a ++ 64 :: d.
Proof.
  revert a d. induction s as [|c s IH]; simpl; intros a d; [discriminate|].
  destruct (c =? 64) eqn:E.
  - intros [= <- <-]. apply N.eqb_eq in E. by subst.
  - destruct (split_at_sign s) as [[a' d']|]; [|discriminate].
    intros [= <- <-]. simpl. by rewrite (IH a' d').
Qed.

Lemma dot_then_more_iff (l : jsstr) :
  dot_then_more l = true <-> exists x y, l = x ++ 46 :: y /\ y <> [].
Proof.
  induction l as [|c l IH]; simpl.
  - split; [discriminate|]. intros (x & y & H & _). destruct x; discriminate.
  - rewrite orb_true_iff, andb_true_iff, IH, N.eqb_eq. split.
    + intros [[-> Hr] | (x & y & -> & Hy)].
      * exists [], l. split; [done|]. by destruct l.
      * by exists (c :: x), y.
    + intros (x & y & Hl & Hy).
      destruct x as [|c' x]; simpl in Hl; injection Hl as -> ->.
      * left. split; [done|]. by destruct y.
      * right. eauto.
Qed.

Lemma email_re_test_lang (s : jsstr) :
  email_re_test s = true <-> email_lang s.
Proof.
  unfold email_re_test, email_lang. split.
  - destruct (split_at_sign s) as [[a d]|] eqn:Hs; [|discriminate].
    apply split_at_sign_some in Hs as ->.
    intros H. apply andb_prop in H as [H Hdot]. apply andb_prop in H as [H Hfd].
    apply andb_prop in H as [Ha Hfa].
    destruct d as [|h d']; [discriminate|].
    apply dot_then_more_iff in Hdot as (x & y & -> & Hy).
    exists a, (h :: x), y. split; [done|].
    simpl in Hfd. rewrite forallb_app in Hfd. simpl in Hfd.
    rewrite !forallb_app. simpl. bool_hyps.
    repeat split; try done; [by destruct a|]. by rewrite Hfa, H, H0, H1.
  - intros (a & b & c & -> & Ha & Hb & Hc & Hf).
    rewrite !forallb_app in Hf. bool_hyps.
    rewrite split_at_sign_app by done. rewrite forallb_app. simpl.
    destruct a as [|? ?]; [done|]. destruct b as [|h x]; [done|].
    simpl in *. bool_hyps. rewrite H, H3, H0, H2, H1. simpl.
    apply dot_then_more_iff. by exists x, c.
Qed.

(** C19: the executable tester of the e-mail regex of line 44 accepts
    exactly the language the regex denotes: a non-empty run without
    white space or ['@'], an ['@'], a run, a dot and a non-empty run. *)
Theorem email_re_test_spec (s : jsstr) :
  email_re_test s = true <-> email_lang s.
Proof. apply email_re_test_lang. Qed.

Lemma phone_re_test_template a1 a2 a3 a4 b1 b2 c1 c2 e1 e2 :
  forallb is_digit [a1; a2; a3; a4; b1; b2; c1; c2; e1; e2] = true ->
  phone_re_test (phone_template a1 a2 a3 a4 b1 b2 c1 c2 e1 e2) = true.
Proof. simpl. intros H. bool_hyps. by repeat match goal with Hx : is_digit _ = true |- _ => rewrite Hx; clear Hx end. Qed.

Lemma strip_phone_replace (c : jsstr) :
  forallb is_digit c = true -> strip_non_digits (phone_replace c) = c.
Proof.
  intros Hc. unfold phone_replace.
  do 11 (destruct c as [|? c]; [by rewrite strip_non_digits_id|]).
  case_ifs; [|by rewrite strip_non_digits_id].
  bool_hyps. apply N.eqb_eq in H as ->. simpl in *. bool_hyps.
  unfold strip_non_digits. simpl.
  repeat match goal with Hx : is_digit _ = true |- _ => rewrite Hx; clear Hx end.
  by rewrite strip_non_digits_id.
Qed.

Lemma phone_re_test_digits (s : jsstr) :
  phone_re_test s = true -> exists ds, strip_non_digits s = 55 :: ds /\ length ds = 10%nat.
Proof.
  unfold phone_re_test. intros H.
  do 18 (destruct s as [|? s]; [discriminate|]). destruct s; [|discriminate].
  bool_hyps. repeat match goal with Hx : (_ =? _) = true |- _ => apply N.eqb_eq in Hx; subst end.
  simpl in *. bool_hyps. unfold strip_non_digits. simpl.
  repeat match goal with
  | Hx : is_digit _ = true |- _ => rewrite Hx; clear Hx
  | Hx : is_ws _ = true |- _ => rewrite (ws_not_digit _ Hx); clear Hx end.
  by eexists.
Qed.

Lemma phone_replace_digits a1 a2 a3 a4 b1 b2 c1 c2 e1 e2 rest :
  forallb is_digit [a1; a2; a3; a4; b1; b2; c1; c2; e1; e2] = true ->
  phone_replace (55 :: a1 :: a2 :: a3 :: a4 :: b1 :: b2 :: c1 :: c2 :: e1 :: e2 :: rest)
  = phone_template a1 a2 a3 a4 b1 b2 c1 c2 e1 e2 ++ rest.
Proof. intros H. unfold phone_replace. by rewrite H. Qed.

(** C21: the phone formatter produces a number the validation accepts
    exactly when the input holds eleven digits starting with [7]; with
    more digits the extra ones are appended after the template and the
    result is rejected. *)
Theorem handlePhoneFormat_valid_iff (v : jsstr) :
  phone_re_test (handlePhoneFormat v) = true <->
  exists ds, strip_non_digits v = 55 :: ds /\ length ds = 10%nat.
Proof.
  unfold handlePhoneFormat. change (js "7") with [55].
  pose proof (strip_non_digits_digits v) as Hdig.
  destruct (starts_with [55] (strip_non_digits v)) eqn:E; split.
  - intros (ds & Hds & Hl)%phone_re_test_digits.
    rewrite strip_phone_replace in Hds by done. eauto.
  - intros (ds & Hds & Hl). cbv beta iota. rewrite Hds in Hdig |- *.
    do 10 (destruct ds as [|? ds]; [done|]). destruct ds; [|done].
    apply andb_true_iff in Hdig as [_ Hdig].
    rewrite phone_replace_digits, app_nil_r by done.
    by apply phone_re_test_template.
  - intros (ds & Hds & _)%phone_re_test_digits. by rewrite Hds in E.
  - intros (ds & Hds & _). by rewrite Hds in E.
Qed.

(** Formatting an already formatted number changes nothing, so
    re-running the [onChange] handler on its own output is harmless. *)
Lemma handlePhoneFormat_idem (v : jsstr) :
  handlePhoneFormat (handlePhoneFormat v) = handlePhoneFormat v.
Proof.
  unfold handlePhoneFormat at 2 3.
  destruct (starts_with (js "7") (strip_non_digits v)) eqn:E; [|unfold handlePhoneFormat; by rewrite E].
  unfold handlePhoneFormat.
  rewrite strip_phone_replace by apply strip_non_digits_digits. by rewrite E.
Qed.

(** C22: an input starting with [7] and holding fewer than eleven digits is
    returned as its digits only, not unchanged as the comment says: the
    user's separators disappear while typing. *)
Theorem handlePhoneFormat_short (v : jsstr) ds :
  strip_non_digits v = 55 :: ds -> (length ds < 10)%nat ->
  handlePhoneFormat v = strip_non_digits v.
Proof.
  intros Hds Hl. unfold handlePhoneFormat. rewrite Hds. simpl.
  unfold phone_replace. do 10 (destruct ds as [|? ds]; [done|]). simpl in Hl. lia.
Qed.

Lemma phone_re_test_lang (s : jsstr) : phone_re_test s = true <-> phone_lang s.
Proof.
  unfold phone_re_test, phone_lang. split.
  - intros H. do 18 (destruct s as [|? s]; [discriminate|]). destruct s; [|discriminate].
    bool_hyps. repeat match goal with Hx : (_ =? _) = true |- _ => apply N.eqb_eq in Hx; subst end.
    do 12 eexists. split; [|reflexivity]. simpl in *. bool_hyps.
    by repeat match goal with Hx : _ = true |- _ => rewrite Hx; clear Hx end.
  - intros (w1 & w2 & a1 & a2 & a3 & a4 & b1 & b2 & c1 & c2 & e1 & e2 & H & ->).
    cbn [forallb andb] in H |- *. bool_hyps.
    by repeat match goal with Hx : _ = true |- _ => rewrite Hx; clear Hx end.
Qed.

(** C20: the executable tester of the phone regex of line 48 accepts
    exactly the strings [+7 (XXXX) XX-XX-XX], a white space where the
    pattern has [\s].  *)
Theorem phone_re_test_spec (s : jsstr) : phone_re_test s = true <-> phone_lang s.
Proof. apply phone_re_test_lang. Qed.

Lemma field_key_inj f g : field_key f = field_key g -> f = g.
Proof. destruct f, g; intros H; try reflexivity; vm_compute in H; congruence. Qed.

Lemma obj_get_set_if k c f m o :
  obj_get k (set_if c f m o) =
  if c && bool_decide (k = field_key f) then Some m else obj_get k o.
Proof.
  unfold set_if. destruct c; simpl; [|done].
  case_bool_decide; subst; [apply obj_get_set_eq|by apply obj_get_set_ne].
Qed.

Lemma email_re_test_trim (s : jsstr) : email_re_test s = true -> str_falsy (js_trim s) = false.
Proof.
  intros (a & b & c & -> & _)%email_re_test_lang.
  apply (js_trim_not_falsy _ 64); [|done]. apply elem_of_app. right. by left.
Qed.

Lemma phone_re_test_trim (s : jsstr) : phone_re_test s = true -> str_falsy (js_trim s) = false.
Proof.
  intros (w1 & w2 & a1 & a2 & a3 & a4 & b1 & b2 & c1 & c2 & e1 & e2 & _ & ->)%phone_re_test_lang.
  apply (js_trim_not_falsy _ 43); [by left|done].
Qed.

Lemma bool_decide_field_key f g :
  bool_decide (field_key f = field_key g) = bool_decide (f = g).
Proof.
  apply bool_decide_ext. split; [apply field_key_inj|by intros ->].
Qed.

(** The required test and the format test of one field together: a
    filled-in value that fails the format gets the format message, which
    overwrites a "required" message set for an all-blank value. *)
Lemma format_check_lookup (v : jsstr) (test : jsstr -> bool) (m : jsstr) :
  (test v = true -> str_falsy (js_trim v) = false) ->
  (if negb (str_falsy v) && negb (test v) then Some m
   else if str_falsy (js_trim v) then Some msg_required else None) =
  (if str_falsy v then Some msg_required else if test v then None else Some m).
Proof.
  intros Ht. destruct v as [|c v]; simpl; [done|].
  destruct (test (c :: v)) eqn:E; simpl; [by rewrite Ht|done].
Qed.

Lemma validateErrors_get (fd : FormData) (f : Field) :
  obj_get (field_key f) (validateErrors fd) = field_error fd f.
Proof.
  unfold validateErrors. rewrite !obj_get_set_if, !bool_decide_field_key.
  destruct f; simpl; rewrite ?andb_false_r, ?andb_true_r; simpl.
  all: try reflexivity.
  - apply format_check_lookup, phone_re_test_trim.
  - apply format_check_lookup, email_re_test_trim.
Qed.

(** C7: [validateForm] checks every field, without stopping at the first
    failure: the error object has, under each field's name, exactly that
    field's error message, or nothing when the field is valid. *)
Theorem validateErrors_lookup (fd : FormData) (f : Field) :
  obj_get (field_key f) (validateErrors fd) = field_error fd f.
Proof. apply validateErrors_get. Qed.

Lemma field_error_None_iff (fd : FormData) (f : Field) :
  field_error fd f = None <-> field_valid fd f = true.
Proof.
  destruct f; simpl; case_ifs; simpl; try done.
  all: match goal with H : str_falsy ?v = true |- _ => destruct v; [|discriminate] end.
  all: done.
Qed.


Lemma validateErrors_other (fd : FormData) (k : jsstr) :
  (forall f, k <> field_key f) -> obj_get k (validateErrors fd) = None.
Proof.
  intros Hk. unfold validateErrors. rewrite !obj_get_set_if.
  rewrite !bool_decide_false by apply Hk. by rewrite !andb_false_r.
Qed.

Lemma set_if_NoDup c f m o :
  NoDup (obj_keys o) -> NoDup (obj_keys (set_if c f m o)).
Proof. unfold set_if. destruct c; [apply obj_set_keys_NoDup|done]. Qed.

Lemma validateErrors_NoDup (fd : FormData) : NoDup (obj_keys (validateErrors fd)).
Proof. unfold validateErrors. repeat apply set_if_NoDup. constructor. Qed.

Lemma all_fields_complete (f : Field) : f ∈ all_fields.
Proof. apply list_elem_of_In. destruct f; simpl; tauto. Qed.

(** Every key of the error object names a field whose check failed. *)
Lemma validateErrors_keys (fd : FormData) (k : jsstr) :
  k ∈ obj_keys (validateErrors fd) <->
  exists f, k = field_key f /\ field_valid fd f = false.
Proof.
  rewrite elem_of_obj_keys. split.
  - intros Hs. destruct (decide (k ∈ map field_key all_fields)) as [Hin|Hn].
    + apply list_elem_of_fmap in Hin as (f & -> & _). exists f. split; [done|]. rewrite validateErrors_get in Hs.
      destruct (field_valid fd f) eqn:E; [|done].
      apply field_error_None_iff in E. rewrite E in Hs. by destruct Hs.
    + rewrite validateErrors_other in Hs; [by destruct Hs|]. intros f ->.
      apply Hn, list_elem_of_fmap. eauto using all_fields_complete.
  - intros (f & -> & Hf). rewrite validateErrors_get.
    destruct (field_error fd f) eqn:E; [done|]. apply field_error_None_iff in E. congruence.
Qed.

Lemma validateForm_true_iff (fd : FormData) :
  fst (validateForm fd) = true <-> forall f, field_valid fd f = true.
Proof.
  unfold validateForm. simpl. rewrite Nat.eqb_eq, length_zero_iff_nil. split.
  - intros Hnil f. destruct (field_valid fd f) eqn:E; [done|].
    assert (field_key f ∈ obj_keys (validateErrors fd)) as Hin
      by (apply validateErrors_keys; eauto).
    rewrite Hnil in Hin. by apply elem_of_nil in Hin.
  - intros Hall. destruct (obj_keys (validateErrors fd)) as [|k ks] eqn:E; [done|].
    assert (k ∈ obj_keys (validateErrors fd)) as (f & -> & Hf)%validateErrors_keys
      by (rewrite E; by left).
    by rewrite Hall in Hf.
Qed.

(** C6: [validateForm] succeeds exactly when every field is valid. *)
Theorem validateForm_ok_iff (fd : FormData) :
  fst (validateForm fd) = true <-> forall f, field_valid fd f = true.
Proof. apply validateForm_true_iff. Qed.

Lemma forallb_all_fields (p : Field -> bool) :
  forallb p all_fields = true <-> forall g, p g = true.
Proof.
  rewrite forallb_forall. split; [|auto]. intros H g. apply H.
  apply list_elem_of_In, all_fields_complete.
Qed.

Lemma validateErrors_only (fd : FormData) (f : Field) (m : jsstr) :
  field_error fd f = Some m ->
  forallb (fun g => bool_decide (g = f) || field_valid fd g) all_fields = true ->
  validateErrors fd = [(field_key f, m)].
Proof.
  intros Hf Hg. rewrite forallb_all_fields in Hg.
  apply (obj_single (validateErrors fd) (field_key f) m).
  - apply validateErrors_NoDup.
  - intros k Hk. apply validateErrors_keys in Hk as (g & -> & Hv).
    destruct (decide (g = f)) as [->|Hne]; [done|].
    specialize (Hg g). rewrite bool_decide_false, Hv in Hg by done. discriminate.
  - by rewrite validateErrors_get.
Qed.

(** A form whose only invalid field is [f] gets an error object with
    the single entry for [f]. *)
Lemma validateErrors_single (fd : FormData) (f : Field) (m : jsstr) :
  field_error fd f = Some m ->
  forallb (fun g => bool_decide (g = f) || field_valid fd g) all_fields = true ->
  validateErrors fd = [(field_key f, m)].
Proof. apply validateErrors_only. Qed.

Lemma field_valid_set_ne (fd : FormData) f g v :
  g <> f -> field_valid (set_field fd f v) g = field_valid fd g.
Proof. intros Hne. destruct fd, f, g; simpl; congruence. Qed.

Lemma field_error_set_empty (fd : FormData) f :
  field_error (set_field fd f []) f = Some (required_message f).
Proof.
  destruct fd, f;
    cbn [set_field field_error get_field js_trim trim_end trim_start rev str_falsy
         required_message app]; reflexivity.
Qed.

(** C8: emptying any one field of a valid form yields an error object with
    exactly that field's "required" message. *)
Theorem validate_omit_one (fd : FormData) (f : Field) :
  forallb (field_valid fd) all_fields = true ->
  validateErrors (set_field fd f []) = [(field_key f, required_message f)].
Proof.
  intros Hall. rewrite forallb_all_fields in Hall.
  apply (validateErrors_only (set_field fd f []) f (required_message f));
    [apply field_error_set_empty|].
  apply forallb_all_fields. intros g. destruct (decide (g = f)) as [->|Hne].
  - by rewrite bool_decide_true.
  - rewrite field_valid_set_ne by done. by rewrite Hall, orb_true_r.
Qed.

(** ** The submit handler *)

Section Submit.
Context {S : Type} `{WebStorageLaws S}.

(** C9: an invalid form leaves the session as it is, stores the complete
    error object and does not start saving. *)
Theorem handleSubmit_invalid (snap st : Auth.AuthState (S:=S)) (fs : FormState) :
  fst (validateForm (formData fs)) = false ->
  handleSubmit snap fs st =
  (mkFormState (formData fs) (validateErrors (formData fs)) (isLoading fs), st).
Proof. unfold handleSubmit, validateForm. simpl. intros ->. reflexivity. Qed.

(** C1: a valid submission does not keep what was typed.  Both callbacks
    read [user] from the render's snapshot, so [completeFirstLogin]
    overwrites the merged profile that [updateUserProfile] had just set
    and saved with the snapshot's user plus [isFirstLogin: false]: the
    session and the stored record end with the old profile, and the gate
    opens anyway. *)
Theorem handleSubmit_drops_profile (snap st : Auth.AuthState (S:=S)) (fs : FormState)
    (l : list (jsstr * json)) (s1 s2 : S) :
  fst (validateForm (formData fs)) = true ->
  Auth.user snap = JObj l ->
  setItem (Auth.storage st) Auth.key_user
    (stringify (JObj (Auth.obj_merge l (formData_json (formData fs))))) = Normal s1 ->
  setItem s1 Auth.key_user
    (stringify (JObj (Auth.obj_merge l [(js "isFirstLogin", JBool false)]))) = Normal s2 ->
  handleSubmit snap fs st =
  (mkFormState (formData fs) (validateErrors (formData fs)) false,
   Auth.mkAuthState (JObj (Auth.obj_merge l [(js "isFirstLogin", JBool false)]))
     (Auth.isAuthenticated st) (Auth.isLoading st) (Auth.ministries st)
     (Auth.departments st) (Auth.positions st) (Auth.addresses st) (Auth.resources st) s2).
Proof.
  intros Hok Hu Hs1 Hs2.
  assert (Hv : validateForm (formData fs) = (true, validateErrors (formData fs))).
  { unfold validateForm in *. simpl in *. by rewrite Hok. }
  unfold handleSubmit. rewrite Hv. cbn [negb].
  unfold Auth.updateUserProfile, Auth.completeFirstLogin. rewrite Hu.
  cbn [Auth.json_falsy Auth.own_props]. unfold Auth.persist.
  cbn [Auth.storage Auth.set_user]. rewrite Hs1.
  cbn [Auth.storage Auth.set_storage Auth.set_user fst]. rewrite Hs2. reflexivity.
Qed.

End Submit.

(** * Witnesses *)

Lemma handlePhoneFormat_short_witness :
  handlePhoneFormat (js "+7 (42") = strip_non_digits (js "+7 (42") /\
  strip_non_digits (js "+7 (42") = js "742".
Proof. split; [apply (handlePhoneFormat_short _ (js "42")); [reflexivity|simpl; lia]|reflexivity]. Defined.

Lemma validateErrors_single_witness :
  validateErrors (set_field valid_form F_email (js "not-an-email")) = [(field_key F_email, msg_email)].
Proof. apply validateErrors_single; vm_compute; reflexivity. Defined.

Lemma validate_omit_one_witness :
  validateErrors (set_field valid_form F_department []) = [(field_key F_department, required_message F_department)].
Proof. apply (validate_omit_one valid_form F_department). vm_compute. reflexivity. Defined.

Lemma handleSubmit_invalid_witness :
  handleSubmit (Auth.initial_state (empty_storage 100000)) (mkFormState (initFormData None) [] false)
    (Auth.initial_state (empty_storage 100000)) =
  (mkFormState (initFormData None) (validateErrors (initFormData None)) false,
   Auth.initial_state (empty_storage 100000)).
Proof. apply handleSubmit_invalid. vm_compute. reflexivity. Defined.

(** The user on a first login types "Иван" as first name, submits a valid
    form, and ends with an empty first name and [isFirstLogin: false]. *)
Lemma handleSubmit_drops_profile_witness :
  firstName valid_form = js "Иван" /\
  json_get_first_name
    (Auth.user (snd (handleSubmit
       (Auth.set_user (Auth.user_to_json pending_user) (Auth.initial_state (empty_storage 100000)))
       (mkFormState valid_form [] false)
       (Auth.set_user (Auth.user_to_json pending_user) (Auth.initial_state (empty_storage 100000))))))
  = Some (JStr []).
Proof.
  split; [reflexivity|].
  rewrite (handleSubmit_drops_profile _ _ _ (Auth.user_props pending_user)
    (mkQuotaStorage (<[Auth.key_user := stringify (JObj (Auth.obj_merge (Auth.user_props pending_user)
                        (formData_json valid_form)))]> ∅) 100000)
    (mkQuotaStorage (<[Auth.key_user := stringify (JObj (Auth.obj_merge (Auth.user_props pending_user)
                        [(js "isFirstLogin", JBool false)]))]>
       (<[Auth.key_user := stringify (JObj (Auth.obj_merge (Auth.user_props pending_user)
                        (formData_json valid_form)))]> ∅)) 100000));
    vm_compute; reflexivity.
Defined.

End FirstLoginForm.
