(* ===== verification/ProfileView.v ===== *)
(** * What the first-login form shows and how its inputs are wired

    The render of [FirstLoginForm] (components/profile/FirstLoginForm.tsx,
    lines 98-296) has the logic the markup carries:
    - [filteredDepartments] (line 98): the departments of the chosen
      ministry, the only options of the department select;
    - [onFieldChange] (lines 125-279): the eleven [onChange] /
      [onValueChange] handlers, each [handleInputChange(field, value)],
      the phone input passing its value through [handlePhoneFormat]
      first (line 250);
    - [form_view] (lines 162-295): the options of the four selects, the
      department select disabled while no ministry is chosen (line 181),
      the error shown under each field ([errors.f && ...]) and the submit
      button disabled while saving (line 285).
    The theorems show that typing into a field hides that field's error
    and no other, and that changing the ministry keeps a department of
    the previous ministry, which the validation still accepts. *)

From stdpp Require Import base list strings.
From Stdlib Require Import NArith.
From S2P Require Import Prelude JsLib Types Json Storage Auth FirstLoginForm.

Module ProfileView.
Import FirstLoginForm.

(** [departments.filter(dept => dept.ministryId === formData.ministry)] *)
Definition filteredDepartments (departments : list Department.t) (fd : FormData)
  : list Department.t :=
  List.filter (fun d => bool_decide (Department.ministryId d = ministry fd)) departments.

(** The input handlers of lines 125-279. *)
Definition onFieldChange (f : Field) (value : jsstr) (fs : FormState) : FormState :=
  match f with
  | F_phoneNumber => handleInputChange f (handlePhoneFormat value) fs
  | _ => handleInputChange f value fs
  end.

(** [{errors.f && <p>{errors.f}</p>}]: a message is shown when the
    property is a non-empty string. *)
Definition error_shown (fs : FormState) (f : Field) : option jsstr :=
  match obj_get (field_key f) (errors fs) with
  | Some m => if str_falsy m then None else Some m
  | None => None
  end.

(** What the form displays, as far as it depends on the state. *)
Record FormView := mkFormView {
  ministry_options : list jsstr;
  department_options : list jsstr;
  department_disabled : bool;
  position_options : list jsstr;
  address_options : list jsstr;
  shown_errors : list (Field * jsstr);
  submit_disabled : bool
}.

Definition form_view (ministries : list Ministry.t) (departments : list Department.t)
  (positions : list Position.t) (addresses : list Address.t) (fs : FormState) : FormView :=
  mkFormView (map Ministry.id ministries)
    (map Department.id (filteredDepartments departments (formData fs)))
    (str_falsy (ministry (formData fs)))
    (map Position.id positions) (map Address.id addresses)
    (omap (fun f => (fun m => (f, m)) <$> error_shown fs f) all_fields)
    (isLoading fs).

(** * Properties *)

Lemma onFieldChange_input f v fs : exists v', onFieldChange f v fs = handleInputChange f v' fs.
Proof. destruct f; eexists; reflexivity. Qed.

Lemma handleInputChange_error_shown f v fs g :
  error_shown (handleInputChange f v fs) g =
  if bool_decide (g = f) then None else error_shown fs g.
Proof.
  unfold error_shown, handleInputChange. cbn [errors].
  case_bool_decide as Hg.
  - subst g. destruct (obj_get (field_key f) (errors fs)) as [m|] eqn:E; [|by rewrite E].
    destruct (str_falsy m) eqn:Em; [by rewrite E, Em|]. by rewrite obj_get_set_eq.
  - destruct (obj_get (field_key f) (errors fs)) as [m|]; [|done].
    destruct (str_falsy m); [done|]. rewrite obj_get_set_ne; [done|].
    intros Hk. by apply Hg, field_key_inj.
Qed.

(** C34: typing into a field hides the error shown under it and leaves the
    errors shown under the other fields as they were. *)
Theorem onFieldChange_hides_error (f g : Field) (v : jsstr) (fs : FormState) :
  error_shown (onFieldChange f v fs) g = if bool_decide (g = f) then None else error_shown fs g.
Proof.
  destruct (onFieldChange_input f v fs) as [v' ->]. apply handleInputChange_error_shown.
Qed.

(** C35: choosing another ministry keeps the department chosen before,
    which may belong to the previous ministry, and a valid form stays
    valid: the submitted department need not be one of the departments
    the form offers. *)
Theorem ministry_change_keeps_department (fs : FormState) (m : jsstr) :
  str_falsy m = false -> fst (validateForm (formData fs)) = true ->
  department (formData (onFieldChange F_ministry m fs)) = department (formData fs) /\
  fst (validateForm (formData (onFieldChange F_ministry m fs))) = true.
Proof.
  intros Hm Hv. cbn [onFieldChange handleInputChange formData].
  split; [by destruct (formData fs)|].
  pose proof (proj1 (validateForm_true_iff _) Hv) as Hall. apply validateForm_true_iff.
  intros g. destruct (decide (g = F_ministry)) as [->|Hne].
  - simpl. destruct (formData fs); simpl. by rewrite Hm.
  - rewrite field_valid_set_ne by done. apply Hall.
Qed.

(** * Witnesses *)

Lemma onFieldChange_hides_error_witness :
  error_shown (onFieldChange F_email (js "a@b.ru")
    (mkFormState valid_form [(js "email", msg_email); (js "phoneNumber", msg_phone)] false)) F_phoneNumber
  = Some msg_phone.
Proof.
  rewrite (onFieldChange_hides_error F_email F_phoneNumber (js "a@b.ru")
    (mkFormState valid_form [(js "email", msg_email); (js "phoneNumber", msg_phone)] false)).
  vm_compute. reflexivity.
Defined.

Lemma ministry_change_keeps_department_witness :
  str_falsy (js "2") = false /\
  fst (validateForm valid_form) = true /\
  department (formData (onFieldChange F_ministry (js "2") (mkFormState valid_form [] false))) = js "1" /\
  fst (validateForm (formData (onFieldChange F_ministry (js "2") (mkFormState valid_form [] false))))
    = true /\
  map Department.id (filteredDepartments Auth.mock_departments
    (formData (onFieldChange F_ministry (js "2") (mkFormState valid_form [] false)))) =
  [js "3"; js "4"].
Proof.
  assert (Hm : str_falsy (js "2") = false) by reflexivity.
  assert (Hv : fst (validateForm (formData (mkFormState valid_form [] false))) = true)
    by (vm_compute; reflexivity).
  destruct (ministry_change_keeps_department (mkFormState valid_form [] false) (js "2") Hm Hv)
    as [Hd Hok].
  split; [exact Hm|]. split; [exact Hv|]. split; [exact Hd|]. split; [exact Hok|].
  vm_compute. reflexivity.
Defined.

End ProfileView.
