(* ===== verification/RefData.v ===== *)
(** * Reference data: the CRUD callbacks of [AuthProvider]

    The provider keeps five lists of reference records (ministries,
    departments, positions, addresses, portal resources) and offers, for
    each, three callbacks (AuthContext.tsx lines 169-232):
    - [addX(x)]: [setXs(prev => [...prev, { ...x, id: Date.now().toString() }])];
    - [updateX(id, p)]: [setXs(prev => prev.map(m => m.id === id ? { ...m, ...p } : m))];
    - [deleteX(id)]: [setXs(prev => prev.filter(m => m.id !== id))].
    The fifteen callbacks are the same three operations on five record
    types, so the file states what an entity is ([Entity]: its [id], the
    spreads the callbacks build) and models the three operations once
    ([Module Crud]), generic over an entity; the callbacks are these
    operations on the provider's lists.  They are functional updates: they
    read the live list, not the snapshot of their render.  [Date.now()]
    is the clock reading [now], in milliseconds, passed to the callback.

    The identifier is the only invariant the reference data has: the
    theorems show which operations keep the identifiers unique, what each
    operation does to the lookup by identifier, and that two additions in
    the same millisecond break uniqueness. *)

From stdpp Require Import base list strings.
From Stdlib Require Import NArith.
From S2P Require Import Prelude JsLib Types Json Storage Auth.

(** ** Entities *)

(** A record type [T] with identifier [ent_id] and partial type [P]:
    [ent_with_id x i] is [{ ...x, id: i }], [ent_spread m p] is
    [{ ...m, ...p }], and [ent_patch_id p] the [id] a partial carries. *)
Class Entity (T P : Type) := {
  ent_id : T -> jsstr;
  ent_with_id : T -> jsstr -> T;
  ent_spread : T -> P -> T;
  ent_patch_id : P -> option jsstr;
  ent_full : T -> P
}.

Class EntityLaws (T P : Type) `{Entity T P} := {
  with_id_id : forall x i, ent_id (ent_with_id x i) = i;
  spread_id : forall m p, ent_id (ent_spread m p) = default (ent_id m) (ent_patch_id p);
  spread_full : forall m m', ent_spread m (ent_full m') = m';
  full_id : forall m, ent_patch_id (ent_full m) = Some (ent_id m)
}.

#[export] Instance Ministry_entity : Entity Ministry.t Ministry.partial :=
  { ent_id := Ministry.id; ent_with_id := Ministry.with_id;
    ent_spread := Ministry.spread; ent_patch_id := Ministry.p_id;
    ent_full := Ministry.full }.
#[export] Instance Department_entity : Entity Department.t Department.partial :=
  { ent_id := Department.id; ent_with_id := Department.with_id;
    ent_spread := Department.spread; ent_patch_id := Department.p_id;
    ent_full := Department.full }.
#[export] Instance Position_entity : Entity Position.t Position.partial :=
  { ent_id := Position.id; ent_with_id := Position.with_id;
    ent_spread := Position.spread; ent_patch_id := Position.p_id;
    ent_full := Position.full }.
#[export] Instance Address_entity : Entity Address.t Address.partial :=
  { ent_id := Address.id; ent_with_id := Address.with_id;
    ent_spread := Address.spread; ent_patch_id := Address.p_id;
    ent_full := Address.full }.
#[export] Instance Resource_entity : Entity Resource.t Resource.partial :=
  { ent_id := Resource.id; ent_with_id := Resource.with_id;
    ent_spread := Resource.spread; ent_patch_id := Resource.p_id;
    ent_full := Resource.full }.

Ltac entity_laws := split; [intros [] ?|intros [] []|intros [] []|intros []]; reflexivity.

#[export] Instance Ministry_laws : EntityLaws Ministry.t Ministry.partial.
Proof. entity_laws. Qed.
#[export] Instance Department_laws : EntityLaws Department.t Department.partial.
Proof. entity_laws. Qed.
#[export] Instance Position_laws : EntityLaws Position.t Position.partial.
Proof. entity_laws. Qed.
#[export] Instance Address_laws : EntityLaws Address.t Address.partial.
Proof. entity_laws. Qed.
#[export] Instance Resource_laws : EntityLaws Resource.t Resource.partial.
Proof. entity_laws. Qed.

Module Crud.

Section Ops.
Context {T P : Type} `{Entity T P}.

(** [[...prev, { ...x, id: Date.now().toString() }]] *)
Definition add_item (now : N) (x : T) (prev : list T) : list T :=
  prev ++ [ent_with_id x (N_dec now)].

(** [prev.map(m => m.id === id ? { ...m, ...p } : m)] *)
Definition update_item (id : jsstr) (p : P) (prev : list T) : list T :=
  map (fun m => if bool_decide (ent_id m = id) then ent_spread m p else m) prev.

(** [prev.filter(m => m.id !== id)] *)
Definition delete_item (id : jsstr) (prev : list T) : list T :=
  List.filter (fun m => bool_decide (ent_id m <> id)) prev.

(** [list.find(m => m.id === i)], the lookup the screens do. *)
Definition find_by_id (i : jsstr) (l : list T) : option T :=
  find (fun m => bool_decide (ent_id m = i)) l.

Definition ids (l : list T) : list jsstr := map ent_id l.

(** A call of one of the three callbacks. *)
Inductive op :=
| Add (now : N) (x : T)
| Update (id : jsstr) (p : P)
| Delete (id : jsstr).

Definition apply_op (o : op) (l : list T) : list T :=
  match o with
  | Add now x => add_item now x l
  | Update i p => update_item i p l
  | Delete i => delete_item i l
  end.

(** The calls in order, each reading the list the previous one left. *)
Definition run_ops (os : list op) (l : list T) : list T :=
  fold_left (fun acc o => apply_op o acc) os l.

(** When a call keeps identifiers unique: an addition whose clock reading
    is not an identifier yet, an update whose partial does not change the
    identifier; a deletion always. *)
Definition op_ok (o : op) (l : list T) : bool :=
  match o with
  | Add now _ => bool_decide (N_dec now ∉ ids l)
  | Update i p => match ent_patch_id p with None => true | Some j => bool_decide (j = i) end
  | Delete _ => true
  end.

Fixpoint ops_ok (os : list op) (l : list T) : bool :=
  match os with
  | [] => true
  | o :: r => op_ok o l && ops_ok r (apply_op o l)
  end.

End Ops.

Arguments op : clear implicits.

End Crud.

(** ** The fifteen callbacks on the provider's state *)

Section Callbacks.
Context {S : Type} `{WebStorage S}.

Local Abbreviation st_t := (Auth.AuthState (S:=S)).

Definition set_ministries (l : list Ministry.t) (st : st_t) : st_t :=
  Auth.mkAuthState (Auth.user st) (Auth.isAuthenticated st) (Auth.isLoading st) l
    (Auth.departments st) (Auth.positions st) (Auth.addresses st) (Auth.resources st)
    (Auth.storage st).
Definition set_departments (l : list Department.t) (st : st_t) : st_t :=
  Auth.mkAuthState (Auth.user st) (Auth.isAuthenticated st) (Auth.isLoading st)
    (Auth.ministries st) l (Auth.positions st) (Auth.addresses st) (Auth.resources st)
    (Auth.storage st).
Definition set_positions (l : list Position.t) (st : st_t) : st_t :=
  Auth.mkAuthState (Auth.user st) (Auth.isAuthenticated st) (Auth.isLoading st)
    (Auth.ministries st) (Auth.departments st) l (Auth.addresses st) (Auth.resources st)
    (Auth.storage st).
Definition set_addresses (l : list Address.t) (st : st_t) : st_t :=
  Auth.mkAuthState (Auth.user st) (Auth.isAuthenticated st) (Auth.isLoading st)
    (Auth.ministries st) (Auth.departments st) (Auth.positions st) l (Auth.resources st)
    (Auth.storage st).
Definition set_resources (l : list Resource.t) (st : st_t) : st_t :=
  Auth.mkAuthState (Auth.user st) (Auth.isAuthenticated st) (Auth.isLoading st)
    (Auth.ministries st) (Auth.departments st) (Auth.positions st) (Auth.addresses st) l
    (Auth.storage st).

Definition addMinistry (now : N) (x : Ministry.t) (st : st_t) : st_t :=
  set_ministries (Crud.add_item now x (Auth.ministries st)) st.
Definition updateMinistry (id : jsstr) (p : Ministry.partial) (st : st_t) : st_t :=
  set_ministries (Crud.update_item id p (Auth.ministries st)) st.
Definition deleteMinistry (id : jsstr) (st : st_t) : st_t :=
  set_ministries (Crud.delete_item id (Auth.ministries st)) st.

Definition addDepartment (now : N) (x : Department.t) (st : st_t) : st_t :=
  set_departments (Crud.add_item now x (Auth.departments st)) st.
Definition updateDepartment (id : jsstr) (p : Department.partial) (st : st_t) : st_t :=
  set_departments (Crud.update_item id p (Auth.departments st)) st.
Definition deleteDepartment (id : jsstr) (st : st_t) : st_t :=
  set_departments (Crud.delete_item id (Auth.departments st)) st.

Definition addPosition (now : N) (x : Position.t) (st : st_t) : st_t :=
  set_positions (Crud.add_item now x (Auth.positions st)) st.
Definition updatePosition (id : jsstr) (p : Position.partial) (st : st_t) : st_t :=
  set_positions (Crud.update_item id p (Auth.positions st)) st.
Definition deletePosition (id : jsstr) (st : st_t) : st_t :=
  set_positions (Crud.delete_item id (Auth.positions st)) st.

Definition addAddress (now : N) (x : Address.t) (st : st_t) : st_t :=
  set_addresses (Crud.add_item now x (Auth.addresses st)) st.
Definition updateAddress (id : jsstr) (p : Address.partial) (st : st_t) : st_t :=
  set_addresses (Crud.update_item id p (Auth.addresses st)) st.
Definition deleteAddress (id : jsstr) (st : st_t) : st_t :=
  set_addresses (Crud.delete_item id (Auth.addresses st)) st.

Definition addResource (now : N) (x : Resource.t) (st : st_t) : st_t :=
  set_resources (Crud.add_item now x (Auth.resources st)) st.
Definition updateResource (id : jsstr) (p : Resource.partial) (st : st_t) : st_t :=
  set_resources (Crud.update_item id p (Auth.resources st)) st.
Definition deleteResource (id : jsstr) (st : st_t) : st_t :=
  set_resources (Crud.delete_item id (Auth.resources st)) st.

End Callbacks.

(** A partial renaming a ministry and a new ministry, for the witnesses. *)
Definition ms_patch : Ministry.partial := Ministry.mkp None (Some (js "Минэкономразвития")) None.
Definition ms_new : Ministry.t := Ministry.mk [] (js "Министерство финансов") (js "MF").

(** * Properties *)

Module CrudProps.
Import Crud.

Section Laws.
Context {T P : Type} `{EntityLaws T P}.

Lemma ids_add now (x : T) l : ids (add_item now x l) = ids l ++ [N_dec now].
Proof. unfold ids, add_item. rewrite map_app. cbn [map]. by rewrite with_id_id. Qed.

Lemma ids_update i (p : P) (l : list T) :
  default i (ent_patch_id p) = i -> ids (update_item i p l) = ids l.
Proof.
  intros Hp. unfold ids, update_item. rewrite map_map. apply map_ext. intros m.
  case_bool_decide as E; [|done]. rewrite spread_id. subst i.
  by destruct (ent_patch_id p).
Qed.

Lemma ids_delete_sublist i (l : list T) : ids (delete_item i l) `sublist_of` ids l.
Proof.
  unfold ids, delete_item. induction l as [|m l IH]; simpl; [done|].
  destruct (bool_decide _); simpl; [by apply sublist_skip|by apply sublist_cons].
Qed.

Lemma find_by_id_app j (l1 l2 : list T) :
  find_by_id j (l1 ++ l2) = match find_by_id j l1 with Some m => Some m | None => find_by_id j l2 end.
Proof.
  unfold find_by_id. induction l1 as [|m l1 IH]; simpl; [done|].
  by destruct (bool_decide _).
Qed.

Lemma find_by_id_None j (l : list T) : j ∉ ids l -> find_by_id j l = None.
Proof.
  unfold find_by_id, ids. induction l as [|m l IH]; simpl; [done|].
  intros Hn. rewrite not_elem_of_cons in Hn. destruct Hn as [Hm Hl].
  rewrite bool_decide_false by congruence. by apply IH.
Qed.

Lemma op_ok_unique (o : op T P) (l : list T) :
  NoDup (ids l) -> op_ok o l = true -> NoDup (ids (apply_op o l)).
Proof.
  intros Hnd Hok. destruct o as [now x|i p|i]; simpl in *.
  - rewrite ids_add. apply NoDup_app. split; [done|]. split; [|apply NoDup_singleton].
    intros y Hy ->%list_elem_of_singleton. by apply bool_decide_eq_true in Hok.
  - rewrite ids_update; [done|]. destruct (ent_patch_id p); simpl; [|done].
    by apply bool_decide_eq_true in Hok.
  - eapply sublist_NoDup; [done|apply ids_delete_sublist].
Qed.

Lemma find_delete_step j i (m : T) (l : list T) :
  find_by_id j (delete_item i (m :: l)) =
  if bool_decide (ent_id m <> i) then (if bool_decide (ent_id m = j) then Some m
                                      else find_by_id j (delete_item i l))
  else find_by_id j (delete_item i l).
Proof. unfold find_by_id, delete_item. simpl. by destruct (bool_decide (ent_id m <> i)). Qed.

Lemma find_by_id_delete (i j : jsstr) (l : list T) :
  find_by_id j (delete_item i l) = if bool_decide (j = i) then None else find_by_id j l.
Proof.
  induction l as [|m l IH]; [by case_bool_decide|].
  rewrite find_delete_step, IH. unfold find_by_id. simpl.
  repeat case_bool_decide; subst; done.
Qed.

(** Deleting [i] makes the lookup of [i] fail and leaves every other
    lookup as it was. *)
Lemma find_delete (i j : jsstr) (l : list T) :
  find_by_id j (delete_item i l) = if bool_decide (j = i) then None else find_by_id j l.
Proof. apply find_by_id_delete. Qed.

Lemma find_by_id_update (i j : jsstr) (p : P) (l : list T) :
  default i (ent_patch_id p) = i ->
  find_by_id j (update_item i p l) =
  if bool_decide (j = i) then (fun m => ent_spread m p) <$> find_by_id i l else find_by_id j l.
Proof.
  intros Hp. induction l as [|m l IH]; [by case_bool_decide|].
  unfold find_by_id, update_item in *. simpl. rewrite IH.
  destruct (bool_decide (ent_id m = i)) eqn:Ei; simpl.
  - apply bool_decide_eq_true in Ei. rewrite spread_id, Ei, Hp.
    repeat case_bool_decide; subst; done.
  - apply bool_decide_eq_false in Ei. repeat case_bool_decide; subst; done.
Qed.

Lemma find_by_id_elem (x : T) (l : list T) : x ∈ l -> is_Some (find_by_id (ent_id x) l).
Proof.
  intros Hx. destruct (find_by_id (ent_id x) l) eqn:E; [done|].
  apply find_none with (x := x) in E; [|by apply list_elem_of_In].
  by rewrite bool_decide_true in E.
Qed.

(** An addition at a fresh clock reading makes the new record, with
    identifier [Date.now().toString()], the result of its lookup and
    leaves every other lookup as it was. *)
Lemma find_add (now : N) (x : T) (j : jsstr) (l : list T) :
  N_dec now ∉ ids l ->
  find_by_id j (add_item now x l) =
  if bool_decide (j = N_dec now) then Some (ent_with_id x (N_dec now)) else find_by_id j l.
Proof.
  intros Hf. unfold add_item. rewrite find_by_id_app. unfold find_by_id at 2. simpl.
  rewrite with_id_id. case_bool_decide as E.
  - subst j. rewrite find_by_id_None by done. by rewrite bool_decide_true.
  - rewrite bool_decide_false by congruence. by destruct (find_by_id j l).
Qed.

(** C26: identifiers stay unique along any sequence of callbacks whose
    additions read fresh clock values and whose updates keep identifiers. *)
Theorem run_ops_unique (os : list (op T P)) (l : list T) :
  NoDup (ids l) -> ops_ok os l = true -> NoDup (ids (run_ops os l)).
Proof.
  revert l. induction os as [|o os IH]; intros l Hnd Hok; simpl in *; [done|].
  apply andb_true_iff in Hok as [Ho Hr]. apply IH; [|done]. by apply op_ok_unique.
Qed.

Lemma delete_item_app i (l1 l2 : list T) :
  delete_item i (l1 ++ l2) = delete_item i l1 ++ delete_item i l2.
Proof. apply List.filter_app. Qed.

(** C27: two additions in the same millisecond give two records the same
    identifier: the identifiers are no longer unique, and deleting that
    identifier removes both records. *)
Theorem add_same_ms_collision (now : N) (x y : T) (l : list T) :
  ~ NoDup (ids (add_item now y (add_item now x l))) /\
  delete_item (N_dec now) (add_item now y (add_item now x l)) = delete_item (N_dec now) l.
Proof.
  split.
  - rewrite !ids_add, <- app_assoc. intros [_ [_ Hnd]]%NoDup_app.
    apply NoDup_cons in Hnd as [Hn _]. by apply Hn, list_elem_of_singleton.
  - assert (forall z : T, delete_item (N_dec now) [ent_with_id z (N_dec now)] = []) as Hz.
    { intros z. unfold delete_item. simpl. rewrite with_id_id.
      rewrite bool_decide_false; [done|]. by intros Hc. }
    unfold add_item. by rewrite !delete_item_app, !Hz, !app_nil_r.
Qed.

Lemma ids_inj (l : list T) (x y : T) :
  NoDup (ids l) -> x ∈ l -> y ∈ l -> ent_id x = ent_id y -> x = y.
Proof.
  unfold ids. induction l as [|a l IH]; intros Hnd Hx Hy Hxy; [by apply elem_of_nil in Hx|].
  simpl in Hnd. apply NoDup_cons in Hnd as [Ha Hnd].
  apply elem_of_cons in Hx as [->|Hx], Hy as [->|Hy]; [done| | |by apply IH].
  - destruct Ha. rewrite Hxy. by apply list_elem_of_fmap_2.
  - destruct Ha. rewrite <- Hxy. by apply list_elem_of_fmap_2.
Qed.

(** Updating a record with all its own fields changes nothing, when the
    identifiers are unique. *)
Lemma update_full_noop (l : list T) (e : T) :
  NoDup (ids l) -> e ∈ l -> update_item (ent_id e) (ent_full e) l = l.
Proof.
  intros Hnd He. unfold update_item. rewrite <- (map_id l) at 2. apply map_ext_in.
  intros m Hm%list_elem_of_In. case_bool_decide as E; [|done].
  rewrite spread_full. symmetry. by apply (ids_inj l).
Qed.

End Laws.
End CrudProps.

(** * Witnesses, on the ministries of the directory *)


Lemma find_add_witness :
  N_dec 1700000000000 ∉ Crud.ids Auth.mock_ministries /\
  Crud.find_by_id (N_dec 1700000000000) (Crud.add_item 1700000000000 ms_new Auth.mock_ministries) =
  Some (ent_with_id ms_new (N_dec 1700000000000)).
Proof.
  assert (Hf : N_dec 1700000000000 ∉ Crud.ids Auth.mock_ministries)
    by (apply (bool_decide_unpack _); vm_compute; reflexivity).
  split; [exact Hf|].
  rewrite (CrudProps.find_add 1700000000000 ms_new (N_dec 1700000000000) Auth.mock_ministries Hf).
  by rewrite bool_decide_true.
Defined.

Lemma run_ops_unique_witness :
  NoDup (Crud.ids Auth.mock_ministries) /\
  Crud.ops_ok [Crud.Add 1700000000000 ms_new; Crud.Update (js "1") ms_patch; Crud.Delete (js "2")]
    Auth.mock_ministries = true /\
  NoDup (Crud.ids (Crud.run_ops [Crud.Add 1700000000000 ms_new; Crud.Update (js "1") ms_patch;
                                 Crud.Delete (js "2")] Auth.mock_ministries)).
Proof.
  assert (Hnd : NoDup (Crud.ids Auth.mock_ministries))
    by (apply (bool_decide_unpack _); vm_compute; reflexivity).
  assert (Hok : Crud.ops_ok [Crud.Add 1700000000000 ms_new; Crud.Update (js "1") ms_patch;
                             Crud.Delete (js "2")] Auth.mock_ministries = true)
    by (vm_compute; reflexivity).
  split; [exact Hnd|]. split; [exact Hok|].
  exact (CrudProps.run_ops_unique _ _ Hnd Hok).
Defined.

Lemma find_delete_witness :
  Crud.find_by_id (js "2") (Crud.delete_item (js "1") Auth.mock_ministries) =
  Crud.find_by_id (js "2") Auth.mock_ministries.
Proof.
  rewrite (CrudProps.find_delete (js "1") (js "2") Auth.mock_ministries).
  rewrite bool_decide_false; [reflexivity|]. intros Hc. discriminate Hc.
Defined.

Lemma add_same_ms_collision_witness :
  ~ NoDup (Crud.ids (Crud.add_item 1700000000000 ms_new (Crud.add_item 1700000000000 ms_new
                                                        Auth.mock_ministries))) /\
  Crud.delete_item (N_dec 1700000000000)
    (Crud.add_item 1700000000000 ms_new (Crud.add_item 1700000000000 ms_new Auth.mock_ministries)) =
  Crud.delete_item (N_dec 1700000000000) Auth.mock_ministries.
Proof. exact (CrudProps.add_same_ms_collision 1700000000000 ms_new ms_new Auth.mock_ministries). Defined.
