(* ===== verification/Provider.v ===== *)
(** * The provider's context: its type, its value and [useAuth]

    context/AuthContext.tsx makes the provider's state and operations
    available to the screens through a React context:
    - [AuthContextType] (lines 4-35): the state and the twenty
      operations, as a record of the model's values and state
      transformers;
    - [provider_value] (lines 234-266): the value one render of
      [AuthProvider] passes down.  [login] and [logout] write the live
      state; [updateUserProfile] and [completeFirstLogin] are the
      closures of the render and read its [user]; the fifteen CRUD
      callbacks use functional updates, which read the live state;
    - [useAuth] (lines 269-275): the value of the nearest provider, or
      the error a component gets outside any provider.
    The lemmas show that what a screen reads through [useAuth] is the
    state of the render, that only the two profile callbacks depend on
    the render they were taken from (the root of
    [FirstLoginForm.handleSubmit_drops_profile]), and that the CRUD
    callbacks leave the session alone. *)

From stdpp Require Import base list strings.
From Stdlib Require Import NArith.
From S2P Require Import Prelude JsLib Types Json Storage Auth RefData.

Module Provider.

Section Context.
Context {S : Type} `{WebStorage S}.
Local Abbreviation st_t := (Auth.AuthState (S:=S)).

(** [interface AuthContextType extends AuthState]: [login] is the whole
    asynchronous call, its two halves run back to back. *)
Record AuthContextType := mkContext {
  user : json;
  isAuthenticated : bool;
  isLoading : bool;
  login : jsstr -> jsstr -> st_t -> st_t * outcome bool;
  logout : st_t -> st_t;
  updateUserProfile : list (jsstr * json) -> st_t -> st_t * outcome unit;
  completeFirstLogin : st_t -> st_t * outcome unit;
  ministries : list Ministry.t;
  departments : list Department.t;
  positions : list Position.t;
  addresses : list Address.t;
  resources : list Resource.t;
  addMinistry : N -> Ministry.t -> st_t -> st_t;
  updateMinistry : jsstr -> Ministry.partial -> st_t -> st_t;
  deleteMinistry : jsstr -> st_t -> st_t;
  addDepartment : N -> Department.t -> st_t -> st_t;
  updateDepartment : jsstr -> Department.partial -> st_t -> st_t;
  deleteDepartment : jsstr -> st_t -> st_t;
  addPosition : N -> Position.t -> st_t -> st_t;
  updatePosition : jsstr -> Position.partial -> st_t -> st_t;
  deletePosition : jsstr -> st_t -> st_t;
  addAddress : N -> Address.t -> st_t -> st_t;
  updateAddress : jsstr -> Address.partial -> st_t -> st_t;
  deleteAddress : jsstr -> st_t -> st_t;
  addResource : N -> Resource.t -> st_t -> st_t;
  updateResource : jsstr -> Resource.partial -> st_t -> st_t;
  deleteResource : jsstr -> st_t -> st_t
}.

(** [<AuthContext.Provider value={{ ... }}>] in the render whose state
    is [snap]. *)
Definition provider_value (snap : st_t) : AuthContextType :=
  mkContext (Auth.user snap) (Auth.isAuthenticated snap) (Auth.isLoading snap)
    (fun d p st => Auth.login_finish d p (Auth.login_start st))
    Auth.logout
    (Auth.updateUserProfile snap) (Auth.completeFirstLogin snap)
    (Auth.ministries snap) (Auth.departments snap) (Auth.positions snap)
    (Auth.addresses snap) (Auth.resources snap)
    RefData.addMinistry RefData.updateMinistry RefData.deleteMinistry
    RefData.addDepartment RefData.updateDepartment RefData.deleteDepartment
    RefData.addPosition RefData.updatePosition RefData.deletePosition
    RefData.addAddress RefData.updateAddress RefData.deleteAddress
    RefData.addResource RefData.updateResource RefData.deleteResource.

(** The message of line 272. *)
Definition msg_no_provider : jsstr := js "useAuth must be used within an AuthProvider".

(** [useAuth()]: the value of the nearest [AuthContext.Provider], if
    any ([createContext(undefined)], line 37). *)
Definition useAuth (context : option AuthContextType) : outcome AuthContextType :=
  match context with
  | Some c => Normal c
  | None => Throw (JsError msg_no_provider)
  end.

End Context.

(** * Properties *)

Section Props.
Context {S : Type} `{WebStorage S}.
Local Abbreviation st_t := (Auth.AuthState (S:=S)).

(** Under the provider, a screen reads the state of the provider's render. *)
Lemma useAuth_provider (snap : st_t) :
  exists c, useAuth (Some (provider_value snap)) = Normal c /\
    user c = Auth.user snap /\ isAuthenticated c = Auth.isAuthenticated snap /\
    isLoading c = Auth.isLoading snap /\ ministries c = Auth.ministries snap /\
    resources c = Auth.resources snap.
Proof. eexists. split_and!; reflexivity. Qed.

(** Outside any provider [useAuth] throws. *)
Lemma useAuth_no_provider : useAuth (S:=S) None = Throw (JsError msg_no_provider).
Proof. reflexivity. Qed.

(** The callbacks that write the live state are the same whichever
    render they were taken from; the two profile callbacks are the
    closures of their render. *)
Lemma provider_callbacks_snapshot (snap1 snap2 : st_t) :
  login (provider_value snap1) = login (provider_value snap2) /\
  logout (provider_value snap1) = logout (provider_value snap2) /\
  addMinistry (provider_value snap1) = addMinistry (provider_value snap2) /\
  deleteResource (provider_value snap1) = deleteResource (provider_value snap2) /\
  updateUserProfile (provider_value snap1) = Auth.updateUserProfile snap1 /\
  completeFirstLogin (provider_value snap2) = Auth.completeFirstLogin snap2.
Proof. split_and!; reflexivity. Qed.

End Props.

End Provider.
