(* ===== verification/AdminPanel.v ===== *)
(** * The administration screen ([components/admin/AdminPanel.tsx])

    [AdminPanel] shows one section (ministries, departments, positions,
    addresses or portal resources), a table of its records and a dialog
    to add or edit one record.  The screen owns two hooks,
    [isDialogOpen] and [editingItem] ([PanelState]); every change to the
    data goes through the provider's CRUD callbacks ([RefData.v]).
    - [section], [item_of], [patch_of]: the prop [section] and the record
      and partial types the section handles;
    - [getSectionData] (lines 46-55), [handleAdd] (68-78), [handleUpdate]
      (80-90), [handleDelete] (92-100), [openEditDialog] (102-105),
      [openAddDialog] (107-110): the screen's handlers, each the switch
      of the source on the section;
    - [dialog_onSubmit] (line 290): an edit dialog updates the record it
      was opened on, an add dialog adds;
    - [FormContent] (lines 325-357): [form_init] (the initial form data,
      a copy of the edited record or the section's blank record),
      [form_input] ([{ ...prev, [field]: value }]) and the submit;
    - [department_ministry_name] (line 184): the ministry column of the
      departments table.
    The theorems show that each handler changes exactly the list of its
    section, that saving an unchanged edit dialog changes nothing, and
    that deleting a ministry leaves its departments without a ministry. *)

From stdpp Require Import base list strings.
From Stdlib Require Import NArith.
From S2P Require Import Prelude JsLib Types Json Storage Auth RefData.

Module AdminPanel.

(** ** Sections *)

(** [section: 'ministries' | 'departments' | 'positions' | 'addresses' | 'resources'] *)
Inductive section := ministries | departments | positions | addresses | resources.

#[export] Instance section_eq_dec : EqDecision section.
Proof. solve_decision. Defined.

Definition item_of (s : section) : Type :=
  match s with
  | ministries => Ministry.t
  | departments => Department.t
  | positions => Position.t
  | addresses => Address.t
  | resources => Resource.t
  end.

Definition patch_of (s : section) : Type :=
  match s with
  | ministries => Ministry.partial
  | departments => Department.partial
  | positions => Position.partial
  | addresses => Address.partial
  | resources => Resource.partial
  end.

#[export] Instance section_entity (s : section) : Entity (item_of s) (patch_of s) :=
  match s return Entity (item_of s) (patch_of s) with
  | ministries => Ministry_entity
  | departments => Department_entity
  | positions => Position_entity
  | addresses => Address_entity
  | resources => Resource_entity
  end.

#[export] Instance section_laws (s : section) : EntityLaws (item_of s) (patch_of s) :=
  match s return EntityLaws (item_of s) (patch_of s) with
  | ministries => Ministry_laws
  | departments => Department_laws
  | positions => Position_laws
  | addresses => Address_laws
  | resources => Resource_laws
  end.

(** ** The screen *)

(** The screen's own hooks [isDialogOpen] and [editingItem] (lines 43-44). *)
Record PanelState (sec : section) := mkPanel {
  isDialogOpen : bool;
  editingItem : option (item_of sec)
}.
Arguments mkPanel {sec}.
Arguments isDialogOpen {sec}.
Arguments editingItem {sec}.

Section Panel.
Context {S : Type} `{WebStorage S}.

Local Abbreviation st_t := (Auth.AuthState (S:=S)).

Definition getSectionData (sec : section) (st : st_t) : list (item_of sec) :=
  match sec return list (item_of sec) with
  | ministries => Auth.ministries st
  | departments => Auth.departments st
  | positions => Auth.positions st
  | addresses => Auth.addresses st
  | resources => Auth.resources st
  end.

(** [handleAdd(data)]: the section's [addX], then the dialog closes. *)
Definition handleAdd (sec : section) (now : N) (data : item_of sec) (ps : PanelState sec)
  (st : st_t) : PanelState sec * st_t :=
  let st' := match sec return item_of sec -> st_t with
             | ministries => fun d => addMinistry now d st
             | departments => fun d => addDepartment now d st
             | positions => fun d => addPosition now d st
             | addresses => fun d => addAddress now d st
             | resources => fun d => addResource now d st
             end data in
  (mkPanel false None, st').

(** [handleUpdate(id, data)]: the section's [updateX], then the dialog
    closes. *)
Definition handleUpdate (sec : section) (id : jsstr) (data : patch_of sec) (ps : PanelState sec)
  (st : st_t) : PanelState sec * st_t :=
  let st' := match sec return patch_of sec -> st_t with
             | ministries => fun d => updateMinistry id d st
             | departments => fun d => updateDepartment id d st
             | positions => fun d => updatePosition id d st
             | addresses => fun d => updateAddress id d st
             | resources => fun d => updateResource id d st
             end data in
  (mkPanel false None, st').

(** [handleDelete(id)]: the section's [deleteX]; the dialog is untouched. *)
Definition handleDelete (sec : section) (id : jsstr) (st : st_t) : st_t :=
  match sec with
  | ministries => deleteMinistry id st
  | departments => deleteDepartment id st
  | positions => deletePosition id st
  | addresses => deleteAddress id st
  | resources => deleteResource id st
  end.

Definition openEditDialog {sec : section} (item : item_of sec) : PanelState sec :=
  mkPanel true (Some item).

Definition openAddDialog (sec : section) : PanelState sec := mkPanel true None.

(** The dialog's [onSubmit] (line 290):
    [editingItem ? (data) => handleUpdate(editingItem.id, data) : handleAdd];
    the form data is a whole record, a partial with every field. *)
Definition dialog_onSubmit (sec : section) (now : N) (ps : PanelState sec)
  (data : item_of sec) (st : st_t) : PanelState sec * st_t :=
  match editingItem ps with
  | Some e => handleUpdate sec (ent_id e) (ent_full data) ps st
  | None => handleAdd sec now data ps st
  end.

End Panel.

(** ** The dialog's form ([FormContent], lines 325-357) *)

(** The blank record of a section (lines 331-343); the record has no
    [id] property in the source, written [""] here: [addX] overwrites it
    and nothing reads it before. *)
Definition blank_item (sec : section) : item_of sec :=
  match sec return item_of sec with
  | ministries => Ministry.mk [] [] []
  | departments => Department.mk [] [] [] []
  | positions => Position.mk [] [] []
  | addresses => Address.mk [] [] [] [] []
  | resources => Resource.mk [] [] [] [] (js "Link") (Num 1) true
  end.

(** [useState(() => editingItem ? { ...editingItem } : blank)] *)
Definition form_init (sec : section) (editing : option (item_of sec)) : item_of sec :=
  match editing with Some e => e | None => blank_item sec end.

(** [handleInputChange(field, value)]:
    [setFormData(prev => ({ ...prev, [field]: value }))], the field and
    its value being the partial [p]. *)
Definition form_input (sec : section) (p : patch_of sec) (fd : item_of sec) : item_of sec :=
  ent_spread fd p.

(** ** The departments table *)

(** [ministries.find(m => m.id === item.ministryId)?.name] (lines 184, 188). *)
Definition department_ministry_name {S} `{WebStorage S} (st : Auth.AuthState (S:=S))
  (d : Department.t) : option jsstr :=
  Ministry.name <$> Crud.find_by_id (Department.ministryId d) (Auth.ministries st).

(** The provider's state with the list of [sec] replaced. *)
Definition set_section_data {S} `{WebStorage S} (sec : section) (l : list (item_of sec))
  (st : Auth.AuthState (S:=S)) : Auth.AuthState (S:=S) :=
  match sec return list (item_of sec) -> Auth.AuthState (S:=S) with
  | ministries => fun l => set_ministries l st
  | departments => fun l => set_departments l st
  | positions => fun l => set_positions l st
  | addresses => fun l => set_addresses l st
  | resources => fun l => set_resources l st
  end l.

(** What a CRUD call leaves alone: the session part of the state. *)
Definition session_of {S} `{WebStorage S} (st : Auth.AuthState (S:=S)) : json * bool * bool * S :=
  (Auth.user st, Auth.isAuthenticated st, Auth.isLoading st, Auth.storage st).

(** Two records of the directory's reference data, for the witnesses. *)
Definition med : Ministry.t :=
  Ministry.mk (js "1") (js "Министерство экономического развития") (js "MED").

Definition oea : Department.t :=
  Department.mk (js "1") (js "Отдел экономического анализа") (js "1") (js "OEA").

(** * Properties *)

Section Props.
Context {S : Type} `{WebStorage S}.
Local Abbreviation st_t := (Auth.AuthState (S:=S)).

Lemma handleAdd_set sec now d (ps : PanelState sec) (st : st_t) :
  handleAdd sec now d ps st =
  (mkPanel false None, set_section_data sec (Crud.add_item now d (getSectionData sec st)) st).
Proof. by destruct sec. Qed.

Lemma handleUpdate_set sec id p (ps : PanelState sec) (st : st_t) :
  handleUpdate sec id p ps st =
  (mkPanel false None, set_section_data sec (Crud.update_item id p (getSectionData sec st)) st).
Proof. by destruct sec. Qed.

Lemma handleDelete_set sec id (st : st_t) :
  handleDelete sec id st = set_section_data sec (Crud.delete_item id (getSectionData sec st)) st.
Proof. by destruct sec. Qed.

Lemma get_set_same sec l (st : st_t) : getSectionData sec (set_section_data sec l st) = l.
Proof. by destruct sec. Qed.

Lemma get_set_other sec s' l (st : st_t) :
  s' <> sec -> getSectionData s' (set_section_data sec l st) = getSectionData s' st.
Proof. intros Hne. by destruct sec, s'. Qed.

Lemma session_set sec l (st : st_t) : session_of (set_section_data sec l st) = session_of st.
Proof. by destruct sec. Qed.

Lemma set_get sec (st : st_t) : set_section_data sec (getSectionData sec st) st = st.
Proof. by destruct sec, st. Qed.

(** [handleAdd] adds the record, with identifier
    [Date.now().toString()], to the list of the screen's own section and
    to no other, leaves the session alone, and closes the dialog. *)
Lemma handleAdd_dispatch (sec : section) (now : N) (d : item_of sec) (ps : PanelState sec)
  (st : st_t) :
  let '(ps', st') := handleAdd sec now d ps st in
  isDialogOpen ps' = false /\ editingItem ps' = None /\
  getSectionData sec st' = getSectionData sec st ++ [ent_with_id d (N_dec now)] /\
  (forall s', s' <> sec -> getSectionData s' st' = getSectionData s' st) /\
  session_of st' = session_of st.
Proof.
  rewrite handleAdd_set. split_and!; [done|done|apply get_set_same| |apply session_set].
  intros s' Hne. by apply get_set_other.
Qed.

(** [handleDelete] removes the records with the identifier from the
    list of the screen's own section and from no other, and leaves the
    session alone. *)
Lemma handleDelete_dispatch (sec : section) (id : jsstr) (st : st_t) :
  getSectionData sec (handleDelete sec id st) =
    List.filter (fun m => bool_decide (ent_id m <> id)) (getSectionData sec st) /\
  (forall s', s' <> sec -> getSectionData s' (handleDelete sec id st) = getSectionData s' st) /\
  session_of (handleDelete sec id st) = session_of st.
Proof.
  rewrite handleDelete_set. split_and!; [apply get_set_same| |apply session_set].
  intros s' Hne. by apply get_set_other.
Qed.

(** C28: opening the edit dialog on a record of the section and saving the
    form unchanged leaves the whole state as it was, when the section's
    identifiers are unique. *)
Theorem edit_save_unchanged (sec : section) (now : N) (e : item_of sec) (st : st_t) :
  NoDup (Crud.ids (getSectionData sec st)) -> e ∈ getSectionData sec st ->
  snd (dialog_onSubmit sec now (openEditDialog e) (form_init sec (Some e)) st) = st.
Proof.
  intros Hnd He. unfold dialog_onSubmit, openEditDialog, form_init. cbn [editingItem].
  rewrite handleUpdate_set. cbn [snd]. rewrite CrudProps.update_full_noop by done.
  apply set_get.
Qed.

(** C29: deleting a ministry leaves its departments in place, and the
    departments table then shows no ministry for them. *)
Theorem delete_ministry_dangling (i : jsstr) (d : Department.t) (st : st_t) :
  Department.ministryId d = i -> d ∈ Auth.departments st ->
  d ∈ Auth.departments (handleDelete ministries i st) /\
  department_ministry_name (handleDelete ministries i st) d = None.
Proof.
  intros Hd Hin. split; [done|]. unfold department_ministry_name. simpl.
  rewrite CrudProps.find_by_id_delete, Hd. by rewrite bool_decide_true.
Qed.

End Props.

(** * Witnesses, on the provider's first state over the browser's storage. *)

Lemma edit_save_unchanged_witness :
  NoDup (Crud.ids (getSectionData ministries (Auth.initial_state (empty_storage 1000)))) /\
  med ∈ getSectionData ministries (Auth.initial_state (empty_storage 1000)) /\
  snd (dialog_onSubmit ministries 0 (openEditDialog (sec:=ministries) med)
         (form_init ministries (Some med)) (Auth.initial_state (empty_storage 1000))) =
  Auth.initial_state (empty_storage 1000).
Proof.
  assert (NoDup (Crud.ids (getSectionData ministries (Auth.initial_state (empty_storage 1000)))))
    as Hnd by (apply (bool_decide_unpack _); vm_compute; reflexivity).
  assert (med ∈ getSectionData ministries (Auth.initial_state (empty_storage 1000)))
    as Hin by (apply elem_of_cons; left; reflexivity).
  split; [exact Hnd|]. split; [exact Hin|].
  exact (edit_save_unchanged ministries 0 med _ Hnd Hin).
Defined.

Lemma delete_ministry_dangling_witness :
  Department.ministryId oea = js "1" /\
  oea ∈ Auth.departments (Auth.initial_state (empty_storage 1000)) /\
  oea ∈ Auth.departments (handleDelete ministries (js "1") (Auth.initial_state (empty_storage 1000))) /\
  department_ministry_name (handleDelete ministries (js "1") (Auth.initial_state (empty_storage 1000))) oea
    = None.
Proof.
  assert (oea ∈ Auth.departments (Auth.initial_state (empty_storage 1000)))
    as Hin by (apply elem_of_cons; left; reflexivity).
  split; [reflexivity|]. split; [exact Hin|].
  exact (delete_ministry_dangling (js "1") oea _ eq_refl Hin).
Defined.

End AdminPanel.

#[export] Existing Instance AdminPanel.section_eq_dec.
