(* ===== verification/Screens.v ===== *)
(** * The screens around the provider

    - [Module Portal] ([Portal.tsx]): which screen the application shows
      for the provider's state ([portal_screen], lines 15-32) and which
      content the main screen shows for [currentView] ([renderContent],
      lines 34-65).
    - [Module Navigation] ([components/layout/Navigation.tsx]): the menu
      items and [filteredNavigation] (lines 15-75), the items a user is
      offered.
    - [Module LoginForm] ([components/auth/LoginForm.tsx]): the form's
      state and [handleSubmit] (lines 11-29), composed with the
      provider's [login].
    - [Module Dashboard] ([components/dashboard/Dashboard.tsx]): the list
      of active resources sorted by [order] (line 15), with
      [Array.prototype.sort] modelled as the stable insertion sort the
      language requires, and [handleResourceClick] (lines 17-23).
    - [Module Header] ([components/layout/Header.tsx]): [getInitials]
      (lines 24-26) and the lookups of the user's organisation (20-22).
    The user object these screens read is the provider's [user], a
    JavaScript value: a property missing from it reads as [undefined]. *)

From stdpp Require Import base list strings sets sorting.
From Stdlib Require Import NArith ZArith.

Local Set Warnings "-clear-no-such-hyp".
From S2P Require Import Prelude JsLib Types Json Storage Auth RefData AdminPanel.

(** [v.f] is truthy. *)
Definition prop_truthy (v : json) (f : jsstr) : bool :=
  match Auth.json_get v f with Some x => negb (Auth.json_falsy x) | None => false end.

Module Portal.

(** What [renderContent] returns. *)
Inductive Content :=
| C_Dashboard
| C_Profile
| C_AdminHome
| C_AdminPanel (s : AdminPanel.section).

#[export] Instance Content_eq_dec : EqDecision Content.
Proof. pose proof AdminPanel.section_eq_dec. solve_decision. Defined.

(** What [Portal] returns. *)
Inductive Screen :=
| Loading
| LoginScreen
| FirstLoginScreen
| MainScreen (c : Content).

#[export] Instance Screen_eq_dec : EqDecision Screen.
Proof. solve_decision. Defined.

(** The [switch (currentView)] of lines 35-64; an unknown view shows the
    dashboard. *)
Definition renderContent (currentView : jsstr) : Content :=
  if bool_decide (currentView = js "dashboard") then C_Dashboard
  else if bool_decide (currentView = js "profile") then C_Profile
  else if bool_decide (currentView = js "admin") then C_AdminHome
  else if bool_decide (currentView = js "ministries") then C_AdminPanel AdminPanel.ministries
  else if bool_decide (currentView = js "departments") then C_AdminPanel AdminPanel.departments
  else if bool_decide (currentView = js "positions") then C_AdminPanel AdminPanel.positions
  else if bool_decide (currentView = js "addresses") then C_AdminPanel AdminPanel.addresses
  else if bool_decide (currentView = js "resources") then C_AdminPanel AdminPanel.resources
  else C_Dashboard.

(** Lines 15-32: loading first, then the login form when there is no
    authenticated user, then the first-login form while
    [user.isFirstLogin] is truthy, then the main screen. *)
Definition portal_screen {S} `{WebStorage S} (st : Auth.AuthState (S:=S)) (currentView : jsstr)
  : Screen :=
  if Auth.isLoading st then Loading
  else if negb (Auth.isAuthenticated st) || Auth.json_falsy (Auth.user st) then LoginScreen
  else if prop_truthy (Auth.user st) (js "isFirstLogin") then FirstLoginScreen
  else MainScreen (renderContent currentView).

End Portal.

Module Navigation.

Record NavItem := mkNavItem {
  nav_id : jsstr;
  nav_name : jsstr;
  nav_icon : jsstr;
  access : list jsstr
}.

(** Lines 15-28. *)
Definition navigation : list NavItem :=
  [mkNavItem (js "dashboard") (js "Главная") (js "Home") [js "admin"; js "user"];
   mkNavItem (js "profile") (js "Профиль") (js "User") [js "admin"; js "user"]].

(** Lines 30-67. *)
Definition adminNavigation : list NavItem :=
  [mkNavItem (js "admin") (js "Администрирование") (js "Settings") [js "admin"];
   mkNavItem (js "ministries") (js "Министерства") (js "Building") [js "admin"];
   mkNavItem (js "departments") (js "Подразделения") (js "Users") [js "admin"];
   mkNavItem (js "positions") (js "Должности") (js "Briefcase") [js "admin"];
   mkNavItem (js "addresses") (js "Адреса") (js "MapPin") [js "admin"];
   mkNavItem (js "resources") (js "Ресурсы") (js "Grid3x3") [js "admin"]].

(** [user?.role === 'admin'] *)
Definition is_admin (user : json) : bool :=
  match Auth.json_get user (js "role") with
  | Some (JStr r) => bool_decide (r = js "admin")
  | _ => false
  end.

(** [user?.role || 'user'] *)
Definition role_or_user (user : json) : json :=
  match Auth.json_get user (js "role") with
  | Some r => if Auth.json_falsy r then JStr (js "user") else r
  | None => JStr (js "user")
  end.

(** [item.access.includes(r)]: strict equality with a string, so a
    value that is not a string is included in no list. *)
Definition includes (access : list jsstr) (r : json) : bool :=
  match r with
  | JStr s => existsb (fun a => bool_decide (a = s)) access
  | _ => false
  end.

(** Lines 69-75. *)
Definition filteredNavigation (user : json) : list NavItem :=
  let allNavigation := if is_admin user then navigation ++ adminNavigation else navigation in
  List.filter (fun item => includes (access item) (role_or_user user)) allNavigation.

End Navigation.

Module LoginForm.

(** The form's hooks (lines 11-13). *)
Record LoginState := mkLoginState {
  domain : jsstr;
  password : jsstr;
  error : jsstr
}.

Definition msg_fill : jsstr := js "Заполните все поля".
Definition msg_invalid : jsstr := js "Неверные учетные данные".

(** [handleSubmit] up to its [await] (lines 16-25): [setError('')], the
    empty-field guard, and the synchronous part of [login]
    ([setIsLoading(true)]); the flag says whether the handler now awaits
    [login]. *)
Definition submit_start {S} `{WebStorage S} (ls : LoginState) (st : Auth.AuthState (S:=S))
  : LoginState * Auth.AuthState (S:=S) * bool :=
  let ls := mkLoginState (domain ls) (password ls) [] in
  if str_falsy (domain ls) || str_falsy (password ls) then
    (mkLoginState (domain ls) (password ls) msg_fill, st, false)
  else (ls, Auth.login_start st, true).

(** The rest of [handleSubmit] once [login] resolves (lines 25-28), with
    the second half of [login]; a [login] that throws rejects the
    handler's promise, so the error stays as it was. *)
Definition submit_finish {S} `{WebStorage S} (ls : LoginState) (st : Auth.AuthState (S:=S))
  : LoginState * Auth.AuthState (S:=S) :=
  match Auth.login_finish (domain ls) (password ls) st with
  | (st', Normal true) => (ls, st')
  | (st', Normal false) => (mkLoginState (domain ls) (password ls) msg_invalid, st')
  | (st', Throw _) => (ls, st')
  end.

(** [handleSubmit] (lines 16-29) on a form that stays mounted. *)
Definition handleSubmit {S} `{WebStorage S} (ls : LoginState) (st : Auth.AuthState (S:=S))
  : LoginState * Auth.AuthState (S:=S) :=
  let '(ls1, st1, waits) := submit_start ls st in
  if waits then submit_finish ls1 st1 else (ls1, st1).

End LoginForm.

Module Dashboard.

(** [a.order - b.order > 0] for the sort's comparator; [NaN] makes the
    difference [NaN], which the sort reads as [+0]. *)
Definition order_gt (a b : Resource.t) : bool :=
  match Resource.order a, Resource.order b with
  | Num x, Num y => (y <? x)%Z
  | _, _ => false
  end.

(** Inserting [x] after every element that does not compare greater. *)
Fixpoint insert_by (x : Resource.t) (l : list Resource.t) : list Resource.t :=
  match l with
  | [] => [x]
  | y :: r => if order_gt y x then x :: y :: r else y :: insert_by x r
  end.

(** [Array.prototype.sort] with the comparator [(a, b) => a.order - b.order]:
    the sort is stable (ECMAScript 2019), which for a consistent
    comparator fixes its result; this is the stable insertion sort. *)
Definition sort_by_order (l : list Resource.t) : list Resource.t :=
  fold_left (fun acc x => insert_by x acc) l [].

(** Line 15. *)
Definition activeResources (resources : list Resource.t) : list Resource.t :=
  sort_by_order (List.filter Resource.isActive resources).

(** What a click on a resource does. *)
Inductive effect := WindowOpen (url : jsstr) (target : jsstr) | ConsoleLog (msg : jsstr).

(** Lines 17-23. *)
Definition handleResourceClick (url : jsstr) : effect :=
  if starts_with (js "http") url then WindowOpen url (js "_blank")
  else ConsoleLog (js "Переход к ресурсу: " ++ url).

End Dashboard.

Module Header.

(** [s.charAt(0)]: the first code unit, or [""]. *)
Definition charAt0 (s : jsstr) : jsstr := take 1 s.

(** Lines 24-26. *)
Definition getInitials (firstName lastName : jsstr) : jsstr := charAt0 firstName ++ charAt0 lastName.

(** [user.f] as a string, for the lookups of lines 20-22. *)
Definition user_str (user : json) (f : jsstr) : option jsstr :=
  match Auth.json_get user f with Some (JStr s) => Some s | _ => None end.

(** [l.find(m => m.id === user.f)]; a property that is not a string
    matches no identifier. *)
Definition user_lookup {T P} `{Entity T P} (user : json) (f : jsstr) (l : list T) : option T :=
  match user_str user f with
  | Some i => Crud.find_by_id i l
  | None => None
  end.

(** Lines 20-22 (and lines 12-13 of the dashboard). *)
Definition userMinistry {S} `{WebStorage S} (st : Auth.AuthState (S:=S)) : option Ministry.t :=
  user_lookup (Auth.user st) (js "ministry") (Auth.ministries st).
Definition userDepartment {S} `{WebStorage S} (st : Auth.AuthState (S:=S)) : option Department.t :=
  user_lookup (Auth.user st) (js "department") (Auth.departments st).
Definition userPosition {S} `{WebStorage S} (st : Auth.AuthState (S:=S)) : option Position.t :=
  user_lookup (Auth.user st) (js "position") (Auth.positions st).

End Header.

(** * Properties *)

Module PortalProps.
Import Portal.

(** C23: the main screen is shown exactly to an authenticated, loaded user
    object whose [isFirstLogin] is not truthy; while [isFirstLogin] is
    truthy no view, whatever [currentView] says, gets past the first-login
    form. *)
Theorem portal_main_iff {S} `{WebStorage S} (st : Auth.AuthState (S:=S)) (v : jsstr) (c : Content) :
  portal_screen st v = MainScreen c <->
  Auth.isLoading st = false /\ Auth.isAuthenticated st = true /\
  Auth.json_falsy (Auth.user st) = false /\ prop_truthy (Auth.user st) (js "isFirstLogin") = false /\
  c = renderContent v.
Proof.
  unfold portal_screen. split.
  - destruct (Auth.isLoading st); [discriminate|].
    destruct (negb _ || _) eqn:E; [discriminate|].
    destruct (prop_truthy _ _); [discriminate|]. intros [= <-].
    apply orb_false_iff in E as [E1 E2]. apply negb_false_iff in E1. done.
  - intros (-> & -> & -> & -> & ->). reflexivity.
Qed.

End PortalProps.

Module NavigationProps.
Import Navigation.

Lemma is_admin_role (user : json) : is_admin user = includes [js "admin"] (role_or_user user).
Proof.
  unfold is_admin, role_or_user.
  destruct (Auth.json_get user (js "role")) as [[| b | m e | s | l | l]|];
    cbn [Auth.json_falsy]; try (repeat case_match; vm_compute; reflexivity); [].
  destruct (str_falsy s) eqn:E; simpl.
  - rewrite bool_decide_false; [done|]. intros ->. discriminate.
  - rewrite orb_false_r. apply bool_decide_ext. done.
Qed.

(** C24: the menu offers the six administration items exactly to a user
    whose [role] is ['admin']; a user with role ['user'] (or none) gets
    the dashboard and the profile, any other role nothing. *)
Theorem filteredNavigation_ids (user : json) :
  map nav_id (filteredNavigation user) =
  if is_admin user then
    [js "dashboard"; js "profile"; js "admin"; js "ministries"; js "departments";
     js "positions"; js "addresses"; js "resources"]
  else if includes [js "user"] (role_or_user user) then [js "dashboard"; js "profile"]
  else [].
Proof.
  unfold filteredNavigation. rewrite is_admin_role.
  destruct (role_or_user user) as [| | | s | |]; try reflexivity.
  destruct (decide (s = js "admin")) as [->|Ha]; [vm_compute; reflexivity|].
  destruct (decide (s = js "user")) as [->|Hu]; [vm_compute; reflexivity|].
  cbn [includes]. rewrite !existsb_eq_absent by set_solver. cbn iota.
  rewrite filter_all_false; [done|].
  repeat constructor; cbn [access includes]; apply existsb_eq_absent; set_solver.
Qed.

End NavigationProps.

Module LoginFormProps.
Import LoginForm.

Section Props.
Context {S : Type} `{WebStorageLaws S}.

(** A submit with an empty domain or password shows "fill in all
    fields" and does not call [login]: the provider's state is untouched. *)
Lemma handleSubmit_empty (d p e : jsstr) (st : Auth.AuthState (S:=S)) :
  str_falsy d || str_falsy p = true ->
  handleSubmit (mkLoginState d p e) st = (mkLoginState d p msg_fill, st).
Proof. intros Hf. unfold handleSubmit, submit_start, submit_finish. cbn [domain password]. by rewrite Hf. Qed.

(** A filled-in submit the directory rejects shows "invalid
    credentials" and only ends the loading [login] started. *)
Lemma handleSubmit_rejected (d p e : jsstr) (st : Auth.AuthState (S:=S)) :
  str_falsy d = false -> str_falsy p = false -> Auth.login_rejected d p = true ->
  handleSubmit (mkLoginState d p e) st =
  (mkLoginState d p msg_invalid, Auth.set_isLoading false (Auth.login_start st)).
Proof.
  intros Hd Hp Hr. unfold handleSubmit, submit_start, submit_finish. cbn [domain password]. rewrite Hd, Hp. simpl.
  by rewrite Auth.login_finish_rejected.
Qed.

(** C25: when saving the session fails during a correct login, the form
    shows no error and the portal shows its loading screen for good:
    [isLoading] stays [true]. *)
Theorem handleSubmit_quota_spinner (d p e v : jsstr) (u : User.t) (st : Auth.AuthState (S:=S))
  (ex : exn) :
  str_falsy d = false -> str_falsy p = false ->
  Auth.find_user d = Some u -> p = Auth.demo_password ->
  setItem (Auth.storage st) Auth.key_user (stringify (Auth.user_to_json u)) = Throw ex ->
  error (fst (handleSubmit (mkLoginState d p e) st)) = [] /\
  Portal.portal_screen (snd (handleSubmit (mkLoginState d p e) st)) v = Portal.Loading.
Proof.
  intros Hd Hp Hf Hpw Hs. unfold handleSubmit, submit_start. cbn [domain password]. rewrite Hd, Hp.
  cbn [orb]. unfold submit_finish. cbn [domain password].
  rewrite (Auth.login_finish_found d p u) by done.
  cbn [Auth.login_start Auth.storage Auth.set_isLoading]. rewrite Hs. done.
Qed.

End Props.
End LoginFormProps.

Module DashboardProps.
Import Dashboard.

(** The order the dashboard promises, stated on the numbers and not
    through the comparator: [a] before [b] requires [a.order <= b.order]
    when both orders are numbers ([NaN] compares with nothing). *)
Definition order_le (a b : Resource.t) : Prop :=
  match Resource.order a, Resource.order b with
  | Num x, Num y => (x <= y)%Z
  | _, _ => True
  end.

Lemma order_gt_le a b : order_gt a b = true -> order_le b a.
Proof.
  unfold order_gt, order_le. destruct (Resource.order a), (Resource.order b); try done.
  intros ?%Z.ltb_lt. lia.
Qed.

Lemma order_not_gt_le a b : order_gt a b = false -> order_le a b.
Proof.
  unfold order_gt, order_le. destruct (Resource.order a), (Resource.order b); try done.
  intros ?%Z.ltb_ge. lia.
Qed.

(** [y] is numerically above [x], so it is above whatever [y] is below. *)
Lemma order_le_trans_gt x y z : order_gt y x = true -> order_le y z -> order_le x z.
Proof.
  unfold order_gt, order_le. destruct (Resource.order x), (Resource.order y), (Resource.order z);
    try done. intros ?%Z.ltb_lt. lia.
Qed.

Lemma insert_by_perm x l : insert_by x l ≡ₚ x :: l.
Proof.
  induction l as [|y l IH]; simpl; [done|].
  destruct (order_gt y x); [done|]. rewrite IH. by constructor.
Qed.

Lemma insert_by_sorted x l :
  StronglySorted order_le l -> StronglySorted order_le (insert_by x l).
Proof.
  induction 1 as [|y l Hl IH Hy]; simpl; [by repeat constructor|].
  destruct (order_gt y x) eqn:E.
  - constructor; [by constructor|]. constructor; [by apply order_gt_le|].
    eapply Forall_impl; [exact Hy|]. intros z. by apply order_le_trans_gt.
  - constructor; [done|]. rewrite insert_by_perm. constructor; [|done].
    by apply order_not_gt_le.
Qed.

Lemma sort_fold_perm l acc :
  fold_left (fun acc x => insert_by x acc) l acc ≡ₚ l ++ acc.
Proof.
  revert acc. induction l as [|x l IH]; intros acc; simpl; [done|].
  rewrite IH, insert_by_perm. by rewrite Permutation_middle.
Qed.

Lemma sort_fold_sorted l acc :
  StronglySorted order_le acc ->
  StronglySorted order_le (fold_left (fun acc x => insert_by x acc) l acc).
Proof.
  revert acc. induction l as [|x l IH]; intros acc Hacc; simpl; [done|].
  by apply IH, insert_by_sorted.
Qed.


End DashboardProps.

(** * Witnesses, on the provider's first state over the browser's storage *)

Lemma handleSubmit_empty_witness :
  str_falsy [] || str_falsy (js "password") = true /\
  LoginForm.handleSubmit (LoginForm.mkLoginState [] (js "password") [])
    (Auth.initial_state (empty_storage 1000)) =
  (LoginForm.mkLoginState [] (js "password") LoginForm.msg_fill, Auth.initial_state (empty_storage 1000)).
Proof.
  assert (Hf : str_falsy [] || str_falsy (js "password") = true) by reflexivity.
  split; [exact Hf|]. exact (LoginFormProps.handleSubmit_empty _ _ _ _ Hf).
Defined.

Lemma handleSubmit_rejected_witness :
  Auth.login_rejected (js "ivanov@gov27.ru") (js "qwerty") = true /\
  LoginForm.handleSubmit (LoginForm.mkLoginState (js "ivanov@gov27.ru") (js "qwerty") [])
    (Auth.initial_state (empty_storage 1000)) =
  (LoginForm.mkLoginState (js "ivanov@gov27.ru") (js "qwerty") LoginForm.msg_invalid,
   Auth.set_isLoading false (Auth.login_start (Auth.initial_state (empty_storage 1000)))).
Proof.
  assert (Hr : Auth.login_rejected (js "ivanov@gov27.ru") (js "qwerty") = true) by reflexivity.
  split; [exact Hr|].
  exact (LoginFormProps.handleSubmit_rejected (js "ivanov@gov27.ru") (js "qwerty") []
           (Auth.initial_state (empty_storage 1000)) eq_refl eq_refl Hr).
Defined.

Lemma handleSubmit_quota_spinner_witness :
  setItem (Auth.storage (Auth.initial_state (empty_storage 10))) Auth.key_user
    (stringify (Auth.user_to_json Auth.mock_ivanov)) = Throw QuotaExceededError /\
  LoginForm.error (fst (LoginForm.handleSubmit
    (LoginForm.mkLoginState (js "ivanov@gov27.ru") (js "password") [])
    (Auth.initial_state (empty_storage 10)))) = [] /\
  Portal.portal_screen (snd (LoginForm.handleSubmit
    (LoginForm.mkLoginState (js "ivanov@gov27.ru") (js "password") [])
    (Auth.initial_state (empty_storage 10)))) (js "dashboard") = Portal.Loading.
Proof.
  assert (Hs : setItem (Auth.storage (Auth.initial_state (empty_storage 10))) Auth.key_user
    (stringify (Auth.user_to_json Auth.mock_ivanov)) = Throw QuotaExceededError)
    by (vm_compute; reflexivity).
  split; [exact Hs|].
  exact (LoginFormProps.handleSubmit_quota_spinner (js "ivanov@gov27.ru") (js "password") []
           (js "dashboard") Auth.mock_ivanov (Auth.initial_state (empty_storage 10)) _
           eq_refl eq_refl eq_refl eq_refl Hs).
Defined.
