(* ===== verification/AdminView.v ===== *)
(** * What the administration screen shows, and its dialog's form

    The render of [AdminPanel] and of its [FormContent]
    (components/admin/AdminPanel.tsx):
    - [getSectionTitle] (lines 57-66), the dialog title (279-281), the
      card title and description (299-302), with the built-ins
      [toLowerCase] and [slice(0, -1)] they call;
    - [renderTableHeaders] (112-162) and [renderTableRow] (164-264): the
      table's columns and one row's cells, whose Edit and Delete buttons
      call [openEditDialog(item)] and [handleDelete(item.id)];
    - [table_view] (305-318): one row per record of the section, keyed by
      its identifier;
    - [renderFormFields] (359-540): the inputs of the dialog's form, and
      [field_patch]: what each input's [onChange] hands to
      [handleInputChange] (the typed text, or [parseInt] of it for the
      [order] input, line 531);
    - [dialog_submit] (286-292 and 347-350): the form edited by a
      sequence of inputs and submitted to [handleAdd] or [handleUpdate].
    The theorems show that every row has one cell per column, that an
    edit dialog saves exactly what its form holds under the edited
    identifier, that no sequence of inputs can deactivate a resource,
    that the order shown in the table reads back through [parseInt], and
    compute the dialog titles, whose noun is the plural title with its
    last letter cut off. *)

From stdpp Require Import base list strings.
From Stdlib Require Import NArith ZArith.
From S2P Require Import Prelude JsLib Types Json Storage Auth RefData AdminPanel Screens.

Module AdminView.
Import AdminPanel.

(** ** Built-ins the screen calls *)

(** [String.prototype.toLowerCase] on one code unit: the simple case
    mapping of Basic Latin, Latin-1 and Cyrillic capitals (U+0400-U+042F);
    other code units are kept.  Every string the screen lower-cases is a
    literal of the source, in Russian. *)
Definition to_lower_unit (c : N) : N :=
  if (65 <=? c)%N && (c <=? 90)%N then (c + 32)%N
  else if (192 <=? c)%N && (c <=? 222)%N && negb (c =? 215)%N then (c + 32)%N
  else if (1024 <=? c)%N && (c <=? 1039)%N then (c + 80)%N
  else if (1040 <=? c)%N && (c <=? 1071)%N then (c + 32)%N
  else c.

Definition js_toLowerCase (s : jsstr) : jsstr := map to_lower_unit s.

(** [s.slice(0, -1)]: every code unit but the last; [""] stays [""]. *)
Definition slice_drop_last (s : jsstr) : jsstr := take (length s - 1) s.

(** The value of a digit in radix up to 36 ([0-9a-zA-Z]). *)
Definition digit_val (c : N) : option N :=
  if is_digit c then Some (c - 48)%N
  else if (97 <=? c)%N && (c <=? 122)%N then Some (c - 87)%N
  else if (65 <=? c)%N && (c <=? 90)%N then Some (c - 55)%N
  else None.

(** The longest prefix of digits of radix [r]. *)
Fixpoint digits_prefix (r : N) (s : jsstr) : list N :=
  match s with
  | c :: t => match digit_val c with
              | Some d => if (d <? r)%N then d :: digits_prefix r t else []
              | None => []
              end
  | [] => []
  end.

Definition digits_value (r : N) (ds : list N) : N :=
  fold_left (fun acc d => acc * r + d)%N ds 0%N.

(** The optional sign of [parseInt]'s input: is it negative, and the rest. *)
Definition parse_sign (s : jsstr) : bool * jsstr :=
  match s with
  | 45 :: t => (true, t)
  | 43 :: t => (false, t)
  | _ => (false, s)
  end%N.

(** A [0x] or [0X] prefix selects radix 16, anything else radix 10. *)
Definition parse_radix (s : jsstr) : N * jsstr :=
  match s with
  | 48 :: x :: t => if (x =? 120)%N || (x =? 88)%N then (16%N, t) else (10%N, s)
  | _ => (10%N, s)
  end%N.

(** [parseInt(s)] with no radix (ECMAScript 19.2.5): leading white space
    skipped, an optional sign, a [0x]/[0X] prefix selecting radix 16,
    then the longest run of digits; none gives [NaN].  The model keeps
    the integer exactly, which JavaScript does up to 2^53. *)
Definition parseInt (s : jsstr) : jsnum :=
  let '(neg, s) := parse_sign (trim_start s) in
  let '(r, s) := parse_radix s in
  match digits_prefix r s with
  | [] => NaN
  | ds => Num (if neg then (- Z.of_N (digits_value r ds))%Z else Z.of_N (digits_value r ds))
  end.

(** [String(n)] for the numbers [parseInt] yields, as JSX renders them
    ([{item.order}], line 243); exact below 10^21, where JavaScript
    switches to exponent notation. *)
Definition jsnum_text (n : jsnum) : jsstr :=
  match n with Num z => Z_dec z | NaN => js "NaN" end.

(** ** Titles *)

Definition getSectionTitle (sec : section) : jsstr :=
  match sec with
  | ministries => js "Министерства"
  | departments => js "Подразделения"
  | positions => js "Должности"
  | addresses => js "Адреса"
  | resources => js "Ресурсы портала"
  end.

(** [{editingItem ? 'Редактировать' : 'Добавить'} {getSectionTitle().toLowerCase().slice(0, -1)}] *)
Definition dialog_title (sec : section) (ps : PanelState sec) : jsstr :=
  match editingItem ps with Some _ => js "Редактировать" | None => js "Добавить" end ++ js " "
  ++ slice_drop_last (js_toLowerCase (getSectionTitle sec)).

(** The card's title and description (lines 299-302). *)
Definition list_title (sec : section) : jsstr :=
  js "Список " ++ js_toLowerCase (getSectionTitle sec).

Definition list_description (sec : section) : jsstr :=
  js "Управление " ++ js_toLowerCase (getSectionTitle sec) ++ js " в системе".

(** ** The table *)

Definition renderTableHeaders (sec : section) : list jsstr :=
  match sec with
  | ministries => [js "Название"; js "Код"; js "Действия"]
  | departments => [js "Название"; js "Министерство"; js "Код"; js "Действия"]
  | positions => [js "Название"; js "Код"; js "Действия"]
  | addresses => [js "Улица"; js "Дом"; js "Город"; js "Индекс"; js "Действия"]
  | resources => [js "Название"; js "URL"; js "Порядок"; js "Статус"; js "Действия"]
  end.

(** A cell of a row: text, the status badge (its variant and label), or
    the two action buttons. *)
Inductive cell := CText (s : jsstr) | CBadge (variant label : jsstr) | CActions.

Section Table.
Context {S : Type} `{WebStorage S}.
Local Abbreviation st_t := (Auth.AuthState (S:=S)).

(** [renderTableRow(item)]; [{ministry?.name}] renders nothing when the
    ministry is not found. *)
Definition renderTableRow (sec : section) (st : st_t) : item_of sec -> list cell :=
  match sec return item_of sec -> list cell with
  | ministries => fun m => [CText (Ministry.name m); CText (Ministry.code m); CActions]
  | departments => fun d =>
      [CText (Department.name d); CText (default [] (department_ministry_name st d));
       CText (Department.code d); CActions]
  | positions => fun p => [CText (Position.name p); CText (Position.code p); CActions]
  | addresses => fun a =>
      [CText (Address.street a); CText (Address.building a); CText (Address.city a);
       CText (Address.postalCode a); CActions]
  | resources => fun r =>
      [CText (Resource.title r); CText (Resource.url r); CText (jsnum_text (Resource.order r));
       if Resource.isActive r then CBadge (js "default") (js "Активен")
       else CBadge (js "secondary") (js "Неактивен");
       CActions]
  end.

(** [getSectionData().map(item => <TableRow key={item.id}>...)] *)
Definition table_view (sec : section) (st : st_t) : list (jsstr * list cell) :=
  map (fun x => (ent_id x, renderTableRow sec st x)) (getSectionData sec st).

(** The buttons of a row's last cell. *)
Inductive row_action := RowEdit | RowDelete.

Definition onRowAction (sec : section) (x : item_of sec) (a : row_action)
  (ps : PanelState sec) (st : st_t) : PanelState sec * st_t :=
  match a with
  | RowEdit => (openEditDialog x, st)
  | RowDelete => (ps, handleDelete sec (ent_id x) st)
  end.

End Table.

(** ** The dialog's form *)

(** The property names the form's inputs write. *)
Inductive fkey :=
| f_name | f_code | f_ministryId | f_street | f_building | f_city | f_postalCode
| f_title | f_description | f_url | f_icon | f_order.

#[export] Instance fkey_eq_dec : EqDecision fkey.
Proof. solve_decision. Defined.

(** A text input, the ministry select with its options (identifier and
    name), or the number input. *)
Inductive control := TextInput | MinistrySelect (options : list (jsstr * jsstr)) | NumberInput.

(** [renderFormFields()]: the inputs of each section, in order. *)
Definition renderFormFields (sec : section) (ms : list Ministry.t) : list (fkey * control) :=
  match sec with
  | ministries => [(f_name, TextInput); (f_code, TextInput)]
  | departments =>
      [(f_name, TextInput);
       (f_ministryId, MinistrySelect (map (fun m => (Ministry.id m, Ministry.name m)) ms));
       (f_code, TextInput)]
  | positions => [(f_name, TextInput); (f_code, TextInput)]
  | addresses => [(f_street, TextInput); (f_building, TextInput); (f_city, TextInput);
                  (f_postalCode, TextInput)]
  | resources => [(f_title, TextInput); (f_description, TextInput); (f_url, TextInput);
                  (f_icon, TextInput); (f_order, NumberInput)]
  end.

(** The [onChange] of input [k] on the text [v]:
    [handleInputChange(k, v)], or [handleInputChange('order', parseInt(v))];
    a key the section does not render changes nothing. *)
Definition field_patch (sec : section) (k : fkey) (v : jsstr) : patch_of sec :=
  match sec return patch_of sec with
  | ministries =>
      match k with
      | f_name => Ministry.mkp None (Some v) None
      | f_code => Ministry.mkp None None (Some v)
      | _ => Ministry.mkp None None None
      end
  | departments =>
      match k with
      | f_name => Department.mkp None (Some v) None None
      | f_ministryId => Department.mkp None None (Some v) None
      | f_code => Department.mkp None None None (Some v)
      | _ => Department.mkp None None None None
      end
  | positions =>
      match k with
      | f_name => Position.mkp None (Some v) None
      | f_code => Position.mkp None None (Some v)
      | _ => Position.mkp None None None
      end
  | addresses =>
      match k with
      | f_street => Address.mkp None (Some v) None None None
      | f_building => Address.mkp None None (Some v) None None
      | f_city => Address.mkp None None None (Some v) None
      | f_postalCode => Address.mkp None None None None (Some v)
      | _ => Address.mkp None None None None None
      end
  | resources =>
      match k with
      | f_title => Resource.mkp None (Some v) None None None None None
      | f_description => Resource.mkp None None (Some v) None None None None
      | f_url => Resource.mkp None None None (Some v) None None None
      | f_icon => Resource.mkp None None None None (Some v) None None
      | f_order => Resource.mkp None None None None None (Some (parseInt v)) None
      | _ => Resource.mkp None None None None None None None
      end
  end.

Definition onFieldInput (sec : section) (k : fkey) (v : jsstr) (fd : item_of sec) : item_of sec :=
  form_input sec (field_patch sec k v) fd.

(** The form data after the inputs [inputs], in order. *)
Definition form_run (sec : section) (inputs : list (fkey * jsstr)) (fd : item_of sec)
  : item_of sec :=
  fold_left (fun fd kv => onFieldInput sec kv.1 kv.2 fd) inputs fd.

(** The submit button's label (line 550). *)
Definition submit_label {sec : section} (ps : PanelState sec) : jsstr :=
  match editingItem ps with Some _ => js "Сохранить" | None => js "Добавить" end.

(** [onCancel={() => setIsDialogOpen(false)}]: the edited record is kept. *)
Definition dialog_cancel {sec : section} (ps : PanelState sec) : PanelState sec :=
  mkPanel false (editingItem ps).

(** [onOpenChange={setIsDialogOpen}] (line 270): the dialog's own close
    (Escape, a click outside, its close button) and its trigger; the
    edited record is kept either way. *)
Definition onOpenChange {sec : section} (b : bool) (ps : PanelState sec) : PanelState sec :=
  mkPanel b (editingItem ps).

(** The dialog opened as [ps]: [FormContent] mounts with [form_init],
    the inputs are typed, and [handleSubmit] calls [onSubmit(formData)]. *)
Definition dialog_submit {S} `{WebStorage S} (sec : section) (now : N) (ps : PanelState sec)
  (inputs : list (fkey * jsstr)) (st : Auth.AuthState (S:=S)) : PanelState sec * Auth.AuthState (S:=S) :=
  dialog_onSubmit sec now ps (form_run sec inputs (form_init sec (editingItem ps))) st.

(** The five sections, in the order of the navigation. *)
Definition all_sections : list section := [ministries; departments; positions; addresses; resources].

(** * Properties *)

(** ** The number text read back by [parseInt] *)

Definition digit_chars (ds : list N) : jsstr := map (fun d => 48 + d)%N ds.

Lemma forall_digits (P : N -> Prop) :
  P 0%N -> P 1%N -> P 2%N -> P 3%N -> P 4%N -> P 5%N -> P 6%N -> P 7%N -> P 8%N -> P 9%N ->
  forall d, (d < 10)%N -> P d.
Proof.
  intros H0 H1 H2 H3 H4 H5 H6 H7 H8 H9 d Hd.
  assert (d = 0 \/ d = 1 \/ d = 2 \/ d = 3 \/ d = 4 \/ d = 5 \/ d = 6 \/ d = 7 \/ d = 8 \/ d = 9)%N
    as Hc by lia.
  by destruct Hc as [->|[->|[->|[->|[->|[->|[->|[->|[->| ->]]]]]]]]].
Qed.

Lemma digit_char_not_ws d : (d < 10)%N -> is_ws (48 + d) = false.
Proof. revert d. apply forall_digits; reflexivity. Qed.

Lemma digit_val_char d : (d < 10)%N -> digit_val (48 + d) = Some d.
Proof. revert d. apply forall_digits; reflexivity. Qed.

Lemma parse_sign_digit d t : (d < 10)%N -> parse_sign ((48 + d) :: t) = (false, (48 + d) :: t)%N.
Proof. revert d. apply forall_digits; reflexivity. Qed.

Lemma parse_radix_nonzero d t :
  (d < 10)%N -> d <> 0%N -> parse_radix ((48 + d) :: t) = (10%N, (48 + d) :: t)%N.
Proof.
  revert d. refine (forall_digits (fun d => d <> 0%N ->
    parse_radix ((48 + d) :: t) = (10%N, (48 + d) :: t)) _ _ _ _ _ _ _ _ _ _);
    intros Hne; [done|..]; reflexivity.
Qed.

Lemma parse_radix_digits ds :
  Forall (fun d => d < 10)%N ds -> parse_radix (digit_chars ds) = (10%N, digit_chars ds).
Proof.
  intros Hds. destruct ds as [|d1 r]; [done|]. apply Forall_cons in Hds as [Hd1 Hr].
  unfold digit_chars; cbn [map]. destruct (decide (d1 = 0%N)) as [->|Hne].
  - destruct r as [|d2 t]; [reflexivity|]. apply Forall_cons in Hr as [Hd2 _].
    assert (Hx : ((48 + d2 =? 120) || (48 + d2 =? 88))%N = false)
      by (apply orb_false_iff; split; apply N.eqb_neq; lia).
    cbn. by rewrite Hx.
  - by apply parse_radix_nonzero.
Qed.

Lemma digits_prefix_chars ds :
  Forall (fun d => d < 10)%N ds -> digits_prefix 10 (digit_chars ds) = ds.
Proof.
  induction 1 as [|d ds Hd _ IH]; [done|]. cbn [digit_chars map digits_prefix].
  rewrite digit_val_char by done. rewrite (proj2 (N.ltb_lt d 10) Hd). by f_equal.
Qed.

Lemma digits_value_snoc ds d : digits_value 10 (ds ++ [d]) = (digits_value 10 ds * 10 + d)%N.
Proof. unfold digits_value. by rewrite fold_left_app. Qed.

(** The digits [pos_digits] prepends, given enough fuel. *)
Lemma pos_digits_spec f n acc :
  (n < 10 ^ N.of_nat f)%N -> (0 < f)%nat ->
  exists ds, pos_digits f n (digit_chars acc) = digit_chars (ds ++ acc) /\
    Forall (fun d => d < 10)%N ds /\ digits_value 10 ds = n.
Proof.
  revert n acc. induction f as [|f IH]; intros n acc Hn Hf; [lia|]. cbn [pos_digits].
  destruct (n <? 10)%N eqn:E.
  - apply N.ltb_lt in E. exists [n]. split; [done|]. split; [by repeat constructor|done].
  - apply N.ltb_ge in E. rewrite Nat2N.inj_succ, N.pow_succ_r' in Hn.
    destruct (IH (n / 10)%N (n mod 10 :: acc)%N) as (ds & Hds & Hall & Hv).
    + apply N.Div0.div_lt_upper_bound. lia.
    + destruct f; [|lia]. simpl in Hn. lia.
    + exists (ds ++ [n mod 10]%N). rewrite <- app_assoc. split; [exact Hds|]. split.
      * apply Forall_app; split; [done|]. constructor; [apply N.mod_lt; lia|done].
      * rewrite digits_value_snoc, Hv. pose proof (N.Div0.div_mod n 10). lia.
Qed.

Lemma pos_lt_pow10 p : (Npos p < 10 ^ N.of_nat (Pos.size_nat p))%N.
Proof.
  induction p as [p IH|p IH|]; cbn [Pos.size_nat]; [| |done];
    rewrite Nat2N.inj_succ, N.pow_succ_r'; lia.
Qed.

(** [N_dec n] is the decimal text of [n]. *)
Lemma N_dec_spec n :
  exists ds, N_dec n = digit_chars ds /\ ds <> [] /\ Forall (fun d => d < 10)%N ds /\
    digits_value 10 ds = n.
Proof.
  destruct n as [|p]; [by exists [0%N]; split_and!; [| |repeat constructor|]|].
  destruct (pos_digits_spec (Pos.size_nat p) (Npos p) [] (pos_lt_pow10 p)) as (ds & Hd & Hall & Hv).
  { destruct p; simpl; lia. }
  exists ds. rewrite app_nil_r in Hd. split_and!; [exact Hd| |done|done].
  intros ->. discriminate Hv.
Qed.

Lemma parseInt_digits (neg : bool) ds :
  ds <> [] -> Forall (fun d => d < 10)%N ds ->
  parseInt ((if neg then [45%N] else []) ++ digit_chars ds) =
  Num (if neg then (- Z.of_N (digits_value 10 ds))%Z else Z.of_N (digits_value 10 ds)).
Proof.
  intros Hne Hall. destruct ds as [|d r]; [done|]. pose proof (Forall_inv Hall) as Hd.
  unfold parseInt.
  assert (Hs : parse_sign (trim_start ((if neg then [45%N] else []) ++ digit_chars (d :: r)))
               = (neg, digit_chars (d :: r))).
  { destruct neg; cbn [app digit_chars map trim_start]; rewrite digit_char_not_ws by done;
      [reflexivity|]. by rewrite parse_sign_digit. }
  rewrite Hs, parse_radix_digits, digits_prefix_chars by done. reflexivity.
Qed.

Lemma parseInt_jsnum_text n : parseInt (jsnum_text n) = n.
Proof.
  destruct n as [z|]; [|reflexivity]. unfold jsnum_text, Z_dec.
  destruct (z <? 0)%Z eqn:Ez.
  - destruct (N_dec_spec (Z.to_N (- z))) as (ds & -> & Hne & Hall & Hv).
    pose proof (parseInt_digits true ds Hne Hall) as Hp. cbn [app] in Hp. rewrite Hp, Hv. apply Z.ltb_lt in Ez. f_equal. lia.
  - destruct (N_dec_spec (Z.to_N z)) as (ds & -> & Hne & Hall & Hv).
    pose proof (parseInt_digits false ds Hne Hall) as Hp. cbn [app] in Hp. rewrite Hp, Hv. apply Z.ltb_ge in Ez. f_equal. lia.
Qed.


(** ** The range of [parseInt] *)

Lemma trim_start_length (s : jsstr) : (length (trim_start s) <= length s)%nat.
Proof. induction s as [|c s IH]; simpl; [lia|]. destruct (is_ws c); simpl; lia. Qed.

Lemma parse_sign_length (s : jsstr) : (length (parse_sign s).2 <= length s)%nat.
Proof. destruct s as [|c t]; [done|]. cbn. repeat case_match; simpl; lia. Qed.

Lemma parse_radix_cases (s : jsstr) :
  ((parse_radix s).1 = 10%N /\ (parse_radix s).2 = s) \/
  ((parse_radix s).1 = 16%N /\ (length (parse_radix s).2 + 2 = length s)%nat).
Proof.
  destruct s as [|c [|x t]]; [by left|cbn; repeat case_match; by left|].
  cbn. repeat case_match; simpl; (by left) || (right; split; [done|lia]).
Qed.

Lemma digits_prefix_spec (r : N) (s : jsstr) :
  Forall (fun d => d < r)%N (digits_prefix r s) /\ (length (digits_prefix r s) <= length s)%nat.
Proof.
  induction s as [|c s [IHa IHl]]; [split; [by apply Forall_nil|simpl; lia]|]. cbn [digits_prefix].
  destruct (digit_val c) as [d|]; [|split; [by apply Forall_nil|simpl; lia]].
  destruct (d <? r)%N eqn:E; [|split; [by apply Forall_nil|simpl; lia]]. apply N.ltb_lt in E.
  split; [by constructor|simpl; lia].
Qed.

Lemma digits_value_acc_lt (r a : N) (ds : list N) :
  Forall (fun d => d < r)%N ds ->
  (fold_left (fun acc d => acc * r + d)%N ds a < (a + 1) * r ^ N.of_nat (length ds))%N.
Proof.
  intros Hds. revert a. induction Hds as [|d ds Hd _ IH]; intros a; simpl; [lia|].
  specialize (IH (a * r + d)%N). rewrite Nat2N.inj_succ, N.pow_succ_r'. nia.
Qed.

Lemma digits_value_lt (r : N) (ds : list N) :
  Forall (fun d => d < r)%N ds -> (digits_value r ds < r ^ N.of_nat (length ds))%N.
Proof. intros Hds. pose proof (digits_value_acc_lt r 0 ds Hds). unfold digits_value. lia. Qed.

(** The digit printer behind [Date.now().toString()] and the order
    column runs on fuel [Pos.size_nat p], the bit length of [p], and that
    fuel is always enough: [N_dec n] is the whole decimal expansion of
    [n], at least one digit, most significant first. *)
Lemma N_dec_complete (n : N) :
  exists ds, N_dec n = digit_chars ds /\ ds <> [] /\ Forall (fun d => d < 10)%N ds /\
    digits_value 10 ds = n.
Proof. apply N_dec_spec. Qed.

(** The value of a run of at most [m] digits of radix [r]. *)
Lemma digits_prefix_value_lt (r m : N) (s : jsstr) :
  (r <> 0)%N -> (N.of_nat (length s) <= m)%N -> (digits_value r (digits_prefix r s) < r ^ m)%N.
Proof.
  intros Hr Hm. destruct (digits_prefix_spec r s) as [Hall Hlen].
  eapply N.lt_le_trans; [by apply digits_value_lt|]. apply N.pow_le_mono_r; [done|lia].
Qed.

(** Every number [parseInt] reads from a string of at most 15 code units
    has an absolute value below 2^53: a double holds it exactly, so on
    such inputs the model's exact integers are JavaScript's. *)
Lemma parseInt_short_exact (s : jsstr) (z : Z) :
  (length s <= 15)%nat -> parseInt s = Num z -> (Z.abs z < 2 ^ 53)%Z.
Proof.
  intros Hl Hp. unfold parseInt in Hp. pose proof (trim_start_length s) as H1.
  pose proof (parse_sign_length (trim_start s)) as H2.
  destruct (parse_sign (trim_start s)) as [neg s1]. cbn in H2.
  pose proof (parse_radix_cases s1) as H3.
  destruct (parse_radix s1) as [r s2]. cbn in H3.
  assert (Hv : (digits_value r (digits_prefix r s2) < 2 ^ 53)%N).
  { destruct H3 as [[-> ->]|[-> H3]].
    - eapply N.lt_le_trans; [apply (digits_prefix_value_lt 10 15); lia|]. by vm_compute.
    - eapply N.lt_le_trans; [apply (digits_prefix_value_lt 16 13); lia|]. by vm_compute. }
  destruct (digits_prefix r s2) as [|d ds]; [discriminate|]. injection Hp as <-.
  destruct neg; lia.
Qed.

(** ** The table and the form *)

Section Form.
Context {S : Type} `{WebStorage S}.
Local Abbreviation st_t := (Auth.AuthState (S:=S)).

Lemma renderTableRow_length sec (st : st_t) x :
  length (renderTableRow sec st x) = length (renderTableHeaders sec).
Proof. destruct sec; [..|destruct (Resource.isActive x)]; reflexivity. Qed.

(** Every row of the table has one cell per column. *)
Lemma table_rows_aligned sec (st : st_t) :
  Forall (fun row => length row.2 = length (renderTableHeaders sec)) (table_view sec st).
Proof.
  unfold table_view. apply Forall_fmap, Forall_forall. intros x _. apply renderTableRow_length.
Qed.

(** A property every input keeps, the whole sequence of inputs keeps. *)
Lemma form_run_ind sec (Q : item_of sec -> Prop) inputs fd :
  (forall k v fd, Q fd -> Q (onFieldInput sec k v fd)) -> Q fd -> Q (form_run sec inputs fd).
Proof.
  intros Hstep. unfold form_run. revert fd.
  induction inputs as [|[k v] inputs IH]; intros fd Hfd; [done|]. cbn [fold_left].
  apply IH. by apply Hstep.
Qed.

Lemma onFieldInput_id sec k v fd : ent_id (onFieldInput sec k v fd) = ent_id fd.
Proof. destruct sec, k; reflexivity. Qed.

(** The form has no [id] input: its record keeps the identifier it
    started with. *)
Lemma form_run_id sec inputs fd : ent_id (form_run sec inputs fd) = ent_id fd.
Proof.
  apply (form_run_ind sec (fun x => ent_id x = ent_id fd)); [|done].
  intros k v x Hx. by rewrite onFieldInput_id.
Qed.

(** The resources form has no [isActive] input. *)
Lemma form_run_isActive inputs (r : Resource.t) :
  Resource.isActive (form_run resources inputs r) = Resource.isActive r.
Proof.
  apply (form_run_ind resources (fun x => Resource.isActive x = Resource.isActive r)); [|done].
  intros k v x Hx. rewrite <- Hx. by destruct k.
Qed.

(** C30: an edit dialog opened on a record of the table saves, under the
    record's identifier, exactly the record its form holds after the
    inputs, and leaves every other lookup of the section as it was. *)
Theorem edit_dialog_saves_form (sec : section) (now : N) (x : item_of sec)
  (inputs : list (fkey * jsstr)) (st : st_t) :
  x ∈ getSectionData sec st ->
  Crud.find_by_id (ent_id x)
    (getSectionData sec (snd (dialog_submit sec now (openEditDialog x) inputs st)))
  = Some (form_run sec inputs x) /\
  forall j, j <> ent_id x ->
    Crud.find_by_id j (getSectionData sec (snd (dialog_submit sec now (openEditDialog x) inputs st)))
    = Crud.find_by_id j (getSectionData sec st).
Proof.
  intros Hx. unfold dialog_submit, dialog_onSubmit, openEditDialog, form_init. cbn [editingItem].
  rewrite handleUpdate_set. cbn [snd]. rewrite get_set_same.
  assert (Hp : default (ent_id x) (ent_patch_id (ent_full (form_run sec inputs x))) = ent_id x)
    by (rewrite full_id; apply form_run_id).
  split.
  - rewrite CrudProps.find_by_id_update, bool_decide_true by done.
    destruct (CrudProps.find_by_id_elem x _ Hx) as [m ->]. cbn. by rewrite spread_full.
  - intros j Hj. by rewrite CrudProps.find_by_id_update, bool_decide_false.
Qed.

(** C31: no dialog can deactivate a resource: when every resource is
    active, adding one or editing one of the table's, whatever is typed
    into the form, leaves every resource active; the form has no input
    for [isActive] and a new resource starts active. *)
Theorem resources_stay_active (now : N) (ps : PanelState resources)
  (inputs : list (fkey * jsstr)) (st : st_t) :
  (ps = openAddDialog resources \/ exists x, x ∈ Auth.resources st /\ ps = openEditDialog x) ->
  Forall (fun r => Resource.isActive r = true) (Auth.resources st) ->
  Forall (fun r => Resource.isActive r = true)
    (Auth.resources (snd (dialog_submit resources now ps inputs st))).
Proof.
  intros Hps Hall. change (Auth.resources (snd ?s)) with (getSectionData resources (snd s)).
  destruct Hps as [->|(x & Hx & ->)]; unfold dialog_submit, dialog_onSubmit;
    cbn [editingItem openAddDialog openEditDialog form_init].
  - rewrite handleAdd_set. cbn [snd]. rewrite get_set_same. unfold Crud.add_item.
    apply Forall_app; split; [exact Hall|]. apply Forall_singleton.
    cbn [ent_with_id section_entity Resource_entity Resource.with_id Resource.isActive].
    by rewrite form_run_isActive.
  - rewrite handleUpdate_set. cbn [snd]. rewrite get_set_same. unfold Crud.update_item.
    apply Forall_fmap, Forall_forall. intros m Hm. unfold compose.
    rewrite Forall_forall in Hall. case_bool_decide; [|by apply Hall].
    rewrite spread_full, form_run_isActive. by apply Hall.
Qed.

End Form.

(** The order the table shows ([String(order)], line 243), typed
    back into the order input, reads back through [parseInt] as the same
    order, [NaN] included. *)
Lemma order_input_roundtrip (r : Resource.t) :
  Resource.order (onFieldInput resources f_order (jsnum_text (Resource.order r)) r)
  = Resource.order r.
Proof. change (parseInt (jsnum_text (Resource.order r)) = Resource.order r). apply parseInt_jsnum_text. Qed.

(** An emptied order input stores [parseInt('')], [NaN], which the
    dashboard's comparator finds neither greater nor smaller than any
    order. *)
Lemma order_cleared_nan (r b : Resource.t) :
  Resource.order (onFieldInput resources f_order [] r) = NaN /\
  Dashboard.order_gt (onFieldInput resources f_order [] r) b = false /\
  Dashboard.order_gt b (onFieldInput resources f_order [] r) = false.
Proof.
  assert (Hn : Resource.order (onFieldInput resources f_order [] r) = NaN) by reflexivity.
  split_and!; [exact Hn| |]; unfold Dashboard.order_gt; rewrite Hn; [done|].
  by destruct (Resource.order b).
Qed.

(** The add dialog's title is ["Добавить "] and the section title
    lower-cased with its last letter cut off, which gives a word only for
    the addresses: the others read "министерств", "подразделени",
    "должност" and "ресурсы портал". *)
Lemma dialog_titles_add :
  map (fun sec => dialog_title sec (openAddDialog sec)) all_sections =
  [js "Добавить министерств"; js "Добавить подразделени"; js "Добавить должност";
   js "Добавить адрес"; js "Добавить ресурсы портал"].
Proof. vm_compute. reflexivity. Qed.

(** * Witnesses, on the provider's first state over the browser's storage. *)

Lemma edit_dialog_saves_form_witness :
  med ∈ getSectionData ministries (Auth.initial_state (empty_storage 1000)) /\
  Crud.find_by_id (js "1") (getSectionData ministries
    (snd (dialog_submit ministries 0 (openEditDialog (sec:=ministries) med) [(f_code, js "MER")]
            (Auth.initial_state (empty_storage 1000)))))
  = Some (Ministry.mk (js "1") (js "Министерство экономического развития") (js "MER")).
Proof.
  assert (med ∈ getSectionData ministries (Auth.initial_state (empty_storage 1000)))
    as Hin by (apply elem_of_cons; left; reflexivity).
  split; [exact Hin|].
  etransitivity; [exact (proj1 (edit_dialog_saves_form ministries 0 med [(f_code, js "MER")] _ Hin))|].
  reflexivity.
Defined.

Lemma resources_stay_active_witness :
  Forall (fun r => Resource.isActive r = true) (Auth.resources (Auth.initial_state (empty_storage 1000))) /\
  Forall (fun r => Resource.isActive r = true)
    (Auth.resources (snd (dialog_submit resources 7 (openAddDialog resources)
       [(f_title, js "Почта"); (f_order, [])] (Auth.initial_state (empty_storage 1000))))).
Proof.
  assert (Forall (fun r => Resource.isActive r = true)
            (Auth.resources (Auth.initial_state (empty_storage 1000)))) as Hall
    by (repeat constructor).
  split; [exact Hall|]. exact (resources_stay_active 7 _ _ _ (or_introl eq_refl) Hall).
Defined.

End AdminView.
