(* ===== verification/App.v ===== *)
(** * The whole application as a state machine

    [Portal] holds [currentView]; the provider holds the session and the
    reference data; [LoginForm] holds its three fields while it is
    mounted.  [Module App] composes the components into one step function
    over [AppState], one event per thing a user can do on the screen
    [Portal] shows:
    - [E_Reload]: a page load: [Portal] and the provider mount afresh
      ([currentView] back to ['dashboard'], lines 12-13 of Portal.tsx)
      over the storage the browser kept, and the start-up effect runs;
    - [E_Login]: the login form's submit, on the login screen;
    - [E_Logout]: the header's logout item (Header.tsx line 92), on the
      main screen;
    - [E_Navigate]: a navigation button ([onViewChange = setCurrentView],
      Portal.tsx line 70), for the items the menu shows;
    - [E_SubmitProfile]: the first-login form's submit, on that screen;
    - [E_Add], [E_Update], [E_Delete]: the administration screen's
      handlers, on the screen of their section.
    A component that [Portal] stops rendering loses its state: the login
    event ([login_event]) runs [LoginForm]'s [handleSubmit] up to its
    [await], asks what [Portal] renders at that moment, and keeps the
    form's state only if that is still the login screen; since [login]
    sets [isLoading] first, [Portal] shows its spinner instead, and the
    form comes back empty after [login] returns.

    The session part of the state is related to the state machine of the
    specification (Unauthenticated / PendingProfile / Active, with the
    record saved for the next start): [reachable_synced] shows that, as
    long as saving cannot fail, the saved record always describes the
    live session, [app_refines] that every step of the program is a
    step of the specification's machine, and [reachable_not_loading]
    that the spinner never stays: every reachable state has
    [isLoading = false].  [logout_login_keeps_view] and
    its witness show a step the machine cannot see: the view an
    administrator left open survives logout and is shown to the next
    user, whatever that user's role. *)

From stdpp Require Import base list strings sets.
From Stdlib Require Import NArith.
From S2P Require Import Prelude JsLib Types Json Storage Auth FirstLoginForm RefData AdminPanel Screens.

Local Set Warnings "-clear-no-such-hyp".

Module App.
Import Portal.

(** What the user does. *)
Inductive event :=
| E_Reload
| E_Login (domain password : jsstr)
| E_Logout
| E_Navigate (view : jsstr)
| E_SubmitProfile (fd : FirstLoginForm.FormData)
| E_Add (sec : AdminPanel.section) (now : N) (x : AdminPanel.item_of sec)
| E_Update (sec : AdminPanel.section) (id : jsstr) (p : AdminPanel.patch_of sec)
| E_Delete (sec : AdminPanel.section) (id : jsstr).

(** The specification's session states. *)
Inductive Session := Unauthenticated | PendingProfile | Active.

#[export] Instance Session_eq_dec : EqDecision Session.
Proof. solve_decision. Defined.

(** The session a user value stands for. *)
Definition classify (v : json) : Session :=
  if Auth.json_falsy v then Unauthenticated
  else if prop_truthy v (js "isFirstLogin") then PendingProfile
  else Active.

Section Machine.
Context {S : Type} `{WebStorage S}.
Local Abbreviation st_t := (Auth.AuthState (S:=S)).

Record AppState := mkApp {
  auth : st_t;
  currentView : jsstr;
  loginForm : LoginForm.LoginState
}.

(** The login form as it mounts (LoginForm.tsx lines 11-13). *)
Definition fresh_login : LoginForm.LoginState := LoginForm.mkLoginState [] [] [].

(** A page load over the storage [store]. *)
Definition boot (store : S) : AppState :=
  mkApp (fst (Auth.restore (Auth.initial_state store))) (js "dashboard") fresh_login.

(** The screen [Portal] shows. *)
Definition screen (s : AppState) : Screen := portal_screen (auth s) (currentView s).

(** The login form's submit with the fields [d] and [p]: [handleSubmit]
    runs up to its [await]; [Portal] then renders the provider's state
    of that moment, and unless that is still the login screen the form
    unmounts, its state is lost and the [setError] after the [await] has
    no form to update; the form that mounts later starts empty. *)
Definition login_event (d p : jsstr) (s : AppState) : AppState :=
  let '(ls1, st1, waits) :=
    LoginForm.submit_start (LoginForm.mkLoginState d p (LoginForm.error (loginForm s))) (auth s) in
  let '(ls2, st2) := if waits then LoginForm.submit_finish ls1 st1 else (ls1, st1) in
  mkApp st2 (currentView s)
    (match portal_screen st1 (currentView s) with LoginScreen => ls2 | _ => fresh_login end).

Definition app_step (e : event) (s : AppState) : option AppState :=
  match e, screen s with
  | E_Reload, _ => Some (boot (Auth.storage (auth s)))
  | E_Login d p, LoginScreen => Some (login_event d p s)
  | E_Logout, MainScreen _ => Some (mkApp (Auth.logout (auth s)) (currentView s) fresh_login)
  | E_Navigate v, MainScreen _ =>
      if bool_decide (v ∈ map Navigation.nav_id (Navigation.filteredNavigation (Auth.user (auth s))))
      then Some (mkApp (auth s) v (loginForm s)) else None
  | E_SubmitProfile fd, FirstLoginScreen =>
      Some (mkApp (snd (FirstLoginForm.handleSubmit (auth s)
                          (FirstLoginForm.mkFormState fd [] false) (auth s)))
              (currentView s) (loginForm s))
  | E_Add sec now x, MainScreen (C_AdminPanel sec') =>
      if bool_decide (sec = sec') then
        Some (mkApp (snd (AdminPanel.handleAdd sec now x (AdminPanel.openAddDialog sec) (auth s)))
                (currentView s) (loginForm s))
      else None
  | E_Update sec id p, MainScreen (C_AdminPanel sec') =>
      if bool_decide (sec = sec') then
        Some (mkApp (snd (AdminPanel.handleUpdate sec id p (AdminPanel.openAddDialog sec) (auth s)))
                (currentView s) (loginForm s))
      else None
  | E_Delete sec id, MainScreen (C_AdminPanel sec') =>
      if bool_decide (sec = sec') then
        Some (mkApp (AdminPanel.handleDelete sec id (auth s)) (currentView s) (loginForm s))
      else None
  | _, _ => None
  end.

(** A sequence of events, stopping at the first one the screen does not
    offer. *)
Fixpoint run_events (es : list event) (s : AppState) : option AppState :=
  match es with
  | [] => Some s
  | e :: r => match app_step e s with Some s' => run_events r s' | None => None end
  end.

(** A storage the program itself could have written: no record, or the
    text of a well-formed value. *)
Definition store_ok (store : S) : Prop :=
  match getItem store Auth.key_user with
  | None => True
  | Some t => exists v, json_wfb v = true /\ t = stringify v
  end.

Inductive reachable : AppState -> Prop :=
| r_boot store : store_ok store -> reachable (boot store)
| r_step s e s' : reachable s -> app_step e s = Some s' -> reachable s'.

(** ** The specification's machine *)

Definition current_session (st : st_t) : Session :=
  if Auth.isAuthenticated st then classify (Auth.user st) else Unauthenticated.

(** The session the next page load would restore. *)
Definition saved_session (store : S) : Session :=
  match getItem store Auth.key_user with
  | None => Unauthenticated
  | Some t => if str_falsy t then Unauthenticated
              else match parse_json t with Normal v => classify v | Throw _ => Unauthenticated end
  end.

Definition abs (s : AppState) : Session * Session :=
  (current_session (auth s), saved_session (Auth.storage (auth s))).

End Machine.


(** Section 4.3 of the specification, with the saved record: a login
    from no session, the completion of a pending profile, a logout from
    anywhere, a restart that restores what was saved, and steps that
    change nothing. *)
Inductive spec_step : Session * Session -> Session * Session -> Prop :=
| sp_stay a : spec_step a a
| sp_login saved c : c <> Unauthenticated -> spec_step (Unauthenticated, saved) (c, c)
| sp_complete : spec_step (PendingProfile, PendingProfile) (Active, Active)
| sp_logout c saved : spec_step (c, saved) (Unauthenticated, Unauthenticated)
| sp_restart c saved : spec_step (c, saved) (saved, saved).

(** ** Runs used by the witnesses, over a storage without quota *)

Definition step_or {S} `{WebStorage S} (e : event) (s : AppState (S:=S)) : AppState (S:=S) :=
  default s (app_step e s).

Definition ms0 : AppState (S:=MapStorage) := boot (mkMapStorage ∅).

Definition admin_in_ministries : AppState (S:=MapStorage) :=
  step_or (E_Navigate (js "ministries")) (step_or (E_Login (js "admin@gov27.ru") (js "password")) ms0).

Definition after_logout : AppState (S:=MapStorage) := step_or E_Logout admin_in_ministries.

Definition ivanov_in : AppState (S:=MapStorage) :=
  step_or (E_Login (js "ivanov@gov27.ru") (js "password")) after_logout.

Definition after_bad_login : AppState (S:=MapStorage) :=
  step_or (E_Login (js "ivanov@gov27.ru") (js "secret")) ms0.

Definition admin_in : AppState (S:=MapStorage) :=
  step_or (E_Login (js "admin@gov27.ru") (js "password")) ms0.

(** * Properties *)

Lemma forallb_obj_set {V} (P : jsstr * V -> bool) k v (o : jsobj V) :
  forallb P o = true -> P (k, v) = true -> forallb P (obj_set k v o) = true.
Proof.
  induction o as [|[k' v'] o IH]; simpl; intros Ho Hk; [by rewrite Hk|].
  apply andb_true_iff in Ho as [H1 H2]. destruct (decide (k = k')); simpl.
  - by rewrite Hk, H2.
  - rewrite H1. by apply IH.
Qed.

Lemma json_wfb_obj_set l k x :
  json_wfb (JObj l) = true -> forallb (fun c => c <? 65536)%N k = true -> json_wfb x = true ->
  json_wfb (JObj (obj_set k x l)) = true.
Proof.
  simpl. intros [Hnd Hall]%andb_true_iff Hk Hx. apply andb_true_iff. split.
  - apply bool_decide_eq_true. apply bool_decide_eq_true in Hnd. by apply obj_set_keys_NoDup.
  - apply forallb_obj_set; [done|]. by rewrite Hk, Hx.
Qed.

Section Props.
Context {S : Type} `{WebStorageLaws S}.
Local Abbreviation st_t := (Auth.AuthState (S:=S)).

(** The saved record describes the live session: no record and no
    authenticated user, or the text of a well-formed value that is the
    authenticated user. *)
Definition synced (st : st_t) : Prop :=
  match getItem (Auth.storage st) Auth.key_user with
  | None => Auth.isAuthenticated st = false
  | Some t => exists v, json_wfb v = true /\ t = stringify v /\
                Auth.user st = v /\ Auth.isAuthenticated st = true
  end.

Lemma synced_store_ok (st : st_t) : synced st -> store_ok (Auth.storage st).
Proof.
  unfold synced, store_ok. destruct (getItem _ _); [|done]. naive_solver.
Qed.

Lemma boot_synced (store : S) : store_ok store -> synced (auth (boot store)).
Proof.
  unfold store_ok, synced, boot. destruct (getItem store Auth.key_user) as [t|] eqn:Eg.
  - intros (v & Hwf & ->). rewrite (Auth.restore_initial_saved v store Hwf Eg).
    cbn [auth fst Auth.storage Auth.user Auth.isAuthenticated]. rewrite Eg. eauto.
  - intros _. unfold Auth.restore. cbn [auth Auth.storage Auth.initial_state]. rewrite Eg.
    cbn [fst Auth.set_isLoading Auth.initial_state Auth.storage Auth.isAuthenticated]. by rewrite Eg.
Qed.

Lemma synced_abs (st : st_t) :
  synced st -> current_session st = saved_session (Auth.storage st).
Proof.
  unfold synced, current_session, saved_session.
  destruct (getItem _ _) as [t|]; [|by intros ->].
  intros (v & Hwf & -> & -> & ->). rewrite Auth.stringify_not_falsy by done.
  by rewrite parse_json_of_stringify.
Qed.

(** Two states with the same session part. *)
Definition same_session (st st' : st_t) : Prop :=
  Auth.user st' = Auth.user st /\ Auth.isAuthenticated st' = Auth.isAuthenticated st /\
  Auth.storage st' = Auth.storage st.

Lemma same_session_synced st st' : same_session st st' -> synced st -> synced st'.
Proof. intros (Hu & Ha & Hs). unfold synced. by rewrite Hu, Ha, Hs. Qed.

Lemma same_session_current st st' :
  same_session st st' -> current_session st' = current_session st /\
  saved_session (Auth.storage st') = saved_session (Auth.storage st).
Proof. intros (Hu & Ha & Hs). unfold current_session. by rewrite Hu, Ha, Hs. Qed.

Lemma session_of_same (st st' : st_t) :
  AdminPanel.session_of st' = AdminPanel.session_of st -> same_session st st'.
Proof. unfold AdminPanel.session_of. intros [= ? ? ? ?]. done. Qed.

Lemma screen_login (s : AppState) :
  screen s = LoginScreen -> current_session (auth s) = Unauthenticated.
Proof.
  unfold screen, portal_screen, current_session, classify.
  destruct (Auth.isLoading _); [discriminate|].
  destruct (Auth.isAuthenticated _), (Auth.json_falsy _); simpl; try done.
  by destruct (prop_truthy _ _).
Qed.

Lemma screen_first_login (s : AppState) :
  screen s = FirstLoginScreen ->
  Auth.isAuthenticated (auth s) = true /\ classify (Auth.user (auth s)) = PendingProfile.
Proof.
  unfold screen, portal_screen, classify.
  destruct (Auth.isLoading _); [discriminate|].
  destruct (Auth.isAuthenticated _), (Auth.json_falsy _); simpl; try discriminate.
  by destruct (prop_truthy _ _).
Qed.

(** The provider's state after the login form's submit. *)
Lemma handleSubmit_snd d p e (st : st_t) :
  snd (LoginForm.handleSubmit (LoginForm.mkLoginState d p e) st) =
  if str_falsy d || str_falsy p then st else fst (Auth.login_finish d p (Auth.login_start st)).
Proof.
  unfold LoginForm.handleSubmit, LoginForm.submit_start, LoginForm.submit_finish.
  cbn [LoginForm.domain LoginForm.password].
  destruct (str_falsy d || str_falsy p); cbv iota beta; [done|].
  cbn [LoginForm.domain LoginForm.password].
  by destruct (Auth.login_finish d p (Auth.login_start st)) as [st' [[]|]].
Qed.

(** The login event changes the provider's state as [handleSubmit] does,
    and keeps the view. *)
Lemma login_event_auth d p (s : AppState) :
  auth (login_event d p s) =
    snd (LoginForm.handleSubmit (LoginForm.mkLoginState d p (LoginForm.error (loginForm s))) (auth s)) /\
  currentView (login_event d p s) = currentView s.
Proof.
  unfold login_event, LoginForm.handleSubmit.
  destruct (LoginForm.submit_start _ _) as [[ls1 st1] []]; [|by simpl].
  by destruct (LoginForm.submit_finish ls1 st1).
Qed.

(** A user value of the form the first-login gate completes. *)
Lemma classify_completed l :
  classify (JObj (Auth.obj_merge l [(js "isFirstLogin", JBool false)])) = Active.
Proof.
  unfold classify, prop_truthy. cbn [Auth.json_falsy Auth.json_get Auth.obj_merge fold_left].
  by rewrite obj_get_set_eq.
Qed.

Lemma spec_step_diag (c c' : Session) :
  c' = c \/ c' = Unauthenticated \/ (c = Unauthenticated) \/ (c = PendingProfile /\ c' = Active) ->
  spec_step (c, c) (c', c').
Proof.
  intros [->|[->|[->|[-> ->]]]]; [constructor|constructor|..].
  - destruct c'; [constructor|constructor; discriminate|constructor; discriminate].
  - constructor.
Qed.

Lemma persist_loading v (st : st_t) : Auth.isLoading (fst (Auth.persist v st)) = Auth.isLoading st.
Proof. unfold Auth.persist. by destruct (setItem _ _ _). Qed.

Lemma boot_loading (store : S) : store_ok store -> Auth.isLoading (auth (boot store)) = false.
Proof.
  unfold store_ok, boot. destruct (getItem store Auth.key_user) as [t|] eqn:Eg.
  - intros (v & Hwf & ->). by rewrite (Auth.restore_initial_saved v store Hwf Eg).
  - intros _. unfold Auth.restore. cbn [Auth.storage Auth.initial_state]. by rewrite Eg.
Qed.

(** The first-login submit leaves the loading flag of the provider alone. *)
Lemma submit_loading fd (st : st_t) :
  Auth.isLoading (snd (FirstLoginForm.handleSubmit st (FirstLoginForm.mkFormState fd [] false) st))
  = Auth.isLoading st.
Proof.
  unfold FirstLoginForm.handleSubmit. cbn [FirstLoginForm.formData].
  destruct (FirstLoginForm.validateForm fd) as [[] errs]; cbn [negb snd]; [|done].
  unfold Auth.updateUserProfile, Auth.completeFirstLogin.
  destruct (Auth.json_falsy (Auth.user st)); [done|].
  destruct (Auth.persist _ _) as [st1 o] eqn:E.
  pose proof (f_equal (fun x => Auth.isLoading (fst x)) E) as Hl.
  cbv beta in Hl. rewrite persist_loading in Hl. cbn [fst Auth.isLoading Auth.set_user] in Hl.
  destruct o; cbn [fst]; [|done]. by rewrite persist_loading.
Qed.

Lemma crud_loading (st st' : st_t) (sec : AdminPanel.section) :
  (exists now x, st' = snd (AdminPanel.handleAdd sec now x (AdminPanel.openAddDialog sec) st)) \/
  (exists id p, st' = snd (AdminPanel.handleUpdate sec id p (AdminPanel.openAddDialog sec) st)) \/
  (exists id, st' = AdminPanel.handleDelete sec id st) ->
  Auth.isLoading st' = Auth.isLoading st.
Proof.
  intros [(now & x & ->)|[(id & p & ->)|(id & ->)]];
    rewrite ?AdminPanel.handleAdd_set, ?AdminPanel.handleUpdate_set, ?AdminPanel.handleDelete_set;
    exact (f_equal (fun x => x.1.2) (AdminPanel.session_set _ _ st)).
Qed.

Section NoQuota.
(** Saving never fails. *)
Hypothesis set_total : forall (s : S) k v, exists s', setItem s k v = Normal s'.

Lemma login_synced d p e (st : st_t) :
  synced st -> current_session st = Unauthenticated ->
  let st' := snd (LoginForm.handleSubmit (LoginForm.mkLoginState d p e) st) in
  synced st' /\ (same_session st st' \/ current_session st' <> Unauthenticated).
Proof.
  intros Hs Hc st'. subst st'. rewrite handleSubmit_snd.
  destruct (str_falsy d || str_falsy p); [split; [done|by left; split_and!]|].
  destruct (Auth.login_rejected d p) eqn:Er.
  { rewrite Auth.login_finish_rejected by done. split; [done|]. left. by split_and!. }
  unfold Auth.login_rejected in Er. apply negb_false_iff, andb_true_iff in Er as [Ef Ep].
  apply bool_decide_eq_true in Ef as [u Ef], Ep.
  rewrite (Auth.login_finish_found d p u) by done. cbn [Auth.login_start Auth.storage Auth.set_isLoading].
  destruct (set_total (Auth.storage st) Auth.key_user (stringify (Auth.user_to_json u))) as [s' Hs'].
  rewrite Hs'. cbn [fst]. split.
  - unfold synced. cbn [Auth.storage Auth.set_isLoading Auth.set_storage Auth.set_isAuthenticated Auth.set_user Auth.user Auth.isAuthenticated].
    rewrite (get_set_eq _ _ _ _ Hs'). exists (Auth.user_to_json u).
    split_and!; try done. apply Auth.mock_users_wf. by apply Auth.find_user_spec in Ef as [? _].
  - right. unfold current_session, classify. cbn [Auth.storage Auth.set_isLoading Auth.set_storage Auth.set_isAuthenticated Auth.set_user Auth.user Auth.isAuthenticated].
    by destruct (prop_truthy _ _).
Qed.

Lemma prop_truthy_obj v k : prop_truthy v k = true -> exists l, v = JObj l.
Proof. unfold prop_truthy. destruct v; try discriminate. eauto. Qed.

Lemma submit_synced fd (st : st_t) :
  synced st -> Auth.isAuthenticated st = true -> classify (Auth.user st) = PendingProfile ->
  let st' := snd (FirstLoginForm.handleSubmit st (FirstLoginForm.mkFormState fd [] false) st) in
  synced st' /\ (same_session st st' \/ current_session st' = Active).
Proof.
  intros Hs Ha Hc st'. subst st'.
  assert (exists l, Auth.user st = JObj l) as [l Hu].
  { unfold classify in Hc. destruct (Auth.json_falsy _); [discriminate|].
    destruct (prop_truthy _ _) eqn:E; [by apply prop_truthy_obj in E|discriminate]. }
  assert (json_wfb (JObj l) = true) as Hwf.
  { unfold synced in Hs. destruct (getItem _ _); [|congruence].
    destruct Hs as (v & Hv & _ & Huv & _). by rewrite <- Hu, Huv. }
  unfold FirstLoginForm.handleSubmit. cbn [FirstLoginForm.formData].
  destruct (FirstLoginForm.validateForm fd) as [[] errs]; cbn [negb snd];
    [|split; [done|by left; split_and!]].
  unfold Auth.updateUserProfile, Auth.completeFirstLogin. rewrite Hu. cbn [Auth.json_falsy Auth.own_props].
  unfold Auth.persist.
  match goal with |- context [setItem ?a ?b ?c] =>
    destruct (set_total a b c) as [s1 E1]; rewrite E1 end.
  cbn [fst].
  match goal with |- context [setItem ?a ?b ?c] =>
    destruct (set_total a b c) as [s2 E2]; rewrite E2 end.
  cbn [fst]. split.
  - unfold synced. cbn [Auth.storage Auth.set_isLoading Auth.set_storage Auth.set_isAuthenticated Auth.set_user Auth.user Auth.isAuthenticated].
    rewrite (get_set_eq _ _ _ _ E2). eexists. split_and!; [|done|done|by rewrite Ha].
    change (Auth.obj_merge l [(js "isFirstLogin", JBool false)])
      with (obj_set (js "isFirstLogin") (JBool false) l).
    apply json_wfb_obj_set; [done| |done]. vm_compute. reflexivity.
  - right. unfold current_session. cbn [Auth.storage Auth.set_isLoading Auth.set_storage Auth.set_isAuthenticated Auth.set_user Auth.user Auth.isAuthenticated]. rewrite Ha. apply classify_completed.
Qed.

Lemma crud_same (st st' : st_t) (sec : AdminPanel.section) :
  (exists now x, st' = snd (AdminPanel.handleAdd sec now x (AdminPanel.openAddDialog sec) st)) \/
  (exists id p, st' = snd (AdminPanel.handleUpdate sec id p (AdminPanel.openAddDialog sec) st)) \/
  (exists id, st' = AdminPanel.handleDelete sec id st) ->
  same_session st st'.
Proof.
  intros [(now & x & ->)|[(id & p & ->)|(id & ->)]]; apply session_of_same;
    rewrite ?AdminPanel.handleAdd_set, ?AdminPanel.handleUpdate_set, ?AdminPanel.handleDelete_set;
    apply AdminPanel.session_set.
Qed.

Lemma logout_synced (st : st_t) : synced (Auth.logout st) /\ current_session (Auth.logout st) = Unauthenticated.
Proof.
  unfold synced, current_session, Auth.logout.
  cbn [Auth.storage Auth.set_storage Auth.isAuthenticated Auth.set_isAuthenticated Auth.set_user].
  by rewrite get_remove_eq.
Qed.

Lemma same_rel (st st' : st_t) :
  synced st -> same_session st st' ->
  synced st' /\ current_session st' = current_session st.
Proof.
  intros Hs Hsame. split; [by apply (same_session_synced st)|].
  by apply same_session_current.
Qed.

(** One step keeps the record in step with the session, and changes the
    session only as the specification's machine allows. *)
Lemma step_sync_rel (s s' : AppState) (e : event) :
  synced (auth s) -> app_step e s = Some s' ->
  synced (auth s') /\
  (current_session (auth s') = current_session (auth s) \/
   current_session (auth s') = Unauthenticated \/
   current_session (auth s) = Unauthenticated \/
   (current_session (auth s) = PendingProfile /\ current_session (auth s') = Active)).
Proof.
  intros Hs Hstep. unfold app_step in Hstep.
  destruct e as [|d p| |v|fd|sec now x|sec id p|sec id].
  - injection Hstep as <-.
    assert (Hb : synced (auth (boot (Auth.storage (auth s)))))
      by (apply boot_synced, synced_store_ok, Hs).
    split; [done|]. left. rewrite (synced_abs _ Hb), (synced_abs _ Hs).
    unfold boot. cbn [auth]. unfold Auth.restore.
    cbn [Auth.storage Auth.initial_state].
    by destruct (getItem _ _) as [t|]; [destruct (str_falsy t), (parse_json t)|].
  - destruct (screen s) eqn:Esc; try discriminate.
    injection Hstep as <-. rewrite (proj1 (login_event_auth d p s)).
    destruct (login_synced d p (LoginForm.error (loginForm s)) (auth s) Hs (screen_login s Esc))
      as [Hs' _].
    split; [done|]. right. right. left. by apply screen_login.
  - destruct (screen s) eqn:Esc; try discriminate. injection Hstep as <-. cbn [auth].
    destruct (logout_synced (auth s)) as [H1 H2]. split; [done|]. by right; left.
  - destruct (screen s) eqn:Esc; try discriminate. case_bool_decide; [|discriminate].
    injection Hstep as <-. cbn [auth]. split; [done|]. by left.
  - destruct (screen s) eqn:Esc; try discriminate. injection Hstep as <-. cbn [auth].
    destruct (screen_first_login s Esc) as [Ha Hc].
    destruct (submit_synced fd (auth s) Hs Ha Hc) as [Hs' [Hsame|Hact]].
    + split; [done|]. left. by apply same_session_current.
    + split; [done|]. right. right. right. split; [|done].
      unfold current_session. by rewrite Ha.
  - destruct (screen s) as [| | |[| | |sec']] eqn:Esc; try discriminate.
    case_bool_decide; [|discriminate]. injection Hstep as <-. cbn [auth].
    match goal with |- synced ?st' /\ _ =>
      destruct (same_rel (auth s) st' Hs) as [? ?]; [apply (crud_same _ _ sec); left; eauto|] end.
    split; [done|]. by left.
  - destruct (screen s) as [| | |[| | |sec']] eqn:Esc; try discriminate.
    case_bool_decide; [|discriminate]. injection Hstep as <-. cbn [auth].
    match goal with |- synced ?st' /\ _ =>
      destruct (same_rel (auth s) st' Hs) as [? ?]; [apply (crud_same _ _ sec); right; left; eauto|] end.
    split; [done|]. by left.
  - destruct (screen s) as [| | |[| | |sec']] eqn:Esc; try discriminate.
    case_bool_decide; [|discriminate]. injection Hstep as <-. cbn [auth].
    match goal with |- synced ?st' /\ _ =>
      destruct (same_rel (auth s) st' Hs) as [? ?]; [apply (crud_same _ _ sec); right; right; eauto|] end.
    split; [done|]. by left.
Qed.

Lemma reachable_sync (s : AppState) : reachable s -> synced (auth s).
Proof.
  induction 1 as [store Hok|s e s' _ IH Hstep]; [by apply boot_synced|].
  by apply (step_sync_rel s s' e).
Qed.

(** C3: as long as saving cannot fail, in every reachable state the
    saved record describes the live session: no record and no
    authenticated user, or the record of the authenticated user. *)
Theorem reachable_synced (s : AppState) : reachable s -> synced (auth s).
Proof. apply reachable_sync. Qed.

(** C2: as long as saving cannot fail, every step of the application from
    a reachable state is a step of the specification's session machine
    (login from no session, completion of a pending profile, logout,
    restart, or no change), on the live session and the saved one. *)
Theorem app_refines (s s' : AppState) (e : event) :
  reachable s -> app_step e s = Some s' -> spec_step (abs s) (abs s').
Proof.
  intros Hr Hstep. pose proof (reachable_sync s Hr) as Hs.
  destruct (step_sync_rel s s' e Hs Hstep) as [Hs' Hrel].
  unfold abs. rewrite <- (synced_abs _ Hs), <- (synced_abs _ Hs'). by apply spec_step_diag.
Qed.

(** A filled-in login ends the loading it started when saving succeeds. *)
Lemma login_loading d p e (st : st_t) :
  Auth.isLoading st = false ->
  Auth.isLoading (snd (LoginForm.handleSubmit (LoginForm.mkLoginState d p e) st)) = false.
Proof.
  intros Hl. rewrite handleSubmit_snd. destruct (str_falsy d || str_falsy p); [done|].
  destruct (Auth.login_rejected d p) eqn:Er.
  { by rewrite Auth.login_finish_rejected by done. }
  unfold Auth.login_rejected in Er. apply negb_false_iff, andb_true_iff in Er as [Ef Ep].
  apply bool_decide_eq_true in Ef as [u Ef], Ep.
  rewrite (Auth.login_finish_found d p u) by done.
  by destruct (set_total (Auth.storage (Auth.login_start st)) Auth.key_user
                 (stringify (Auth.user_to_json u))) as [s' ->].
Qed.

Lemma step_loading (s s' : AppState) (e : event) :
  synced (auth s) -> Auth.isLoading (auth s) = false -> app_step e s = Some s' ->
  Auth.isLoading (auth s') = false.
Proof.
  intros Hs Hl Hstep. unfold app_step in Hstep.
  destruct e as [|d p| |v|fd|sec now x|sec id p|sec id].
  - injection Hstep as <-. by apply boot_loading, synced_store_ok.
  - destruct (screen s); try discriminate. injection Hstep as <-.
    rewrite (proj1 (login_event_auth d p s)). by apply login_loading.
  - destruct (screen s); try discriminate. by injection Hstep as <-.
  - destruct (screen s); try discriminate. case_bool_decide; [|discriminate].
    by injection Hstep as <-.
  - destruct (screen s); try discriminate. injection Hstep as <-. cbn [auth].
    by rewrite submit_loading.
  - destruct (screen s) as [| | |[| | |sec']]; try discriminate.
    case_bool_decide; [|discriminate]. injection Hstep as <-. cbn [auth].
    rewrite (crud_loading (auth s) _ sec); [done|]. left. eauto.
  - destruct (screen s) as [| | |[| | |sec']]; try discriminate.
    case_bool_decide; [|discriminate]. injection Hstep as <-. cbn [auth].
    rewrite (crud_loading (auth s) _ sec); [done|]. right. left. eauto.
  - destruct (screen s) as [| | |[| | |sec']]; try discriminate.
    case_bool_decide; [|discriminate]. injection Hstep as <-. cbn [auth].
    rewrite (crud_loading (auth s) _ sec); [done|]. right. right. eauto.
Qed.

(** C4: as long as saving cannot fail, the portal never stays on its
    loading screen: every reachable state, after a page load and after
    every event, shows the login form, the first-login form or the main
    layout. *)
Theorem reachable_not_loading (s : AppState) : reachable s -> screen s <> Loading.
Proof.
  intros Hr. assert (Hl : Auth.isLoading (auth s) = false).
  { induction Hr as [store Hok|s e s' Hr IH Hstep]; [by apply boot_loading|].
    eapply step_loading; [apply reachable_sync, Hr|exact IH|exact Hstep]. }
  unfold screen, portal_screen. rewrite Hl. case_match; [done|]. by case_match.
Qed.

End NoQuota.

Lemma screen_active (s : AppState) :
  Auth.isLoading (auth s) = false -> current_session (auth s) = Active ->
  screen s = MainScreen (renderContent (currentView s)).
Proof.
  unfold screen, portal_screen, current_session, classify. intros ->.
  destruct (Auth.isAuthenticated _); [|discriminate]. simpl.
  destruct (Auth.json_falsy _); [discriminate|]. by destruct (prop_truthy _ _).
Qed.

(** C5: logging out does not reset [currentView]: when the next login
    opens the main screen, it shows the view the previous user had open,
    whatever the new user's role. *)
Theorem logout_login_keeps_view (s s1 s2 : AppState) (d p : jsstr) :
  app_step E_Logout s = Some s1 -> app_step (E_Login d p) s1 = Some s2 ->
  Auth.isLoading (auth s2) = false -> current_session (auth s2) = Active ->
  screen s2 = MainScreen (renderContent (currentView s)).
Proof.
  intros H1 H2 Hl Ha. rewrite (screen_active s2 Hl Ha).
  unfold app_step in H1, H2. destruct (screen s); try discriminate. injection H1 as <-.
  destruct (screen _); try discriminate. injection H2 as <-.
  by rewrite (proj2 (login_event_auth d p _)).
Qed.

(** C10: a login that reaches [login] (both fields filled in) always leaves
    the login form empty, with no error: the form was unmounted while
    [Portal] showed its spinner, so "invalid credentials" is never
    displayed. *)
Theorem login_form_remounts (s s' : AppState) (d p : jsstr) :
  str_falsy d = false -> str_falsy p = false -> app_step (E_Login d p) s = Some s' ->
  loginForm s' = fresh_login.
Proof.
  intros Hd Hp Hstep. unfold app_step in Hstep. destruct (screen s); try discriminate.
  injection Hstep as <-. unfold login_event, LoginForm.submit_start.
  cbn [LoginForm.domain LoginForm.password]. rewrite Hd, Hp. cbn [orb].
  destruct (LoginForm.submit_finish _ _). cbn [loginForm].
  by unfold portal_screen; cbn [Auth.isLoading Auth.login_start Auth.set_isLoading].
Qed.

End Props.

(** * Witnesses *)

Lemma ms0_reachable : reachable ms0.
Proof. apply r_boot. exact I. Qed.

Lemma reachable_synced_witness :
  reachable admin_in /\ synced (auth admin_in).
Proof.
  assert (Hr : reachable admin_in).
  { apply (r_step ms0 (E_Login (js "admin@gov27.ru") (js "password"))); [apply ms0_reachable|].
    vm_compute. reflexivity. }
  split; [exact Hr|]. exact (reachable_synced MapStorage_set_total admin_in Hr).
Defined.

Lemma reachable_not_loading_witness :
  reachable admin_in /\ screen admin_in <> Loading.
Proof.
  assert (Hr : reachable admin_in).
  { apply (r_step ms0 (E_Login (js "admin@gov27.ru") (js "password"))); [apply ms0_reachable|].
    vm_compute. reflexivity. }
  split; [exact Hr|]. exact (reachable_not_loading MapStorage_set_total admin_in Hr).
Defined.

Lemma app_refines_witness :
  app_step (E_Login (js "admin@gov27.ru") (js "password")) ms0 = Some admin_in /\
  spec_step (abs ms0) (abs admin_in).
Proof.
  assert (Hs : app_step (E_Login (js "admin@gov27.ru") (js "password")) ms0 = Some admin_in)
    by (vm_compute; reflexivity).
  split; [exact Hs|]. exact (app_refines MapStorage_set_total ms0 admin_in _ ms0_reachable Hs).
Defined.

Lemma logout_login_keeps_view_witness :
  screen ivanov_in = MainScreen (C_AdminPanel AdminPanel.ministries) /\
  Navigation.is_admin (Auth.user (auth ivanov_in)) = false.
Proof.
  assert (H1 : app_step E_Logout admin_in_ministries = Some after_logout) by (vm_compute; reflexivity).
  assert (H2 : app_step (E_Login (js "ivanov@gov27.ru") (js "password")) after_logout = Some ivanov_in)
    by (vm_compute; reflexivity).
  assert (Hl : Auth.isLoading (auth ivanov_in) = false) by (vm_compute; reflexivity).
  assert (Ha : current_session (auth ivanov_in) = Active) by (vm_compute; reflexivity).
  split; [|vm_compute; reflexivity].
  rewrite (logout_login_keeps_view admin_in_ministries after_logout ivanov_in _ _ H1 H2 Hl Ha).
  vm_compute. reflexivity.
Defined.

Lemma login_form_remounts_witness :
  app_step (E_Login (js "ivanov@gov27.ru") (js "secret")) ms0 = Some after_bad_login /\
  LoginForm.error (loginForm after_bad_login) = [].
Proof.
  assert (Hs : app_step (E_Login (js "ivanov@gov27.ru") (js "secret")) ms0 = Some after_bad_login)
    by (vm_compute; reflexivity).
  split; [exact Hs|].
  by rewrite (login_form_remounts ms0 after_bad_login (js "ivanov@gov27.ru") (js "secret")
    eq_refl eq_refl Hs).
Defined.

End App.
