(* ===== verification/Layout.v ===== *)
(** * The layout around the content, and the login page

    What the screens around [Portal]'s content render, as far as it
    depends on the state:
    - [Module HeaderView] (components/layout/Header.tsx, lines 15-101):
      nothing without a user, else the administrator badge, the initials
      [getInitials(user.firstName, user.lastName)] (which call
      [charAt] and throw a [TypeError] on a value that is not a string),
      the user's name and contacts and the names of their organisation,
      and the logout item;
    - [Module NavigationView] (components/layout/Navigation.tsx, lines
      77-104): one button per offered item, highlighted when it is the
      current view, with an [Admin] badge on administration items;
    - [Module DashboardView] (components/dashboard/Dashboard.tsx, lines
      7-172): the greeting, the organisation line, the date, one card per
      active resource whose click runs [handleResourceClick(resource.url)],
      the recent activities, the quick actions (buttons with no handler)
      and the notifications, three constant lists;
    - [Module LoginView] (components/auth/LoginForm.tsx, lines 31-97): the
      inputs and their [onChange] handlers, the alert, the submit button
      and the demonstration accounts the page lists.
    The theorems show that a saved record the program did not write,
    which the start-up effect accepts, can open the main screen and make
    the header throw; that the header renders for every user the
    directory logs in; that at most one navigation button is highlighted;
    that no card of the seeded dashboard opens a page; and that the
    demonstration accounts the login page lists are accepted. *)

From stdpp Require Import base list strings.
From Stdlib Require Import NArith ZArith.
From S2P Require Import Prelude JsLib Types Json Storage Auth RefData AdminPanel Screens App.

Module HeaderView.
Import Header.

(** [getInitials(user.firstName, user.lastName)]: [charAt] exists on
    strings only, and is looked up on [undefined], [null], numbers,
    booleans, arrays and objects in vain. *)
Definition initials_of (user : json) : outcome jsstr :=
  match Auth.json_get user (js "firstName"), Auth.json_get user (js "lastName") with
  | Some (JStr f), Some (JStr l) => Normal (getInitials f l)
  | _, _ => Throw TypeError
  end.

(** What the header shows; the values of [{user.f}] are kept as the
    JavaScript values React renders. *)
Record View := mkView {
  admin_badge : bool;
  initials : jsstr;
  full_name : list (option json);
  email_value : option json;
  ministry_name : option jsstr;
  department_name : option jsstr;
  position_name : option jsstr;
  contacts : list (option json)
}.

Section Render.
Context {S : Type} `{WebStorage S}.

(** [Header()]: [null] without a user, else the header, unless
    [getInitials] throws during the render. *)
Definition header_view (st : Auth.AuthState (S:=S)) : outcome (option View) :=
  let user := Auth.user st in
  if Auth.json_falsy user then Normal None
  else match initials_of user with
       | Throw e => Throw e
       | Normal ini =>
           Normal (Some (mkView
             (match Auth.json_get user (js "role") with
              | Some (JStr r) => bool_decide (r = js "admin") | _ => false end)
             ini
             [Auth.json_get user (js "lastName"); Auth.json_get user (js "firstName");
              Auth.json_get user (js "middleName")]
             (Auth.json_get user (js "email"))
             (Ministry.name <$> userMinistry st)
             (Department.name <$> userDepartment st)
             (Position.name <$> userPosition st)
             [Auth.json_get user (js "officeNumber"); Auth.json_get user (js "phoneNumber");
              Auth.json_get user (js "internalPhone")]))
       end.

(** The logout item ([onClick={logout}], line 92). *)
Definition onLogoutClick (st : Auth.AuthState (S:=S)) : Auth.AuthState (S:=S) := Auth.logout st.

End Render.

End HeaderView.

Module NavigationView.
Import Navigation.

(** A button of the menu: the item, whether it is highlighted
    ([currentView === item.id]) and whether it carries the [Admin] badge. *)
Record Button := mkButton {
  button_id : jsstr;
  button_name : jsstr;
  highlighted : bool;
  admin_badge : bool
}.

Definition nav_view (user : json) (currentView : jsstr) : list Button :=
  map (fun item => mkButton (nav_id item) (nav_name item)
                     (bool_decide (currentView = nav_id item))
                     (existsb (fun a => bool_decide (a = js "admin")) (access item) && is_admin user))
    (filteredNavigation user).

(** [onClick={() => onViewChange(item.id)}]: the application's
    navigation event. *)
Definition onButtonClick (b : Button) : App.event := App.E_Navigate (button_id b).

End NavigationView.

Module DashboardView.
Import Dashboard Header.

(** The constant lists of lines 25-37: (id, action, time, icon) and
    (id, name, icon, color). *)
Definition recentActivities : list (N * jsstr * jsstr * jsstr) :=
  [(1%N, js "Вход в систему", js "10:30", js "LogIn");
   (2%N, js "Просмотр документа №123", js "09:45", js "FileText");
   (3%N, js "Отправка заявки", js "09:15", js "Send");
   (4%N, js "Обновление профиля", js "08:30", js "User")].

Definition quickActions : list (N * jsstr * jsstr * jsstr) :=
  [(1%N, js "Создать документ", js "Plus", js "bg-gov-blue-500");
   (2%N, js "Найти контакт", js "Search", js "bg-gov-gray-500");
   (3%N, js "Отчеты", js "BarChart3", js "bg-green-500");
   (4%N, js "Календарь", js "Calendar", js "bg-purple-500")].

(** The two notifications of lines 137-168: text and badge. *)
Definition notifications : list (jsstr * jsstr) :=
  [(js "Обновление системы запланировано на 15:00", js "Важно");
   (js "Новые документы доступны для ознакомления", js "Инфо")].

(** What the page shows: the greeting's [{user.firstName}], the
    organisation line, the date, a card per active resource (identifier,
    title and description), the activities (action and time), the names
    on the quick-action buttons (which have no [onClick]) and the
    notifications. *)
Record View := mkView {
  greeting : option json;
  ministry_name : option jsstr;
  department_name : option jsstr;
  today : jsstr;
  cards : list (jsstr * jsstr * jsstr);
  activities : list (jsstr * jsstr);
  actions : list jsstr;
  notes : list (jsstr * jsstr)
}.

Section Render.
Context {S : Type} `{WebStorage S}.

(** [Dashboard()]; [date] is the text of
    [new Date().toLocaleDateString('ru-RU', ...)], which depends on the
    clock and the locale data. *)
Definition dashboard_view (date : jsstr) (st : Auth.AuthState (S:=S)) : option View :=
  if Auth.json_falsy (Auth.user st) then None
  else Some (mkView (Auth.json_get (Auth.user st) (js "firstName"))
               (Ministry.name <$> userMinistry st) (Department.name <$> userDepartment st)
               date
               (map (fun r => (Resource.id r, Resource.title r, Resource.description r))
                  (activeResources (Auth.resources st)))
               (map (fun '(_, a, t, _) => (a, t)) recentActivities)
               (map (fun '(_, n, _, _) => n) quickActions)
               notifications).

(** A click on the [i]-th card: [handleResourceClick(resource.url)]. *)
Definition onCardClick (st : Auth.AuthState (S:=S)) (i : nat) : option effect :=
  (fun r => handleResourceClick (Resource.url r)) <$> activeResources (Auth.resources st) !! i.

End Render.

End DashboardView.

Module LoginView.
Import LoginForm.

(** [onChange={(e) => setDomain(e.target.value)}] and the password's. *)
Definition onDomainChange (v : jsstr) (ls : LoginState) : LoginState :=
  mkLoginState v (password ls) (error ls).

Definition onPasswordChange (v : jsstr) (ls : LoginState) : LoginState :=
  mkLoginState (domain ls) v (error ls).

Record View := mkView {
  domain_value : jsstr;
  password_value : jsstr;
  inputs_disabled : bool;
  alert : option jsstr;
  button_label : jsstr;
  demo_accounts : list (jsstr * jsstr)
}.

(** Lines 31-97: the alert shows a non-empty [error]; the inputs and the
    button are disabled while [isLoading]; the page lists two
    demonstration accounts (lines 89-93). *)
Definition login_view (ls : LoginState) (isLoading : bool) : View :=
  mkView (domain ls) (password ls) isLoading
    (if str_falsy (error ls) then None else Some (error ls))
    (if isLoading then js "Вход в систему..." else js "Войти")
    [(js "admin@gov27.ru", js "password"); (js "ivanov@gov27.ru", js "password")].

End LoginView.

(** * Properties *)

Module LayoutProps.
Import Portal App.

Section Props.
Context {S : Type} `{WebStorageLaws S}.

(** A well-formed saved object is restored as the session user:
    the page opens on the main screen unless it is a pending profile. *)
Lemma boot_saved_object (store : S) (l : list (jsstr * json)) :
  getItem store Auth.key_user = Some (stringify (JObj l)) -> json_wfb (JObj l) = true ->
  Auth.user (auth (boot store)) = JObj l /\
  screen (boot store) =
    if prop_truthy (JObj l) (js "isFirstLogin") then FirstLoginScreen
    else MainScreen (renderContent (js "dashboard")).
Proof.
  intros Hg Hwf. unfold screen, boot. cbn [auth currentView].
  rewrite (Auth.restore_initial_saved (JObj l) store Hwf Hg). cbn [fst Auth.user].
  split; [done|]. unfold portal_screen. cbn [Auth.isLoading Auth.isAuthenticated Auth.user].
  done.
Qed.

(** C13: a saved object the program did not write, with no string
    [firstName], passes the start-up effect, which checks no shape: the
    page opens on the main screen and the header throws a [TypeError]
    in [getInitials] while rendering it. *)
Theorem foreign_record_header_throws (store : S) (l : list (jsstr * json)) :
  getItem store Auth.key_user = Some (stringify (JObj l)) -> json_wfb (JObj l) = true ->
  prop_truthy (JObj l) (js "isFirstLogin") = false ->
  (forall f, Auth.json_get (JObj l) (js "firstName") <> Some (JStr f)) ->
  screen (boot store) = MainScreen (renderContent (js "dashboard")) /\
  HeaderView.header_view (auth (boot store)) = Throw TypeError.
Proof.
  intros Hg Hwf Hf Hn. destruct (boot_saved_object store l Hg Hwf) as [Hu Hs].
  rewrite Hf in Hs. split; [exact Hs|].
  unfold HeaderView.header_view, HeaderView.initials_of. rewrite Hu. cbn [Auth.json_falsy].
  destruct (Auth.json_get (JObj l) (js "firstName")) as [[]|]; try done.
  by destruct (Hn s).
Qed.

(** The header renders, with the initials of the first and last name,
    for the object of every directory user, which has them as strings. *)
Lemma header_view_user (st : Auth.AuthState (S:=S)) (u : User.t) :
  Auth.user st = Auth.user_to_json u ->
  exists v, HeaderView.header_view st = Normal (Some v) /\
    HeaderView.initials v = Header.getInitials (User.firstName u) (User.lastName u).
Proof.
  intros Hu. unfold HeaderView.header_view, HeaderView.initials_of. rewrite Hu.
  eexists. split; [reflexivity|]. reflexivity.
Qed.

Lemma handleResourceClick_relative (url : jsstr) :
  starts_with (js "http") url = false ->
  Dashboard.handleResourceClick url = Dashboard.ConsoleLog (js "Переход к ресурсу: " ++ url).
Proof. intros Hu. unfold Dashboard.handleResourceClick. by rewrite Hu. Qed.

(** C33: no card of the seeded dashboard opens a page: every seeded
    resource has a relative URL, so [handleResourceClick] only writes to
    the console. *)
Theorem seeded_cards_only_log (st : Auth.AuthState (S:=S)) (i : nat) (e : Dashboard.effect) :
  Auth.resources st = Auth.mock_resources -> DashboardView.onCardClick st i = Some e ->
  exists url, e = Dashboard.ConsoleLog (js "Переход к ресурсу: " ++ url).
Proof.
  intros Hr Hc. unfold DashboardView.onCardClick in Hc. rewrite Hr in Hc.
  apply fmap_Some in Hc as (r & Hi & ->). exists (Resource.url r).
  apply handleResourceClick_relative.
  assert (Hall : Forall (fun r => starts_with (js "http") (Resource.url r) = false)
                   (Dashboard.activeResources Auth.mock_resources))
    by (vm_compute; repeat constructor).
  rewrite Forall_lookup in Hall. exact (Hall i r Hi).
Qed.

End Props.

(** At most one button of the menu is highlighted: the items offered have
    distinct identifiers. *)
Lemma nav_highlight_at_most_one (user : json) (v : jsstr) :
  (length (List.filter NavigationView.highlighted (NavigationView.nav_view user v)) <= 1)%nat.
Proof.
  apply (filter_at_most_one NavigationView.button_id _ v).
  - unfold NavigationView.nav_view. rewrite map_map. cbn [NavigationView.button_id].
    apply (sublist_NoDup _ (map Navigation.nav_id (Navigation.navigation ++ Navigation.adminNavigation))).
    + apply (bool_decide_unpack _). vm_compute. reflexivity.
    + apply sublist_map. unfold Navigation.filteredNavigation.
      etransitivity; [apply List_filter_sublist|].
      destruct (Navigation.is_admin user); [done|]. by apply sublist_inserts_r.
  - intros b Hb Hh. unfold NavigationView.nav_view in Hb.
    apply list_elem_of_fmap in Hb as (item & -> & _). cbn in Hh |- *.
    by apply bool_decide_eq_true in Hh.
Qed.

(** The two demonstration accounts the login page lists are accepted. *)
Lemma demo_accounts_log_in (ls : LoginForm.LoginState) (isLoading : bool) :
  Forall (fun '(d, p) => Auth.login_rejected d p = false)
    (LoginView.demo_accounts (LoginView.login_view ls isLoading)).
Proof. vm_compute. repeat constructor. Qed.

(** * Witnesses *)

(** A record [{"role":"user"}] saved under ['portal_user']. *)
Definition foreign_store : QuotaStorage :=
  mkQuotaStorage (<[Auth.key_user := stringify (JObj [(js "role", JStr (js "user"))])]> ∅) 1000.

Lemma foreign_record_header_throws_witness :
  getItem foreign_store Auth.key_user = Some (stringify (JObj [(js "role", JStr (js "user"))])) /\
  App.screen (App.boot foreign_store) = Portal.MainScreen (Portal.renderContent (js "dashboard")) /\
  HeaderView.header_view (App.auth (App.boot foreign_store)) = Throw TypeError.
Proof.
  assert (Hg : getItem foreign_store Auth.key_user
               = Some (stringify (JObj [(js "role", JStr (js "user"))]))) by reflexivity.
  assert (Hn : forall f, Auth.json_get (JObj [(js "role", JStr (js "user"))]) (js "firstName")
                         <> Some (JStr f)) by (intros f; vm_compute; discriminate).
  split; [exact Hg|].
  exact (foreign_record_header_throws foreign_store _ Hg eq_refl eq_refl Hn).
Defined.

Lemma seeded_cards_only_log_witness :
  DashboardView.onCardClick (Auth.initial_state (empty_storage 1000)) 0
    = Some (Dashboard.ConsoleLog (js "Переход к ресурсу: /sed")) /\
  exists url, Dashboard.ConsoleLog (js "Переход к ресурсу: /sed")
              = Dashboard.ConsoleLog (js "Переход к ресурсу: " ++ url).
Proof.
  assert (Hc : DashboardView.onCardClick (Auth.initial_state (empty_storage 1000)) 0
               = Some (Dashboard.ConsoleLog (js "Переход к ресурсу: /sed")))
    by (vm_compute; reflexivity).
  split; [exact Hc|].
  exact (seeded_cards_only_log (Auth.initial_state (empty_storage 1000)) 0 _ eq_refl Hc).
Defined.

End LayoutProps.
