(* ===== verification/Shape.v ===== *)
(** * The shape of the session user along the application's runs

    [restore] accepts any JSON value as the user (AuthContext.tsx line
    121), and [Layout.foreign_record_header_throws] shows what a record
    of a foreign shape does to the header.  This file shows that the
    program itself never produces one: along every run of [App.app_step]
    from a browser whose saved record, if any, the program wrote, the
    user is [null] or an object whose [firstName] and [lastName] are
    strings, and the saved record is the JSON text of such a value.  This
    holds whether or not saving fails: a failed [setItem] leaves the
    record the program wrote before.  Its consequence is that the header
    renders in every such state.

    The text an event carries is a DOM string, a sequence of 16-bit code
    units ([event_ok]); the rest of the model does not need that bound,
    but a value saved with a code unit above it would not be JSON text. *)

From stdpp Require Import base list strings.
From Stdlib Require Import NArith.
From S2P Require Import Prelude JsLib Types Json Storage Auth FirstLoginForm AdminPanel Screens App Layout.

Module Shape.
Import Portal App.

(** ** The shape *)

Definition is_str (v : json) : bool := match v with JStr _ => true | _ => false end.

(** [l.f] is a string. *)
Definition str_prop (f : jsstr) (l : list (jsstr * json)) : bool :=
  match obj_get f l with Some v => is_str v | None => false end.

(** A user value the header can render: [null], or an object whose
    [firstName] and [lastName] are strings. *)
Definition user_shaped (v : json) : bool :=
  match v with
  | JNull => true
  | JObj l => str_prop (js "firstName") l && str_prop (js "lastName") l
  | _ => false
  end.

(** A DOM string: 16-bit code units. *)
Definition units_ok (s : jsstr) : bool := forallb (fun c => c <? 65536)%N s.

Definition event_ok (e : event) : bool :=
  match e with
  | E_SubmitProfile fd =>
      forallb (fun f => units_ok (FirstLoginForm.get_field fd f)) FirstLoginForm.all_fields
  | _ => true
  end.

Section Reach.
Context {S : Type} `{WebStorage S}.
Local Abbreviation st_t := (Auth.AuthState (S:=S)).

(** The saved record, if any, is the text of a well-formed shaped value. *)
Definition store_shaped (store : S) : Prop :=
  match getItem store Auth.key_user with
  | None => True
  | Some t => exists v, json_wfb v = true /\ user_shaped v = true /\ t = stringify v
  end.

Definition shape_inv (st : st_t) : Prop :=
  json_wfb (Auth.user st) = true /\ user_shaped (Auth.user st) = true /\
  store_shaped (Auth.storage st).

(** The runs from a page load over such a storage, by events whose text
    is made of DOM strings. *)
Inductive shaped_reachable : AppState -> Prop :=
| sr_boot store : store_shaped store -> shaped_reachable (boot store)
| sr_step s e s' : shaped_reachable s -> event_ok e = true -> app_step e s = Some s' ->
    shaped_reachable s'.

End Reach.

(** * Properties *)

(** ** Objects built by spreading *)

Lemma str_prop_set f k v l :
  str_prop f l = true -> (k = f -> is_str v = true) -> str_prop f (obj_set k v l) = true.
Proof.
  intros Hl Hk. unfold str_prop. destruct (decide (k = f)) as [->|Hne].
  - rewrite obj_get_set_eq. by apply Hk.
  - by rewrite obj_get_set_ne by congruence.
Qed.

Lemma str_prop_merge f l data :
  str_prop f l = true -> Forall (fun kv => kv.1 = f -> is_str kv.2 = true) data ->
  str_prop f (Auth.obj_merge l data) = true.
Proof.
  intros Hl Hd. revert l Hl. unfold Auth.obj_merge.
  induction Hd as [|[k v] data Hkv _ IH]; intros l Hl; [done|]. cbn [fold_left].
  apply IH. by apply str_prop_set.
Qed.

Lemma wf_merge l data :
  json_wfb (JObj l) = true -> Forall (fun kv => units_ok kv.1 && json_wfb kv.2 = true) data ->
  json_wfb (JObj (Auth.obj_merge l data)) = true.
Proof.
  intros Hl Hd. revert l Hl. unfold Auth.obj_merge.
  induction Hd as [|[k v] data Hkv _ IH]; intros l Hl; [done|]. cbn [fold_left].
  apply IH. apply andb_true_iff in Hkv as [Hk Hv]. by apply json_wfb_obj_set.
Qed.

(** Spreading data that sets [firstName] and [lastName], if at all, to
    strings keeps the shape. *)
Lemma shaped_merge l data :
  user_shaped (JObj l) = true ->
  Forall (fun kv => kv.1 = js "firstName" \/ kv.1 = js "lastName" -> is_str kv.2 = true) data ->
  user_shaped (JObj (Auth.obj_merge l data)) = true.
Proof.
  cbn [user_shaped]. intros [Hf Hl]%andb_true_iff Hd. apply andb_true_iff.
  split; apply str_prop_merge; try done; eapply Forall_impl; try exact Hd; naive_solver.
Qed.

Lemma user_to_json_shaped (u : User.t) : user_shaped (Auth.user_to_json u) = true.
Proof. destruct u. vm_compute. reflexivity. Qed.

(** The profile the first-login form sends: every value a string. *)
Lemma formData_json_strings fd :
  Forall (fun kv => is_str kv.2 = true) (FirstLoginForm.formData_json fd).
Proof. unfold FirstLoginForm.formData_json. apply Forall_fmap, Forall_forall. done. Qed.

Lemma formData_json_wf fd :
  event_ok (E_SubmitProfile fd) = true ->
  Forall (fun kv => units_ok kv.1 && json_wfb kv.2 = true) (FirstLoginForm.formData_json fd).
Proof.
  cbn [event_ok]. intros Hfd. unfold FirstLoginForm.formData_json.
  apply Forall_fmap, Forall_forall. intros f Hf. cbn.
  rewrite forallb_forall in Hfd. apply andb_true_iff. split; [by destruct f|].
  apply Hfd, list_elem_of_In, Hf.
Qed.

Lemma completed_data_ok :
  Forall (fun kv => units_ok kv.1 && json_wfb kv.2 = true) [(js "isFirstLogin", JBool false)] /\
  Forall (fun kv => kv.1 = js "firstName" \/ kv.1 = js "lastName" -> is_str kv.2 = true)
    [(js "isFirstLogin", JBool false)].
Proof.
  split; repeat constructor. cbn. intros [Heq|Heq]; vm_compute in Heq; discriminate.
Qed.

Section Steps.
Context {S : Type} `{WebStorageLaws S}.
Local Abbreviation st_t := (Auth.AuthState (S:=S)).

Lemma persist_user v (st : st_t) : Auth.user (fst (Auth.persist v st)) = Auth.user st.
Proof. unfold Auth.persist. by destruct (setItem _ _ _). Qed.

Lemma persist_store v (st : st_t) :
  json_wfb v = true -> user_shaped v = true -> store_shaped (Auth.storage st) ->
  store_shaped (Auth.storage (fst (Auth.persist v st))).
Proof.
  intros Hwf Hsh Hst. unfold Auth.persist.
  destruct (setItem _ _ _) as [s'|e] eqn:E; cbn [fst Auth.storage Auth.set_storage]; [|done].
  unfold store_shaped. rewrite (get_set_eq _ _ _ _ E). eauto.
Qed.

(** Setting the user to a shaped value and saving it keeps the shape,
    whether or not saving fails. *)
Lemma persist_inv v (st : st_t) :
  json_wfb v = true -> user_shaped v = true -> store_shaped (Auth.storage st) ->
  shape_inv (fst (Auth.persist v (Auth.set_user v st))).
Proof.
  intros Hwf Hsh Hst. unfold shape_inv. rewrite persist_user. cbn [Auth.user Auth.set_user].
  split_and!; [done|done|]. by apply persist_store.
Qed.

Lemma boot_shape (store : S) : store_shaped store -> shape_inv (auth (boot store)).
Proof.
  unfold store_shaped at 1. destruct (getItem store Auth.key_user) as [t|] eqn:Eg.
  - intros (v & Hwf & Hsh & ->). unfold boot. cbn [auth].
    rewrite (Auth.restore_initial_saved v store Hwf Eg). cbn [fst].
    split_and!; [done|done|]. unfold store_shaped. cbn [Auth.storage]. rewrite Eg. eauto.
  - intros _. unfold boot, Auth.restore. cbn [auth Auth.storage Auth.initial_state]. rewrite Eg.
    split_and!; [done|done|]. unfold store_shaped.
    cbn [fst Auth.storage Auth.set_isLoading Auth.initial_state]. by rewrite Eg.
Qed.

Lemma login_shape d p e (st : st_t) :
  shape_inv st -> shape_inv (snd (LoginForm.handleSubmit (LoginForm.mkLoginState d p e) st)).
Proof.
  intros Hs. rewrite handleSubmit_snd.
  destruct (str_falsy d || str_falsy p); [done|].
  destruct (Auth.login_rejected d p) eqn:Er.
  { by rewrite Auth.login_finish_rejected by done. }
  unfold Auth.login_rejected in Er. apply negb_false_iff, andb_true_iff in Er as [Ef Ep].
  apply bool_decide_eq_true in Ef as [u Ef], Ep.
  rewrite (Auth.login_finish_found d p u) by done.
  assert (Hwf : json_wfb (Auth.user_to_json u) = true)
    by (apply Auth.mock_users_wf; by apply Auth.find_user_spec in Ef as [? _]).
  destruct Hs as (_ & _ & Hst).
  destruct (setItem _ _ _) as [s'|err] eqn:E; cbn [fst];
    (split_and!; [exact Hwf|apply user_to_json_shaped|]); cbn; [|exact Hst].
  unfold store_shaped. rewrite (get_set_eq _ _ _ _ E). exists (Auth.user_to_json u).
  split_and!; [exact Hwf|apply user_to_json_shaped|done].
Qed.

Lemma submit_shape fd (st : st_t) :
  shape_inv st -> event_ok (E_SubmitProfile fd) = true ->
  shape_inv (snd (FirstLoginForm.handleSubmit st (FirstLoginForm.mkFormState fd [] false) st)).
Proof.
  intros (Hwf & Hsh & Hst) Hfd.
  unfold FirstLoginForm.handleSubmit. cbn [FirstLoginForm.formData].
  destruct (FirstLoginForm.validateForm fd) as [[] errs]; cbn [negb snd]; [|by split_and!].
  unfold Auth.updateUserProfile, Auth.completeFirstLogin.
  destruct (Auth.user st) as [| | | | |l] eqn:Eu; try discriminate; cbn [Auth.json_falsy].
  { cbn iota. cbn [fst]. unfold shape_inv. by rewrite Eu. }
  cbn [Auth.own_props].
  destruct completed_data_ok as [Hcw Hcs].
  assert (Hd : Forall (fun kv => kv.1 = js "firstName" \/ kv.1 = js "lastName" -> is_str kv.2 = true)
                (FirstLoginForm.formData_json fd))
    by (eapply Forall_impl; [apply formData_json_strings|naive_solver]).
  pose proof (persist_inv (JObj (Auth.obj_merge l (FirstLoginForm.formData_json fd))) st
    (wf_merge _ _ Hwf (formData_json_wf fd Hfd)) (shaped_merge _ _ Hsh Hd) Hst) as Hi1.
  destruct (Auth.persist _ (Auth.set_user _ st)) as [st1 [[]|err]]; cbn [fst] in Hi1 |- *;
    [|exact Hi1].
  apply persist_inv; [by apply wf_merge|by apply shaped_merge|apply Hi1].
Qed.

(** One step keeps the shape. *)
Lemma step_shape (s s' : AppState) (e : event) :
  shape_inv (auth s) -> event_ok e = true -> app_step e s = Some s' -> shape_inv (auth s').
Proof.
  intros Hs He Hstep. unfold app_step in Hstep.
  destruct e as [|d p| |v|fd|sec now x|sec id p|sec id].
  - injection Hstep as <-. apply boot_shape, Hs.
  - destruct (screen s); try discriminate.
    injection Hstep as <-. rewrite (proj1 (login_event_auth d p s)). by apply login_shape.
  - destruct (screen s); try discriminate. injection Hstep as <-. cbn [auth].
    unfold Auth.logout, shape_inv, store_shaped.
    cbn [Auth.storage Auth.set_storage Auth.user Auth.set_isAuthenticated Auth.set_user].
    by rewrite get_remove_eq.
  - destruct (screen s); try discriminate. case_bool_decide; [|discriminate].
    by injection Hstep as <-.
  - destruct (screen s); try discriminate. injection Hstep as <-. by apply submit_shape.
  - destruct (screen s) as [| | |[| | |sec']]; try discriminate.
    case_bool_decide; [|discriminate]. injection Hstep as <-. cbn [auth].
    match goal with |- shape_inv ?st' =>
      destruct (crud_same (auth s) st' sec) as (Hu & _ & Hst); [left; eauto|] end.
    unfold shape_inv. by rewrite Hu, Hst.
  - destruct (screen s) as [| | |[| | |sec']]; try discriminate.
    case_bool_decide; [|discriminate]. injection Hstep as <-. cbn [auth].
    match goal with |- shape_inv ?st' =>
      destruct (crud_same (auth s) st' sec) as (Hu & _ & Hst); [right; left; eauto|] end.
    unfold shape_inv. by rewrite Hu, Hst.
  - destruct (screen s) as [| | |[| | |sec']]; try discriminate.
    case_bool_decide; [|discriminate]. injection Hstep as <-. cbn [auth].
    match goal with |- shape_inv ?st' =>
      destruct (crud_same (auth s) st' sec) as (Hu & _ & Hst); [right; right; eauto|] end.
    unfold shape_inv. by rewrite Hu, Hst.
Qed.

Lemma shaped_reachable_shape_inv (s : AppState) : shaped_reachable s -> shape_inv (auth s).
Proof.
  induction 1 as [store Hok|s e s' _ IH He Hstep]; [by apply boot_shape|].
  by apply (step_shape s s' e).
Qed.

Lemma header_view_shaped (st : st_t) :
  user_shaped (Auth.user st) = true -> exists r, HeaderView.header_view st = Normal r.
Proof.
  unfold HeaderView.header_view, HeaderView.initials_of.
  destruct (Auth.user st) as [| | | | |l]; try discriminate; cbn [Auth.json_falsy]; [eauto|].
  cbn [user_shaped Auth.json_get]. unfold str_prop.
  destruct (obj_get (js "firstName") l) as [[]|], (obj_get (js "lastName") l) as [[]|];
    try discriminate. eauto.
Qed.

(** C14: in every state reachable from a page load over a storage the
    program wrote (an empty one included), by events carrying DOM
    strings, the session user is [null] or a well-formed object with
    string [firstName] and [lastName], and the saved record is the JSON
    text of such a value, whether or not saving has failed on the way. *)
Theorem reachable_user_shaped (s : AppState (S:=S)) :
  shaped_reachable s ->
  json_wfb (Auth.user (auth s)) = true /\ user_shaped (Auth.user (auth s)) = true /\
  store_shaped (Auth.storage (auth s)).
Proof. apply shaped_reachable_shape_inv. Qed.

(** C15: in every such state the header renders: [getInitials] never
    throws on a user the program produced itself. *)
Theorem reachable_header_renders (s : AppState (S:=S)) :
  shaped_reachable s -> exists r, HeaderView.header_view (auth s) = Normal r.
Proof. intros Hr. apply header_view_shaped, (shaped_reachable_shape_inv s Hr). Qed.

End Steps.

(** * Witnesses: the first page load over an empty storage, then the
    administrator's login. *)

Lemma admin_in_shaped_reachable : shaped_reachable admin_in.
Proof.
  apply (sr_step ms0 (E_Login (js "admin@gov27.ru") (js "password"))); [|reflexivity|].
  - apply sr_boot. exact I.
  - vm_compute. reflexivity.
Qed.

Lemma reachable_user_shaped_witness :
  shaped_reachable admin_in /\ user_shaped (Auth.user (auth admin_in)) = true.
Proof.
  split; [exact admin_in_shaped_reachable|].
  exact (proj1 (proj2 (reachable_user_shaped admin_in admin_in_shaped_reachable))).
Defined.

Lemma reachable_header_renders_witness :
  shaped_reachable admin_in /\ exists r, HeaderView.header_view (auth admin_in) = Normal r.
Proof.
  split; [exact admin_in_shaped_reachable|].
  exact (reachable_header_renders admin_in admin_in_shaped_reachable).
Defined.

End Shape.
